(** * Risk management and rebalancing of the trading-signals backend

    A shallow embedding of
    [backend/app/services/risk_management_service.py] and of the
    rebalancing planner of [backend/app/services/portfolio_service.py].

    Numbers.  The services compute on Python [float]s obtained from
    [Decimal] columns.  They are embedded as exact rationals ([Q]): every
    [+], [-], [*], [/] and [abs] of the source is the corresponding exact
    operation, so rounding is not modelled.  A Python division by zero
    raises [ZeroDivisionError]; the embedding writes that case out
    wherever the source divides.

    Results.  Every service method returns a dict with a ['success'] flag;
    a failure dict carries an ['error'] string.  The embedding returns
    [Ok r] with a record [r] of the dict's fields, or [Err msg]. *)

From Stdlib Require Import QArith Qabs Qround ZArith String Ascii List Bool.
From Stdlib Require Import Lia Lqa Permutation Sorted.
Import ListNotations.
Open Scope Q_scope.

(** ** Python values *)

Module Py.

(** Result dicts: [{'success': True, ...}] or
    [{'success': False, 'error': msg}]. *)
Inductive result (A : Type) : Type :=
| Ok (a : A)
| Err (msg : string).
Arguments Ok {A} a.
Arguments Err {A} msg.

Definition is_ok {A} (r : result A) : bool :=
  match r with Ok _ => true | Err _ => false end.

(** [str(e)] of the exceptions the modelled code can raise. *)
Definition zero_division : string := "float division by zero".
Definition none_has_no (attr : string) : string :=
  ("'NoneType' object has no attribute '" ++ attr ++ "'")%string.
Definition unexpected_keyword (callee keyword : string) : string :=
  (callee ++ "() got an unexpected keyword argument '" ++ keyword ++ "'")%string.

(** Comparisons of floats. *)
Definition leb (x y : Q) : bool := Qle_bool x y.
Definition ltb (x y : Q) : bool := negb (Qle_bool y x).
Definition gtb (x y : Q) : bool := ltb y x.
Definition geb (x y : Q) : bool := leb y x.
Definition eqb (x y : Q) : bool := Qeq_bool x y.

(** Truth value of a float: [if x:] holds unless [x] is [0.0]. *)
Definition truthy (x : Q) : bool := negb (eqb x 0).

(** Truth value of an optional number: [None] and [0] are false. *)
Definition truthy_opt (x : option Q) : bool :=
  match x with Some v => truthy v | None => false end.

Definition min (x y : Q) : Q := if ltb y x then y else x.

(** [x / y], raising [ZeroDivisionError] on a zero divisor. *)
Definition div (x y : Q) : result Q :=
  if eqb y 0 then Err zero_division else Ok (x / y).

Definition bind {A B} (r : result A) (k : A -> result B) : result B :=
  match r with Ok a => k a | Err m => Err m end.

(** [str.lower()] on ASCII letters. *)
Definition lower_ascii (c : ascii) : ascii :=
  let n := nat_of_ascii c in
  if (Nat.leb 65 n && Nat.leb n 90)%bool then ascii_of_nat (n + 32) else c.

Fixpoint lower (s : string) : string :=
  match s with
  | EmptyString => EmptyString
  | String c s' => String (lower_ascii c) (lower s')
  end.

End Py.

Notation "x <- r ;; k" := (Py.bind r (fun x => k))
  (at level 61, r at next level, right associativity).

Import Py.

(** ** The rows the services read and write

    [app.models.trading_models] (the module both services import
    [Portfolio], [Position] and [Trade] from) is not part of the source
    tree; the records below carry the attributes the services access, with
    the types they are used at.  Numeric columns are non-null. *)

Record Portfolio : Type := mkPortfolio {
  pf_id : Z;
  pf_user_id : Z;
  pf_total_value : Q;
  pf_available_balance : Q
}.

Record Position : Type := mkPosition {
  pos_id : Z;
  pos_portfolio_id : Z;
  pos_symbol : string;
  pos_exchange : string;
  pos_position_type : string;
  pos_quantity : Q;
  pos_entry_price : Q;
  pos_current_price : Q;
  pos_stop_loss_price : option Q;
  pos_take_profit_price : option Q;
  pos_status : string;
  pos_exit_price : option Q;
  pos_exit_time : option Z
}.

Record Trade : Type := mkTrade {
  tr_id : Z;
  tr_portfolio_id : Z;
  tr_symbol : string;
  tr_exchange : string;
  tr_trade_type : string;
  tr_quantity : Q;
  tr_price : Q;
  tr_status : string;
  tr_order_type : string;
  tr_timestamp : Z
}.

(** The session's view of the database. *)
Record Db : Type := mkDb {
  db_portfolios : list Portfolio;
  db_positions : list Position;
  db_trades : list Trade;
  db_users : list Z
}.

(** [query(Portfolio).filter(Portfolio.id == i).first()] *)
Definition get_portfolio_row (db : Db) (i : Z) : option Portfolio :=
  find (fun p => Z.eqb (pf_id p) i) (db_portfolios db).

(** [query(Position).filter(Position.id == i).first()] *)
Definition get_position (db : Db) (i : Z) : option Position :=
  find (fun p => Z.eqb (pos_id p) i) (db_positions db).

(** [query(Position).filter(Position.portfolio_id == i,
    Position.status == 'active').all()] *)
Definition active_positions (db : Db) (i : Z) : list Position :=
  filter (fun p => (Z.eqb (pos_portfolio_id p) i
                    && String.eqb (pos_status p) "active")%bool)
         (db_positions db).

(** [query(User).filter(User.id == i).first()] *)
Definition get_user (db : Db) (i : Z) : option Z :=
  find (Z.eqb i) (db_users db).

(** Writing a mutated row back on [commit]: the row with the same primary
    key is replaced. *)
Fixpoint replace_position (p' : Position) (l : list Position) : list Position :=
  match l with
  | [] => []
  | p :: l' =>
      if Z.eqb (pos_id p) (pos_id p') then p' :: l'
      else p :: replace_position p' l'
  end.

Definition commit_position (db : Db) (p' : Position) : Db :=
  mkDb (db_portfolios db) (replace_position p' (db_positions db))
       (db_trades db) (db_users db).

Definition add_trade (db : Db) (t : Trade) : Db :=
  mkDb (db_portfolios db) (db_positions db) (db_trades db ++ [t]) (db_users db).

Definition is_long (position_type : string) : bool :=
  String.eqb (lower position_type) "long".

Definition set_stop_loss (p : Position) (s : option Q) : Position :=
  mkPosition (pos_id p) (pos_portfolio_id p) (pos_symbol p) (pos_exchange p)
    (pos_position_type p) (pos_quantity p) (pos_entry_price p)
    (pos_current_price p) s (pos_take_profit_price p) (pos_status p)
    (pos_exit_price p) (pos_exit_time p).

Definition set_quantity (p : Position) (q : Q) : Position :=
  mkPosition (pos_id p) (pos_portfolio_id p) (pos_symbol p) (pos_exchange p)
    (pos_position_type p) q (pos_entry_price p)
    (pos_current_price p) (pos_stop_loss_price p) (pos_take_profit_price p)
    (pos_status p) (pos_exit_price p) (pos_exit_time p).

Definition set_current_price (p : Position) (c : Q) : Position :=
  mkPosition (pos_id p) (pos_portfolio_id p) (pos_symbol p) (pos_exchange p)
    (pos_position_type p) (pos_quantity p) (pos_entry_price p)
    c (pos_stop_loss_price p) (pos_take_profit_price p)
    (pos_status p) (pos_exit_price p) (pos_exit_time p).

Definition close_position (p : Position) (price : Q) (now : Z) : Position :=
  mkPosition (pos_id p) (pos_portfolio_id p) (pos_symbol p) (pos_exchange p)
    (pos_position_type p) (pos_quantity p) (pos_entry_price p)
    (pos_current_price p) (pos_stop_loss_price p) (pos_take_profit_price p)
    "closed" (Some price) (Some now).

(** ** RiskManagementService *)

(** *** calculate_position_size *)

Record PositionSize : Type := mkPositionSize {
  ps_position_size : Q;
  ps_position_value : Q;
  ps_risk_amount : Q;
  ps_risk_percentage : Q;
  ps_position_percentage : Q;
  ps_required_capital : Q;
  ps_available_balance : Q
}.

Definition calculate_position_size (db : Db) (portfolio_id : Z)
    (symbol : string) (entry_price : Q) (stop_loss_price : option Q)
    (risk_percentage max_position_percentage : Q) : result PositionSize :=
  match get_portfolio_row db portfolio_id with
  | None => Err "Portfolio not found"
  | Some portfolio =>
      let total_value := pf_total_value portfolio in
      let available_balance := pf_available_balance portfolio in
      (* Calculate risk amount *)
      let risk_amount := total_value * (risk_percentage / 100) in
      (* Calculate position size based on stop loss *)
      (* Default to 2% price risk if no stop loss *)
      let default_size :=
        let default_risk := entry_price * 0.02 in
        div risk_amount default_risk in
      position_size <-
        match stop_loss_price with
        | Some stop =>
            if truthy stop then
              let price_risk := Qabs (entry_price - stop) in
              if gtb price_risk 0 then div risk_amount price_risk else Ok 0
            else default_size
        | None => default_size
        end ;;
      (* Apply maximum position size limit *)
      let max_position_value := total_value * (max_position_percentage / 100) in
      max_position_size <- div max_position_value entry_price ;;
      let position_size := Py.min position_size max_position_size in
      (* Check available balance *)
      let required_capital := position_size * entry_price in
      position_size <-
        (if gtb required_capital available_balance then
           q <- div available_balance entry_price ;; Ok (q * 0.95)
         else Ok position_size) ;;
      let position_value := position_size * entry_price in
      risk_pct <- div risk_amount total_value ;;
      position_pct <- div position_value total_value ;;
      Ok (mkPositionSize position_size position_value risk_amount
            (risk_pct * 100) (position_pct * 100)
            required_capital available_balance)
  end.

(** *** calculate_stop_loss *)

Record StopLoss : Type := mkStopLoss {
  sl_stop_loss_price : Q;
  sl_risk_amount : Q;
  sl_risk_percentage : Q;
  sl_method : string
}.

Definition stop_loss_level (entry_price : Q) (position_type method : string)
    (percentage atr_multiplier : Q) (support_resistance : option Q)
    : option Q :=
  if String.eqb method "percentage" then
    if is_long position_type then Some (entry_price * (1 - percentage / 100))
    else Some (entry_price * (1 + percentage / 100))
  else if (String.eqb method "atr" && truthy atr_multiplier)%bool then
    (* 2% as default ATR *)
    let estimated_atr := entry_price * 0.02 in
    if is_long position_type
    then Some (entry_price - estimated_atr * atr_multiplier)
    else Some (entry_price + estimated_atr * atr_multiplier)
  else if (String.eqb method "support_resistance"
           && truthy_opt support_resistance)%bool then
    support_resistance
  else None.

Definition calculate_stop_loss (entry_price : Q) (position_type method : string)
    (percentage atr_multiplier : Q) (support_resistance : option Q)
    : result StopLoss :=
  match stop_loss_level entry_price position_type method percentage
          atr_multiplier support_resistance with
  | Some stop_loss_price =>
      if truthy stop_loss_price then
        let risk_amount := Qabs (entry_price - stop_loss_price) in
        r <- div risk_amount entry_price ;;
        Ok (mkStopLoss stop_loss_price risk_amount (r * 100) method)
      else Err "Could not calculate stop loss"
  | None => Err "Could not calculate stop loss"
  end.

(** *** calculate_take_profit *)

Record TakeProfit : Type := mkTakeProfit {
  tp_take_profit_price : Q;
  tp_profit_amount : Q;
  tp_profit_percentage : Q;
  tp_risk_reward_ratio : Q
}.

Definition take_profit_level (entry_price : Q) (position_type : string)
    (risk_reward_ratio : Q) (stop_loss_price target_percentage : option Q)
    : option Q :=
  (* the [elif stop_loss_price and risk_reward_ratio] branch *)
  let from_ratio :=
    match stop_loss_price with
    | Some stop =>
        if (truthy stop && truthy risk_reward_ratio)%bool then
          let risk_amount := Qabs (entry_price - stop) in
          let reward_amount := risk_amount * risk_reward_ratio in
          if is_long position_type then Some (entry_price + reward_amount)
          else Some (entry_price - reward_amount)
        else None
    | None => None
    end in
  match target_percentage with
  | Some target =>
      if truthy target then
        if is_long position_type then Some (entry_price * (1 + target / 100))
        else Some (entry_price * (1 - target / 100))
      else from_ratio
  | None => from_ratio
  end.

Definition calculate_take_profit (entry_price : Q) (position_type : string)
    (risk_reward_ratio : Q) (stop_loss_price target_percentage : option Q)
    : result TakeProfit :=
  match take_profit_level entry_price position_type risk_reward_ratio
          stop_loss_price target_percentage with
  | Some take_profit_price =>
      if truthy take_profit_price then
        let profit_amount := Qabs (take_profit_price - entry_price) in
        r <- div profit_amount entry_price ;;
        Ok (mkTakeProfit take_profit_price profit_amount (r * 100)
              risk_reward_ratio)
      else Err "Could not calculate take profit"
  | None => Err "Could not calculate take profit"
  end.

(** *** Python strings and dicts used by the sector grouping *)

Definition upper_ascii (c : ascii) : ascii :=
  let n := nat_of_ascii c in
  if (Nat.leb 97 n && Nat.leb n 122)%bool then ascii_of_nat (n - 32) else c.

Fixpoint upper (s : string) : string :=
  match s with
  | EmptyString => EmptyString
  | String c s' => String (upper_ascii c) (upper s')
  end.

(** ['/' in s] *)
Fixpoint has_slash (s : string) : bool :=
  match s with
  | EmptyString => false
  | String c s' => if Ascii.eqb c "/" then true else has_slash s'
  end.

(** [s.split('/')[0]] *)
Fixpoint before_slash (s : string) : string :=
  match s with
  | EmptyString => EmptyString
  | String c s' => if Ascii.eqb c "/" then EmptyString
                   else String c (before_slash s')
  end.

(** A dict with string keys, in insertion order. *)
Definition dict : Type := list (string * Q).

Fixpoint dict_get (d : dict) (k : string) : option Q :=
  match d with
  | [] => None
  | (k', v) :: d' => if String.eqb k' k then Some v else dict_get d' k
  end.

(** [d[k] = v] *)
Fixpoint dict_set (d : dict) (k : string) (v : Q) : dict :=
  match d with
  | [] => [(k, v)]
  | (k', v') :: d' =>
      if String.eqb k' k then (k, v) :: d' else (k', v') :: dict_set d' k v
  end.

(** [d[k] += v] for a key that is present *)
Definition dict_add (d : dict) (k : string) (v : Q) : dict :=
  match dict_get d k with
  | Some old => dict_set d k (old + v)
  | None => d
  end.

(** *** _calculate_sector_concentration *)

Definition sectors : list (string * list string) :=
  [ ("crypto", ["BTC"; "ETH"; "ADA"; "DOT"; "LINK"; "UNI"]);
    ("forex", ["EUR"; "GBP"; "JPY"; "AUD"; "CAD"; "CHF"]);
    ("commodities", ["GOLD"; "SILVER"; "OIL"; "GAS"]) ]%string.

Definition symbol_base (symbol : string) : string :=
  if has_slash symbol then before_slash symbol else substring 0 3 symbol.

Definition sector_of (symbol : string) : string :=
  let base := upper (symbol_base symbol) in
  match find (fun s => existsb (String.eqb base) (snd s)) sectors with
  | Some (sector, _) => sector
  | None => "other"
  end.

Fixpoint sector_values (positions : list Position) (acc : dict) : dict :=
  match positions with
  | [] => acc
  | position :: rest =>
      let position_value := pos_quantity position * pos_current_price position in
      sector_values rest (dict_add acc (sector_of (pos_symbol position))
                                   position_value)
  end.

Fixpoint sector_percentages (values : dict) (total_value : Q) (acc : dict)
    : result dict :=
  match values with
  | [] => Ok acc
  | (sector, value) :: rest =>
      if gtb value 0 then
        r <- div value total_value ;;
        sector_percentages rest total_value (dict_set acc sector (r * 100))
      else sector_percentages rest total_value acc
  end.

Definition _calculate_sector_concentration (positions : list Position)
    (total_value : Q) : result dict :=
  let values :=
    sector_values positions
      [("crypto", 0); ("forex", 0); ("commodities", 0); ("other", 0)]%string in
  sector_percentages values total_value [].

(** *** check_portfolio_risk *)

Record PositionRisk : Type := mkPositionRisk {
  prk_symbol : string;
  prk_risk_percentage : Q;
  prk_position_percentage : Q
}.

(** The warning and recommendation texts are f-strings over formatted
    floats; they are kept as constructors carrying the values formatted. *)
Inductive Warning : Type :=
| LargePosition (symbol : string) (position_percentage : Q)
| TotalRiskExceedsLimit (total_risk max_portfolio_risk : Q)
| HighConcentration (sector : string) (concentration : Q).

Inductive Recommendation : Type :=
| ConsiderReducing (symbol : string)
| ReduceSizesOrTightenStops
| DiversifyAwayFrom (sector : string).

Record RiskDetails : Type := mkRiskDetails {
  rd_position_risks : list PositionRisk;
  rd_sector_concentration : dict;
  rd_max_portfolio_risk : Q
}.

(** The dict returned; [pr_details] holds the keys that only the full
    assessment returns. *)
Record PortfolioRisk : Type := mkPortfolioRisk {
  pr_total_risk : Q;
  pr_risk_level : string;
  pr_warnings : list Warning;
  pr_recommendations : list Recommendation;
  pr_details : option RiskDetails
}.

Record RiskAcc : Type := mkRiskAcc {
  acc_total_risk : Q;
  acc_position_risks : list PositionRisk;
  acc_warnings : list Warning;
  acc_recommendations : list Recommendation
}.

(** The [for position in positions] loop. *)
Fixpoint position_risk_loop (positions : list Position) (total_value : Q)
    (acc : RiskAcc) : result RiskAcc :=
  match positions with
  | [] => Ok acc
  | position :: rest =>
      let position_value := pos_quantity position * pos_current_price position in
      w <- div position_value total_value ;;
      let position_percentage := w * 100 in
      (* Estimate position risk (simplified) *)
      position_risk <-
        (if truthy_opt (pos_stop_loss_price position) then
           let stop := match pos_stop_loss_price position with
                       | Some s => s | None => 0 end in
           let risk_per_share := Qabs (pos_current_price position - stop) in
           r <- div (risk_per_share * pos_quantity position) total_value ;;
           Ok (r * 100)
         else Ok (position_percentage * 0.02)) ;;
      let total_risk := acc_total_risk acc + position_risk in
      let position_risks :=
        acc_position_risks acc ++
        [mkPositionRisk (pos_symbol position) position_risk position_percentage] in
      (* Check individual position size *)
      let large := gtb position_percentage 15 in
      let warnings :=
        if large
        then acc_warnings acc ++ [LargePosition (pos_symbol position) position_percentage]
        else acc_warnings acc in
      let recommendations :=
        if large
        then acc_recommendations acc ++ [ConsiderReducing (pos_symbol position)]
        else acc_recommendations acc in
      position_risk_loop rest total_value
        (mkRiskAcc total_risk position_risks warnings recommendations)
  end.

(** The [for sector, concentration in sector_concentration.items()] loop. *)
Fixpoint sector_warnings (conc : dict) (max_sector_concentration : Q)
    : list Warning * list Recommendation :=
  match conc with
  | [] => ([], [])
  | (sector, concentration) :: rest =>
      let '(ws, rs) := sector_warnings rest max_sector_concentration in
      if gtb concentration max_sector_concentration
      then (HighConcentration sector concentration :: ws,
            DiversifyAwayFrom sector :: rs)
      else (ws, rs)
  end.

Definition risk_level_of (total_risk : Q) : string :=
  if ltb total_risk 5 then "low"
  else if ltb total_risk 10 then "medium"
  else "high".

Definition check_portfolio_risk (db : Db) (portfolio_id : Z)
    (max_portfolio_risk max_correlation_risk max_sector_concentration : Q)
    : result PortfolioRisk :=
  match get_portfolio_row db portfolio_id with
  | None => Err "Portfolio not found"
  | Some portfolio =>
      let positions := active_positions db portfolio_id in
      match positions with
      | [] => Ok (mkPortfolioRisk 0 "low" [] [] None)
      | _ :: _ =>
          let total_value := pf_total_value portfolio in
          (* Calculate total portfolio risk *)
          acc <- position_risk_loop positions total_value (mkRiskAcc 0 [] [] []) ;;
          let total_risk := acc_total_risk acc in
          (* Check total portfolio risk *)
          let over := gtb total_risk max_portfolio_risk in
          let warnings :=
            if over
            then acc_warnings acc ++ [TotalRiskExceedsLimit total_risk max_portfolio_risk]
            else acc_warnings acc in
          let recommendations :=
            if over
            then acc_recommendations acc ++ [ReduceSizesOrTightenStops]
            else acc_recommendations acc in
          (* Check sector concentration *)
          sector_concentration <-
            _calculate_sector_concentration positions total_value ;;
          let '(ws, rs) := sector_warnings sector_concentration
                             max_sector_concentration in
          (* Determine risk level *)
          let risk_level := risk_level_of total_risk in
          Ok (mkPortfolioRisk total_risk risk_level
                (warnings ++ ws) (recommendations ++ rs)
                (Some (mkRiskDetails (acc_position_risks acc)
                         sector_concentration max_portfolio_risk)))
      end
  end.

(** *** _execute_exit_order *)

(** The [reason] strings passed by [execute_risk_action]:
    ['Stop loss triggered'], ['Take profit executed'] and
    [f'Position reduced by {percentage}%']. *)
Inductive Reason : Type :=
| StopLossTriggered
| TakeProfitExecuted
| PositionReducedBy (percentage : Q).

Record ExitOrder : Type := mkExitOrder {
  eo_trade_id : Z;
  eo_quantity : Q;
  eo_price : Q;
  eo_reason : Reason
}.

(** [now] is the reading of [datetime.utcnow()]; the new trade row gets the
    next primary key.  The order execution is simulated by the source
    itself: nothing in the body raises, so the [except] branch with its
    rollback is not reached. *)
Definition _execute_exit_order (db : Db) (now : Z) (position : Position)
    (quantity : Q) (order_type : string) (reason : Reason)
    : result ExitOrder * Db :=
  let current_price := pos_current_price position in
  (* Update position *)
  let position' :=
    if geb quantity (pos_quantity position) then
      (* Close entire position *)
      close_position position current_price now
    else
      (* Partial close *)
      set_quantity position (pos_quantity position - quantity) in
  (* Create trade record *)
  let trade :=
    mkTrade (Z.of_nat (length (db_trades db)) + 1)
      (pos_portfolio_id position) (pos_symbol position) (pos_exchange position)
      (if String.eqb (pos_position_type position) "long" then "sell" else "buy")
      quantity current_price "completed" order_type now in
  let db' := add_trade (commit_position db position') trade in
  (Ok (mkExitOrder (tr_id trade) quantity current_price reason), db').

(** *** _calculate_trailing_stop_loss

    Any exception (here: the division by a zero entry price) is caught
    and turned into [None]. *)
Definition _calculate_trailing_stop_loss (position : Position) : option Q :=
  let current_price := pos_current_price position in
  let entry_price := pos_entry_price position in
  (* Calculate profit percentage *)
  if is_long (pos_position_type position) then
    match div (current_price - entry_price) entry_price with
    | Err _ => None
    | Ok r =>
        let profit_pct := r * 100 in
        if gtb profit_pct 10 then Some (entry_price * 1.02)
        else if gtb profit_pct 20 then Some (entry_price * 1.10)
        else None
    end
  else
    (* short position *)
    match div (entry_price - current_price) entry_price with
    | Err _ => None
    | Ok r =>
        let profit_pct := r * 100 in
        if gtb profit_pct 10 then Some (entry_price * 0.98)
        else if gtb profit_pct 20 then Some (entry_price * 0.90)
        else None
    end.

(** *** execute_risk_action *)

Inductive RiskAction : Type :=
| Exited (order : ExitOrder)
| StopLossUpdated (new_stop_loss : Q).

(** The notification made after a successful exit order ([if
    result['success']:]).  The methods called are
    [send_risk_alert(self, user_email, telegram_chat_id, alert_type,
    message, severity='high')] and
    [send_trade_notification(self, user_email, telegram_chat_id,
    trade_data)] of [notification_service.py]; [execute_risk_action] calls
    them with the keywords [user_id=user.id, ...], the first of which
    neither method accepts.  Evaluating the arguments raises
    [AttributeError] when the user row is missing; otherwise binding them
    raises [TypeError].  Either way the [except] clause of
    [execute_risk_action] returns a failure dict with [str(e)], and the
    exit order stays committed.  ([callee] is the name the interpreter
    prints in the message, which is qualified by the class.) *)
Definition notify (callee : string) (user : option Z) (r : result RiskAction)
    : result RiskAction :=
  match r with
  | Ok _ => match user with
            | Some _ => Err (unexpected_keyword callee "user_id")
            | None => Err (none_has_no "id")
            end
  | Err _ => r
  end.

Definition exit_action (r : result ExitOrder * Db) : result RiskAction * Db :=
  match fst r with
  | Ok o => (Ok (Exited o), snd r)
  | Err m => (Err m, snd r)
  end.

Definition execute_risk_action (db : Db) (now : Z) (position_id : Z)
    (action : string) (percentage : Q) : result RiskAction * Db :=
  match get_position db position_id with
  | None => (Err "Position not found", db)
  | Some position =>
      match get_portfolio_row db (pos_portfolio_id position) with
      | None => (Err (none_has_no "user_id"), db)
      | Some portfolio =>
          let user := get_user db (pf_user_id portfolio) in
          let quantity_to_close := pos_quantity position * (percentage / 100) in
          if String.eqb action "execute_stop_loss" then
            let '(result, db') :=
              exit_action (_execute_exit_order db now position quantity_to_close
                             "market" StopLossTriggered) in
            (* Send risk alert notification *)
            (notify "NotificationService.send_risk_alert" user result, db')
          else if String.eqb action "execute_take_profit" then
            let '(result, db') :=
              exit_action (_execute_exit_order db now position quantity_to_close
                             "market" TakeProfitExecuted) in
            (* Send trade notification *)
            (notify "NotificationService.send_trade_notification" user result,
             db')
          else if String.eqb action "reduce_position" then
            exit_action (_execute_exit_order db now position quantity_to_close
                           "market" (PositionReducedBy percentage))
          else if String.eqb action "update_stop_loss" then
            (* Update stop loss to break-even or trailing stop *)
            match _calculate_trailing_stop_loss position with
            | Some new_stop_loss =>
                if truthy new_stop_loss then
                  (Ok (StopLossUpdated new_stop_loss),
                   commit_position db (set_stop_loss position (Some new_stop_loss)))
                else (Err "Could not calculate new stop loss", db)
            | None => (Err "Could not calculate new stop loss", db)
            end
          else (Err ("Unknown action: " ++ action)%string, db)
      end
  end.

(** A price move.  No service writes the [current_price] of a position;
    the new price is a write by the environment between two calls. *)
Definition price_tick (db : Db) (position_id : Z) (price : Q) : Db :=
  match get_position db position_id with
  | Some position => commit_position db (set_current_price position price)
  | None => db
  end.

(** *** numpy, as used by calculate_portfolio_var *)

Module np.

Fixpoint insert (x : Q) (l : list Q) : list Q :=
  match l with
  | [] => [x]
  | y :: l' => if leb x y then x :: l else y :: insert x l'
  end.

Fixpoint sort (l : list Q) : list Q :=
  match l with
  | [] => []
  | x :: l' => insert x (sort l')
  end.

Definition sum (l : list Q) : Q := fold_left Qplus l 0.

Definition len (l : list Q) : Q := inject_Z (Z.of_nat (length l)).

(** [np.mean(a)] of a non-empty array *)
Definition mean (l : list Q) : Q := sum l / len l.

(** [np.percentile(a, q)] with the default linear interpolation between
    the two order statistics around the position [(n - 1) * q / 100];
    [q] outside [0, 100] raises [ValueError]. *)
Definition percentile (a : list Q) (q : Q) : result Q :=
  if (ltb q 0 || gtb q 100)%bool
  then Err "Percentiles must be in the range [0, 100]"
  else
    let sorted := sort a in
    let virtual_index := (len a - 1) * (q / 100) in
    let previous := Qfloor virtual_index in
    let gamma := virtual_index - inject_Z previous in
    let next := Z.min (previous + 1) (Z.of_nat (length a) - 1) in
    let lo := nth (Z.to_nat previous) sorted 0 in
    let hi := nth (Z.to_nat next) sorted 0 in
    Ok (lo + (hi - lo) * gamma).

(** [a[a <= v]] *)
Definition at_or_below (a : list Q) (v : Q) : list Q :=
  filter (fun r => leb r v) a.

End np.

(** *** calculate_portfolio_var *)

Record VaR : Type := mkVaR {
  var_percentage : Q;
  var_amount : Q;
  expected_shortfall_percentage : Q;
  expected_shortfall_amount : Q;
  var_confidence_level : Q;
  time_horizon_days : Z;
  portfolio_value : Q
}.

(** The two shapes of the success dict. *)
Inductive VarResult : Type :=
| NoPositions (var expected_shortfall : Q)
| Simulated (v : VaR).

Section MonteCarlo.

(** The random source: [normal loc scale k] is the value of the [k]-th
    call of the process to [np.random.normal], made with arguments
    [loc] and [scale].  The generator state is the number of calls made
    so far. *)
Variable normal : Q -> Q -> nat -> Q.

(** The inner [for position in positions] loop of one trial. *)
Fixpoint simulate_day (positions : list Position) (total_value : Q)
    (daily_return : Q) (k : nat) : result (Q * nat) :=
  match positions with
  | [] => Ok (daily_return, k)
  | position :: rest =>
      let position_value := pos_quantity position * pos_current_price position in
      weight <- div position_value total_value ;;
      (* Simulate daily return (using normal distribution) *)
      let asset_return := normal 0 0.02 k in
      simulate_day rest total_value (daily_return + weight * asset_return) (S k)
  end.

(** [for _ in range(trials)] *)
Fixpoint simulate (trials : nat) (positions : list Position) (total_value : Q)
    (portfolio_returns : list Q) (k : nat) : result (list Q * nat) :=
  match trials with
  | O => Ok (portfolio_returns, k)
  | S trials' =>
      dk <- simulate_day positions total_value 0 k ;;
      simulate trials' positions total_value
        (portfolio_returns ++ [fst dk]) (snd dk)
  end.

(** Returns the result and the generator state.  A division by zero can
    only happen at the first division of the first trial, before any
    draw, so a failed call leaves the generator where it was. *)
Definition calculate_portfolio_var (db : Db) (k : nat) (portfolio_id : Z)
    (confidence_level : Q) (time_horizon : Z) : result VarResult * nat :=
  match get_portfolio_row db portfolio_id with
  | None => (Err "Portfolio not found", k)
  | Some portfolio =>
      let positions := active_positions db portfolio_id in
      match positions with
      | [] => (Ok (NoPositions 0 0), k)
      | _ :: _ =>
          let total_value := pf_total_value portfolio in
          match simulate 1000 positions total_value [] k with
          | Err m => (Err m, k)
          | Ok (portfolio_returns, k') =>
              (* Calculate VaR *)
              let var_percentile := (1 - confidence_level) * 100 in
              match np.percentile portfolio_returns var_percentile with
              | Err m => (Err m, k')
              | Ok var =>
                  let var_amount := Qabs (var * total_value) in
                  (* Calculate Expected Shortfall (Conditional VaR) *)
                  let tail_losses := np.at_or_below portfolio_returns var in
                  let expected_shortfall :=
                    if Nat.ltb 0 (length tail_losses)
                    then np.mean tail_losses else var in
                  let es_amount := Qabs (expected_shortfall * total_value) in
                  (Ok (Simulated
                         (mkVaR (Qabs var * 100) var_amount
                            (Qabs expected_shortfall * 100) es_amount
                            confidence_level time_horizon total_value)),
                   k')
              end
          end
      end
  end.

End MonteCarlo.

(** ** PortfolioService: the rebalancing planner

    [app.models.portfolio_models] is not part of the source tree either;
    the rows carry the attributes the planner reads. *)

Module PortfolioService.

Record Portfolio : Type := mkPortfolio {
  id : Z;
  cash_balance : option Q;
  risk_level : string;
  auto_rebalance : bool;
  rebalance_threshold : Q
}.

Record PortfolioHolding : Type := mkPortfolioHolding {
  h_portfolio_id : Z;
  h_symbol : string;
  h_exchange : string;
  h_quantity : Q;
  h_average_price : Q;
  h_total_cost : Q
}.

Record Store : Type := mkStore {
  portfolios : list Portfolio;
  holdings : list PortfolioHolding
}.

(** [_get_current_price(symbol, exchange)]: the latest ticker or the
    exchange's quote, [None] when neither is available. *)
Definition PriceFeed : Type := string -> string -> option Q.

Definition get_portfolio (db : Store) (portfolio_id : Z) : option Portfolio :=
  find (fun p => Z.eqb (id p) portfolio_id) (portfolios db).

(** One entry of [holdings_data]. *)
Record Holding : Type := mkHolding {
  symbol : string;
  exchange : string;
  quantity : Q;
  average_price : Q;
  current_price : Q;
  total_cost : Q;
  current_value : Q;
  unrealized_pnl : Q;
  unrealized_pnl_percentage : Q
}.

Record Summary : Type := mkSummary {
  total_value : Q;
  summary_holdings : list Holding;
  allocation : dict
}.

(** The [for holding in holdings] loop of [get_portfolio_summary];
    returns [holdings_data] and [total_holdings_value]. *)
Fixpoint holdings_data (feed : PriceFeed) (hs : list PortfolioHolding)
    (acc : list Holding) (total_holdings_value : Q)
    : result (list Holding * Q) :=
  match hs with
  | [] => Ok (acc, total_holdings_value)
  | holding :: rest =>
      match feed (h_symbol holding) (h_exchange holding) with
      | Some current_price =>
          if truthy current_price then
            let current_value := h_quantity holding * current_price in
            let unrealized_pnl := current_value - h_total_cost holding in
            pct <- (if gtb (h_total_cost holding) 0
                    then r <- div unrealized_pnl (h_total_cost holding) ;;
                         Ok (r * 100)
                    else Ok 0) ;;
            holdings_data feed rest
              (acc ++ [mkHolding (h_symbol holding) (h_exchange holding)
                         (h_quantity holding) (h_average_price holding)
                         current_price (h_total_cost holding) current_value
                         unrealized_pnl pct])
              (total_holdings_value + current_value)
          else holdings_data feed rest acc total_holdings_value
      | None => holdings_data feed rest acc total_holdings_value
      end
  end.

Fixpoint allocation_loop (hs : list Holding) (total_value : Q) (acc : dict)
    : result dict :=
  match hs with
  | [] => Ok acc
  | holding :: rest =>
      weight <- div (current_value holding) total_value ;;
      allocation_loop rest total_value (dict_set acc (symbol holding) weight)
  end.

Definition _calculate_allocation (hs : list Holding) (total_value : Q)
    : result dict :=
  if gtb total_value 0 then allocation_loop hs total_value [] else Ok [].

Definition get_portfolio_summary (db : Store) (feed : PriceFeed)
    (portfolio_id : Z) : result Summary :=
  match get_portfolio db portfolio_id with
  | None => Err "Portfolio not found"
  | Some portfolio =>
      (* Get holdings *)
      let rows :=
        filter (fun h => (Z.eqb (h_portfolio_id h) portfolio_id
                          && gtb (h_quantity h) 0)%bool) (holdings db) in
      data <- holdings_data feed rows [] 0 ;;
      let total_holdings_value := snd data in
      (* Calculate portfolio metrics *)
      let cash := match cash_balance portfolio with
                  | Some c => if truthy c then c else 0
                  | None => 0
                  end in
      let total_value := cash + total_holdings_value in
      alloc <- _calculate_allocation (fst data) total_holdings_value ;;
      Ok (mkSummary total_value (fst data) alloc)
  end.

(** *** _get_target_allocation *)

Definition medium_allocation : dict :=
  [("BTC/USDT", 0.3); ("ETH/USDT", 0.25); ("ADA/USDT", 0.15);
   ("DOT/USDT", 0.1); ("LINK/USDT", 0.1); ("SOL/USDT", 0.1)]%string.

Definition risk_allocations : list (string * dict) :=
  [ ("conservative",
     [("BTC/USDT", 0.4); ("ETH/USDT", 0.3); ("ADA/USDT", 0.1);
      ("DOT/USDT", 0.1); ("LINK/USDT", 0.1)]);
    ("medium", medium_allocation);
    ("aggressive",
     [("BTC/USDT", 0.2); ("ETH/USDT", 0.2); ("ADA/USDT", 0.15);
      ("SOL/USDT", 0.15); ("AVAX/USDT", 0.1); ("MATIC/USDT", 0.1);
      ("ATOM/USDT", 0.1)]) ]%string.

Definition _get_target_allocation (portfolio : Portfolio) : dict :=
  match find (fun a => String.eqb (fst a) (risk_level portfolio))
             risk_allocations with
  | Some (_, a) => a
  | None => medium_allocation
  end.

(** [d.get(k, 0)] *)
Definition get_or_zero (d : dict) (k : string) : Q :=
  match dict_get d k with Some v => v | None => 0 end.

(** *** check_rebalancing_needed *)

Record Deviation : Type := mkDeviation {
  dev_symbol : string;
  dev_current_weight : Q;
  dev_target_weight : Q;
  dev_deviation : Q
}.

Definition deviations_of (current_allocation target_allocation : dict)
    (threshold : Q) : list Deviation :=
  flat_map
    (fun kv =>
       let target_weight := get_or_zero target_allocation (fst kv) in
       let deviation := Qabs (snd kv - target_weight) in
       if gtb deviation threshold
       then [mkDeviation (fst kv) (snd kv) target_weight deviation]
       else [])
    current_allocation.

(** Returns the ['rebalancing_needed'] flag and the deviations found;
    every failure on the way yields [False]. *)
Definition check_rebalancing_needed (db : Store) (feed : PriceFeed)
    (portfolio_id : Z) : bool * list Deviation :=
  match get_portfolio db portfolio_id with
  | None => (false, [])
  | Some portfolio =>
      if negb (auto_rebalance portfolio) then (false, [])
      else
        match get_portfolio_summary db feed portfolio_id with
        | Err _ => (false, [])
        | Ok summary =>
            let devs :=
              deviations_of (allocation summary)
                (_get_target_allocation portfolio)
                (rebalance_threshold portfolio) in
            (match devs with [] => false | _ :: _ => true end, devs)
        end
  end.

(** *** execute_rebalancing *)

Record RebalancingTrade : Type := mkRebalancingTrade {
  rt_symbol : string;
  rt_exchange : string;
  rt_type : string;
  rt_quantity : Q;
  rt_current_price : Q;
  rt_value_difference : Q
}.

Inductive Rebalancing : Type :=
| NoRebalancingNeeded
| Generated (rebalancing_trades : list RebalancingTrade).

(** The [for holding in summary['holdings']] loop. *)
Fixpoint required_trades (hs : list Holding) (total_value : Q)
    (target_allocation : dict) (rebalancing_trades : list RebalancingTrade)
    : result (list RebalancingTrade) :=
  match hs with
  | [] => Ok rebalancing_trades
  | holding :: rest =>
      let target_weight := get_or_zero target_allocation (symbol holding) in
      let target_value := total_value * target_weight in
      let value_difference := target_value - current_value holding in
      if gtb (Qabs value_difference) 10 then  (* Minimum trade value *)
        quantity_difference <- div value_difference (current_price holding) ;;
        let trade_type :=
          (if gtb quantity_difference 0 then "BUY" else "SELL")%string in
        required_trades rest total_value target_allocation
          (rebalancing_trades ++
           [mkRebalancingTrade (symbol holding) (exchange holding) trade_type
              (Qabs quantity_difference) (current_price holding)
              value_difference])
      else required_trades rest total_value target_allocation rebalancing_trades
  end.

(** The summary is computed twice, by [check_rebalancing_needed] and by
    the planner itself; each computation reads the prices anew, hence
    the two feeds. *)
Definition execute_rebalancing (db : Store) (feed_check feed_plan : PriceFeed)
    (portfolio_id : Z) : result Rebalancing :=
  if negb (fst (check_rebalancing_needed db feed_check portfolio_id))
  then Ok NoRebalancingNeeded
  else
    match get_portfolio_summary db feed_plan portfolio_id with
    | Err _ => Err "Could not get portfolio summary"
    | Ok summary =>
        match get_portfolio db portfolio_id with
        | None => Err (none_has_no "risk_level")
        | Some portfolio =>
            trades <- required_trades (summary_holdings summary)
                        (total_value summary)
                        (_get_target_allocation portfolio) [] ;;
            Ok (Generated trades)
        end
    end.

End PortfolioService.


(** *** check_position_risk *)

(** The alert texts: ['Stop loss triggered'], ['Take profit target
    reached'], [f'Large loss: {pnl_percentage:.1f}%'] and
    [f'Large gain: {pnl_percentage:.1f}%']. *)
Inductive Alert : Type :=
| StopLossAlert
| TakeProfitAlert
| LargeLossAlert (pnl_percentage : Q)
| LargeGainAlert (pnl_percentage : Q).

Record PositionCheck : Type := mkPositionCheck {
  pc_position_id : Z;
  pc_symbol : string;
  pc_current_price : Q;
  pc_entry_price : Q;
  pc_unrealized_pnl : Q;
  pc_pnl_percentage : Q;
  pc_alerts : list Alert;
  pc_actions : list string;
  pc_stop_loss_price : option Q;
  pc_take_profit_price : option Q
}.

Definition is_short (position_type : string) : bool :=
  String.eqb (lower position_type) "short".

(** [if level: if long and cmp_long: ... elif short and cmp_short: ...] for
    an optional price level. *)
Definition level_reached (position_type : string) (level : option Q)
    (long_test short_test : Q -> bool) : bool :=
  match level with
  | Some l =>
      if truthy l then
        if (is_long position_type && long_test l)%bool then true
        else if (is_short position_type && short_test l)%bool then true
        else false
      else false
  | None => false
  end.

Definition check_position_risk (db : Db) (position_id : Z)
    (current_price : option Q) : result PositionCheck :=
  match get_position db position_id with
  | None => Err "Position not found"
  | Some position =>
      let current_price :=
        match current_price with
        | Some c => if truthy c then c else pos_current_price position
        | None => pos_current_price position
        end in
      let entry_price := pos_entry_price position in
      let quantity := pos_quantity position in
      let position_type := pos_position_type position in
      (* Calculate current P&L *)
      pnl <-
        (if is_long position_type then
           r <- div (current_price - entry_price) entry_price ;;
           Ok ((current_price - entry_price) * quantity, r * 100)
         else
           r <- div (entry_price - current_price) entry_price ;;
           Ok ((entry_price - current_price) * quantity, r * 100)) ;;
      let unrealized_pnl := fst pnl in
      let pnl_percentage := snd pnl in
      (* Check stop loss *)
      let stop_hit :=
        level_reached position_type (pos_stop_loss_price position)
          (fun stop_loss => leb current_price stop_loss)
          (fun stop_loss => geb current_price stop_loss) in
      (* Check take profit *)
      let target_hit :=
        level_reached position_type (pos_take_profit_price position)
          (fun take_profit => geb current_price take_profit)
          (fun take_profit => leb current_price take_profit) in
      (* Check for large losses *)
      let large_loss := ltb pnl_percentage (-10) in
      (* Check for large gains (consider partial profit taking) *)
      let large_gain := gtb pnl_percentage 20 in
      let alerts :=
        (if stop_hit then [StopLossAlert] else [])
        ++ (if target_hit then [TakeProfitAlert] else [])
        ++ (if large_loss then [LargeLossAlert pnl_percentage] else [])
        ++ (if large_gain then [LargeGainAlert pnl_percentage] else []) in
      let actions :=
        (if stop_hit then ["execute_stop_loss"%string] else [])
        ++ (if target_hit then ["execute_take_profit"%string] else [])
        ++ (if large_loss then ["review_position"%string] else [])
        ++ (if large_gain then ["consider_partial_profit"%string] else []) in
      Ok (mkPositionCheck position_id (pos_symbol position) current_price
            entry_price unrealized_pnl pnl_percentage alerts actions
            (pos_stop_loss_price position) (pos_take_profit_price position))
  end.


(** ** PortfolioService: the holdings ledger

    [add_holding] and [remove_holding] write attributes of the holding and
    portfolio rows that the planner does not read; the rows of this module
    carry the attributes these two methods access. *)

Module Ledger.

Record Portfolio : Type := mkPortfolio {
  id : Z;
  cash_balance : option Q;
  realized_pnl : option Q
}.

Record Holding : Type := mkHolding {
  holding_id : Z;
  portfolio_id : Z;
  symbol : string;
  exchange : string;
  quantity : Q;
  average_price : Q;
  current_price : Q;
  total_cost : Q;
  current_value : Q;
  unrealized_pnl : Q;
  created_at : Z;
  updated_at : option Z
}.

(** [holding_seq] is the last primary key the holdings table gave out. *)
Record Store : Type := mkStore {
  portfolios : list Portfolio;
  holdings : list Holding;
  holding_seq : Z
}.

Definition get_portfolio (db : Store) (pid : Z) : option Portfolio :=
  find (fun p => Z.eqb (id p) pid) (portfolios db).

(** The filter of both methods: portfolio, symbol and exchange. *)
Definition is_holding (pid : Z) (sym exch : string) (h : Holding) : bool :=
  (Z.eqb (portfolio_id h) pid && String.eqb (symbol h) sym
   && String.eqb (exchange h) exch)%bool.

(** [query(PortfolioHolding).filter(...).first()] *)
Definition get_holding (db : Store) (pid : Z) (sym exch : string)
    : option Holding :=
  find (is_holding pid sym exch) (holdings db).

(** Writing back the row that [first()] returned. *)
Fixpoint update_first (test : Holding -> bool) (h' : Holding)
    (l : list Holding) : list Holding :=
  match l with
  | [] => []
  | h :: l' => if test h then h' :: l' else h :: update_first test h' l'
  end.

(** [db.delete(holding)] for the row that [first()] returned. *)
Fixpoint delete_first (test : Holding -> bool) (l : list Holding)
    : list Holding :=
  match l with
  | [] => []
  | h :: l' => if test h then l' else h :: delete_first test l'
  end.

Fixpoint replace_portfolio (p' : Portfolio) (l : list Portfolio)
    : list Portfolio :=
  match l with
  | [] => []
  | p :: l' => if Z.eqb (id p) (id p') then p' :: l'
               else p :: replace_portfolio p' l'
  end.

(** [x or Decimal('0')] *)
Definition or_zero (x : option Q) : Q :=
  match x with Some v => if truthy v then v else 0 | None => 0 end.

(** *** add_holding *)

Record Added : Type := mkAdded {
  ad_holding_id : Z;
  ad_symbol : string;
  ad_quantity : Q;
  ad_average_price : Q
}.

Definition add_holding (db : Store) (now : Z) (pid : Z) (sym exch : string)
    (qty price : Q) : result Added * Store :=
  (* Check if holding already exists *)
  match get_holding db pid sym exch with
  | Some existing_holding =>
      (* Update existing holding (average price calculation) *)
      let cost := quantity existing_holding * average_price existing_holding
                  + qty * price in
      let new_quantity := quantity existing_holding + qty in
      match (if gtb new_quantity 0 then div cost new_quantity else Ok 0) with
      | Err m => (Err m, db)
      | Ok new_average_price =>
          let holding :=
            mkHolding (holding_id existing_holding)
              (portfolio_id existing_holding) (symbol existing_holding)
              (exchange existing_holding) new_quantity new_average_price
              (current_price existing_holding) cost
              (current_value existing_holding)
              (unrealized_pnl existing_holding)
              (created_at existing_holding) (Some now) in
          (Ok (mkAdded (holding_id holding) sym (quantity holding)
                 (average_price holding)),
           mkStore (portfolios db)
             (update_first (is_holding pid sym exch) holding (holdings db))
             (holding_seq db))
      end
  | None =>
      (* Create new holding *)
      let new_id := (holding_seq db + 1)%Z in
      let holding :=
        mkHolding new_id pid sym exch qty price price (qty * price)
          (qty * price) 0 now None in
      (Ok (mkAdded new_id sym qty price),
       mkStore (portfolios db) (holdings db ++ [holding]) new_id)
  end.

(** *** remove_holding *)

Record Removed : Type := mkRemoved {
  rm_symbol : string;
  rm_quantity_sold : Q;
  rm_price : Q;
  rm_realized_pnl : Q;
  rm_remaining_quantity : Q
}.

Definition remove_holding (db : Store) (now : Z) (pid : Z) (sym exch : string)
    (qty price : Q) : result Removed * Store :=
  match get_holding db pid sym exch with
  | None => (Err "Holding not found", db)
  | Some holding =>
      if ltb (quantity holding) qty then (Err "Insufficient quantity", db)
      else
        (* Calculate realized PnL *)
        let realized := (price - average_price holding) * qty in
        (* Update holding *)
        let new_quantity := quantity holding - qty in
        let holdings' :=
          if leb new_quantity 0 then
            (* Remove holding completely *)
            delete_first (is_holding pid sym exch) (holdings db)
          else
            (* Reduce quantity *)
            update_first (is_holding pid sym exch)
              (mkHolding (holding_id holding) (portfolio_id holding)
                 (symbol holding) (exchange holding) new_quantity
                 (average_price holding) (current_price holding)
                 (new_quantity * average_price holding)
                 (current_value holding) (unrealized_pnl holding)
                 (created_at holding) (Some now))
              (holdings db) in
        (* Update portfolio cash balance *)
        let portfolios' :=
          match get_portfolio db pid with
          | Some portfolio =>
              replace_portfolio
                (mkPortfolio (id portfolio)
                   (Some (or_zero (cash_balance portfolio) + qty * price))
                   (Some (or_zero (realized_pnl portfolio) + realized)))
                (portfolios db)
          | None => portfolios db
          end in
        (Ok (mkRemoved sym qty price realized new_quantity),
         mkStore portfolios' holdings' (holding_seq db))
  end.

End Ledger.


(** * Statements and scenarios *)

(** The stop-loss price stored for a position. *)
Definition stop_of (db : Db) (position_id : Z) : option Q :=
  match get_position db position_id with
  | Some p => pos_stop_loss_price p
  | None => None
  end.

(** The gain of a position in percent of its entry price, as
    [_calculate_trailing_stop_loss] computes it. *)
Definition profit_pct (p : Position) : Q :=
  if is_long (pos_position_type p)
  then (pos_current_price p - pos_entry_price p) / pos_entry_price p * 100
  else (pos_entry_price p - pos_current_price p) / pos_entry_price p * 100.




(** A Long position entered at 100, now at [current], with stop [stop]. *)
Definition long_at (current : Q) (stop : option Q) : Position :=
  mkPosition 1 1 "BTC/USDT" "binance" "long" 1 100 current stop None
             "active" None None.

Definition db_with (p : Position) : Db :=
  mkDb [mkPortfolio 1 7 10000 5000] [p] [] [7%Z].


(** The two bounds on the position value, for valid inputs. *)
Definition sizing_within_caps (db : Db) (portfolio_id : Z) (symbol : string)
    (entry_price : Q) (stop_loss_price : option Q)
    (risk_percentage max_position_percentage : Q) : Prop :=
  forall pf r,
    get_portfolio_row db portfolio_id = Some pf ->
    0 < entry_price ->
    0 < pf_total_value pf ->
    0 < pf_available_balance pf ->
    calculate_position_size db portfolio_id symbol entry_price stop_loss_price
      risk_percentage max_position_percentage = Ok r ->
    ps_position_value r <= pf_available_balance pf * 0.95 /\
    ps_position_value r <= pf_total_value pf * max_position_percentage / 100.

(** Failure exactly on a balance that is not positive. *)
Definition fails_iff_no_capital (db : Db) (portfolio_id : Z) (symbol : string)
    (entry_price : Q) (stop_loss_price : option Q)
    (risk_percentage max_position_percentage : Q) : Prop :=
  forall pf,
    get_portfolio_row db portfolio_id = Some pf ->
    0 < entry_price ->
    (is_ok (calculate_position_size db portfolio_id symbol entry_price
              stop_loss_price risk_percentage max_position_percentage) = false
     <-> pf_available_balance pf <= 0).

(** A database holding one portfolio, with the given total value and
    available balance. *)
Definition db_of_portfolio (total_value available_balance : Q) : Db :=
  mkDb [mkPortfolio 1 7 total_value available_balance] [] [] [7%Z].


(** What the assessment reads of a position for its total risk: quantity,
    current price and stop level. *)
Definition risk_view (p : Position) : Q * Q * option Q :=
  (pos_quantity p, pos_current_price p, pos_stop_loss_price p).

(** The risk percentage of one position, from its view. *)
Definition view_risk (total_value : Q) (v : Q * Q * option Q) : Q :=
  let '(quantity, current_price, stop) := v in
  if truthy_opt stop then
    Qabs (current_price - match stop with Some s => s | None => 0 end)
    * quantity / total_value * 100
  else quantity * current_price / total_value * 100 * 0.02.

(** The two fields of the assessment the claims speak of. *)
Definition risk_outcome (r : result PortfolioRisk) : option (Q * string) :=
  match r with
  | Ok r => Some (pr_total_risk r, pr_risk_level r)
  | Err _ => None
  end.

(** Two databases that differ in everything the total risk does not
    depend on: ids, symbols, sides, entry prices, targets, other rows. *)
Definition db_a : Db :=
  mkDb [mkPortfolio 1 7 10000 5000]
       [mkPosition 1 1 "BTC/USDT" "binance" "long" 2 100 120 (Some 110) None
                   "active" None None;
        mkPosition 2 1 "ETH/USDT" "binance" "short" 5 50 40 None (Some 30)
                   "active" None None;
        mkPosition 3 1 "ADA/USDT" "binance" "long" 9 1 2 None None
                   "closed" (Some 2) (Some 1%Z)]
       [] [7%Z].

Definition db_b : Db :=
  mkDb [mkPortfolio 4 8 1 1; mkPortfolio 2 9 10000 0]
       [mkPosition 11 2 "EUR/USD" "oanda" "short" 2 300 120 (Some 110) (Some 90)
                   "active" None None;
        mkPosition 12 4 "GOLD" "oanda" "long" 1 1 1 None None
                   "active" None None;
        mkPosition 13 2 "OIL" "oanda" "long" 5 45 40 None None
                   "active" None None]
       [] [8%Z; 9%Z].

(** A portfolio of total value 0 without positions. *)
Definition db_empty : Db :=
  mkDb [mkPortfolio 1 7 0 0]
       [mkPosition 3 1 "ADA/USDT" "binance" "long" 9 1 2 None None
                   "closed" (Some 2) (Some 1%Z)]
       [] [7%Z].


(** The position row after an exit order. *)
Definition after_exit (db : Db) (now : Z) (p : Position) (quantity : Q)
    (reason : Reason) : option Position :=
  get_position (snd (_execute_exit_order db now p quantity "market" reason))
               (pos_id p).

(** A partial exit moves the position to the partially closed state
    (['partially_closed'] is the value of that state in
    [PositionStatus]). *)
Definition partial_exit_marks_state (db : Db) (now : Z) (p : Position)
    (quantity : Q) (reason : Reason) : Prop :=
  get_position db (pos_id p) = Some p ->
  quantity < pos_quantity p ->
  exists p', after_exit db now p quantity reason = Some p' /\
             pos_status p' = "partially_closed"%string.

(** An active Long position of 10 units, entered at 100, at price 120. *)
Definition ten_units : Position :=
  mkPosition 1 1 "BTC/USDT" "binance" "long" 10 100 120 (Some 95) (Some 130)
             "active" None None.


(** A proposed trade comes from a holding of the summary: its value
    difference is the target value less the current value. *)
Definition planned_from (summary : PortfolioService.Summary) (target : dict)
    (t : PortfolioService.RebalancingTrade) : Prop :=
  exists h,
    In h (PortfolioService.summary_holdings summary) /\
    PortfolioService.rt_symbol t = PortfolioService.symbol h /\
    PortfolioService.rt_exchange t = PortfolioService.exchange h /\
    PortfolioService.rt_current_price t = PortfolioService.current_price h /\
    PortfolioService.rt_value_difference t =
      PortfolioService.total_value summary
      * PortfolioService.get_or_zero target (PortfolioService.symbol h)
      - PortfolioService.current_value h.

(** Minimum notional, direction and quantity of a proposed trade. *)
Definition trade_well_formed (t : PortfolioService.RebalancingTrade) : Prop :=
  let delta := PortfolioService.rt_value_difference t in
  10 < Qabs delta /\
  (0 < delta -> PortfolioService.rt_type t = "BUY"%string) /\
  (~ 0 < delta -> PortfolioService.rt_type t = "SELL"%string) /\
  PortfolioService.rt_quantity t
    == Qabs delta / PortfolioService.rt_current_price t.

Definition positive_feed (feed : PortfolioService.PriceFeed) : Prop :=
  forall symbol exchange price, feed symbol exchange = Some price -> 0 < price.

(** A medium-risk portfolio holding one BTC and one ETH and no cash. *)
Definition store_two_coins : PortfolioService.Store :=
  PortfolioService.mkStore
    [PortfolioService.mkPortfolio 1 None "medium" true 0.05]
    [PortfolioService.mkPortfolioHolding 1 "BTC/USDT" "binance" 1 600 600;
     PortfolioService.mkPortfolioHolding 1 "ETH/USDT" "binance" 1 300 300].

Definition feed_two_coins : PortfolioService.PriceFeed :=
  fun symbol _ =>
    if String.eqb symbol "BTC/USDT" then Some 650
    else if String.eqb symbol "ETH/USDT" then Some 200
    else None.

Definition trades_two_coins : list PortfolioService.RebalancingTrade :=
  Eval vm_compute in
    match PortfolioService.execute_rebalancing store_two_coins
            feed_two_coins feed_two_coins 1 with
    | Ok (PortfolioService.Generated ts) => ts
    | _ => []
    end.


(** The weight of a position in the portfolio. *)
Definition position_weight (total_value : Q) (p : Position) : Q :=
  pos_quantity p * pos_current_price p / total_value.

(** The portfolio return of one trial whose first draw is the [k]-th: the
    sum over the positions of weight times a draw from the normal
    distribution with mean 0 and standard deviation 0.02. *)
Fixpoint trial_return (normal : Q -> Q -> nat -> Q)
    (positions : list Position) (total_value : Q) (k : nat) : Q :=
  match positions with
  | [] => 0
  | p :: rest =>
      position_weight total_value p * normal 0 0.02 k
      + trial_return normal rest total_value (S k)
  end.

(** The sum of a list of returns. *)
Definition total_of (l : list Q) : Q := fold_right Qplus 0 l.

(** The number of entries of a list, as a rational. *)
Definition count_of (l : list Q) : Q := inject_Z (Z.of_nat (length l)).

(** [at_or_below_of cutoff l tail]: [tail] holds the entries of [l] that
    are at or below [cutoff], in their order, and no other. *)
Inductive at_or_below_of (cutoff : Q) : list Q -> list Q -> Prop :=
| tail_done : at_or_below_of cutoff [] []
| tail_keep (x : Q) (l tail : list Q) :
    x <= cutoff -> at_or_below_of cutoff l tail ->
    at_or_below_of cutoff (x :: l) (x :: tail)
| tail_skip (x : Q) (l tail : list Q) :
    cutoff < x -> at_or_below_of cutoff l tail ->
    at_or_below_of cutoff (x :: l) tail.

(** [percentile_of values q v]: [v] is the [q]-th percentile of [values].
    With the values in ascending order and counted from 0, it lies at the
    position [(n - 1) * q / 100], linearly interpolated between the value
    at the position's integer part and the next one. *)
Definition percentile_of (values : list Q) (q v : Q) : Prop :=
  exists ascending,
    Permutation values ascending /\
    StronglySorted Qle ascending /\
    let position := (count_of values - 1) * (q / 100) in
    let below := Qfloor position in
    let above := Z.min (below + 1) (Z.of_nat (length values) - 1) in
    v == nth (Z.to_nat below) ascending 0
         + (nth (Z.to_nat above) ascending 0
            - nth (Z.to_nat below) ascending 0)
           * (position - inject_Z below).

(** The value at risk at confidence 0.95 as a loss-positive report: the
    5th percentile of the 1000 simulated returns (95% of the way from the
    50th to the 51st smallest), negated, in percent. *)
Definition var_reported_loss_positive (normal : Q -> Q -> nat -> Q) (db : Db)
    (k : nat) (portfolio_id : Z) (time_horizon : Z) : Prop :=
  forall pf returns ascending v,
    get_portfolio_row db portfolio_id = Some pf ->
    fst (calculate_portfolio_var normal db k portfolio_id 0.95 time_horizon)
    = Ok (Simulated v) ->
    length returns = 1000%nat ->
    (forall t, (t < 1000)%nat ->
       nth t returns 0
       == trial_return normal (active_positions db portfolio_id)
            (pf_total_value pf)
            (k + t * length (active_positions db portfolio_id))) ->
    Permutation returns ascending ->
    StronglySorted Qle ascending ->
    var_percentage v
    == - (nth 49 ascending 0
          + (nth 50 ascending 0 - nth 49 ascending 0) * 0.95) * 100.

(** Random sources for the examples.  The draws of [scrambled] differ
    from one another over the first 2003 calls and lie within two standard
    deviations of the mean; the draws of [upward] all lie one standard
    deviation above the mean. *)
Definition scrambled (loc scale : Q) (k : nat) : Q :=
  loc + scale * (inject_Z (Z.of_nat ((k * 7) mod 2003)) - 1001) / 500.

Definition upward (loc scale : Q) (k : nat) : Q := loc + scale.


(** The price distance the sizing takes as the risk of one unit: the
    distance to the stop when a stop is given, 2% of the entry price
    otherwise. *)
Definition risk_distance (entry_price : Q) (stop_loss_price : option Q) : Q :=
  match stop_loss_price with
  | Some stop => if truthy stop then Qabs (entry_price - stop)
                 else entry_price * 0.02
  | None => entry_price * 0.02
  end.

(** The size the risk budget allows, before the caps. *)
Definition risk_based_size (entry_price risk_amount : Q)
    (stop_loss_price : option Q) : Q :=
  if gtb (risk_distance entry_price stop_loss_price) 0
  then risk_amount / risk_distance entry_price stop_loss_price
  else 0.


(** The sum of the risk percentages of a list of per-position entries, in
    the order of the list. *)
Definition sum_of_risks (l : list PositionRisk) : Q :=
  fold_left (fun t r => t + prk_risk_percentage r) l 0.


(** A portfolio of total value 1000 with one large, widely stopped
    position and a small one, and its assessment under the limits 10, 0.7
    and 20. *)
Definition db_risky : Db :=
  mkDb [mkPortfolio 1 7 1000 100]
       [mkPosition 1 1 "BTC/USDT" "binance" "long" 2 100 120 (Some 60) None
                   "active" None None;
        mkPosition 2 1 "EURUSD" "oanda" "short" 1 50 40 None None
                   "active" None None]
       [] [7%Z].

Definition report_risky : PortfolioRisk :=
  Eval vm_compute in
    match check_portfolio_risk db_risky 1 10 0.7 20 with
    | Ok r => r
    | Err _ => mkPortfolioRisk 0 "" [] [] None
    end.

Definition details_risky : RiskDetails :=
  Eval vm_compute in
    match pr_details report_risky with
    | Some d => d
    | None => mkRiskDetails [] [] 0
    end.


(** The sum of the values of a dict. *)
Definition dict_sum (d : dict) : Q :=
  fold_right (fun kv t => snd kv + t) 0 d.

(** The value of all positions of a list. *)
Definition exposure (positions : list Position) : Q :=
  fold_right (fun p t => pos_quantity p * pos_current_price p + t) 0 positions.

Definition sector_names : list string :=
  ["crypto"; "forex"; "commodities"; "other"]%string.


(** The three actions that place an exit order. *)
Definition exit_actions : list string :=
  ["execute_stop_loss"; "execute_take_profit"; "reduce_position"]%string.

Definition is_exit_action (action : string) : bool :=
  existsb (String.eqb action) exit_actions.


(** The database of [db_with] without the user row of the portfolio. *)
Definition db_without_user (p : Position) : Db :=
  mkDb [mkPortfolio 1 7 10000 5000] [p] [] [].


(** The price a position is checked at: the price passed, unless it is
    missing or zero, in which case the stored price. *)
Definition effective_price (p : Position) (price : option Q) : Q :=
  match price with
  | Some c => if truthy c then c else pos_current_price p
  | None => pos_current_price p
  end.

(** The gain of a position at price [c], in percent of the entry price. *)
Definition pnl_percentage_at (p : Position) (c : Q) : Q :=
  if is_long (pos_position_type p)
  then (c - pos_entry_price p) / pos_entry_price p * 100
  else (pos_entry_price p - c) / pos_entry_price p * 100.

(** The price [c] is at or beyond the stop of [p], on the losing side. *)
Definition stop_breached (p : Position) (c : Q) : Prop :=
  exists s,
    pos_stop_loss_price p = Some s /\ ~ s == 0 /\
    ((is_long (pos_position_type p) = true /\ c <= s) \/
     (is_short (pos_position_type p) = true /\ s <= c)).

(** The price [c] is at or beyond the target of [p], on the winning
    side. *)
Definition target_reached (p : Position) (c : Q) : Prop :=
  exists t,
    pos_take_profit_price p = Some t /\ ~ t == 0 /\
    ((is_long (pos_position_type p) = true /\ t <= c) \/
     (is_short (pos_position_type p) = true /\ c <= t)).

Definition proposable_actions : list string :=
  ["execute_stop_loss"; "execute_take_profit"; "review_position";
   "consider_partial_profit"]%string.

(** The check of [ten_units] at the price 90. *)
Definition check_at_90 : PositionCheck :=
  Eval vm_compute in
    match check_position_risk (db_with ten_units) 1 (Some 90) with
    | Ok r => r
    | Err _ => mkPositionCheck 0 "" 0 0 0 0 [] [] None None
    end.


(** A row whose price is available and not zero. *)
Definition priced (feed : PortfolioService.PriceFeed)
    (row : PortfolioService.PortfolioHolding) : bool :=
  truthy_opt (feed (PortfolioService.h_symbol row)
                   (PortfolioService.h_exchange row)).

(** The rows of a portfolio that the summary reads: positive quantity. *)
Definition held_rows (db : PortfolioService.Store) (portfolio_id : Z)
    : list PortfolioService.PortfolioHolding :=
  filter (fun h => (Z.eqb (PortfolioService.h_portfolio_id h) portfolio_id
                    && gtb (PortfolioService.h_quantity h) 0)%bool)
         (PortfolioService.holdings db).

Definition holdings_value (hs : list PortfolioService.Holding) : Q :=
  fold_right (fun h t => PortfolioService.current_value h + t) 0 hs.

(** A summary entry made from a row at the feed's price. *)
Definition entry_of (feed : PortfolioService.PriceFeed)
    (row : PortfolioService.PortfolioHolding) (h : PortfolioService.Holding)
    : Prop :=
  PortfolioService.symbol h = PortfolioService.h_symbol row /\
  PortfolioService.exchange h = PortfolioService.h_exchange row /\
  PortfolioService.quantity h = PortfolioService.h_quantity row /\
  feed (PortfolioService.h_symbol row) (PortfolioService.h_exchange row)
    = Some (PortfolioService.current_price h) /\
  ~ PortfolioService.current_price h == 0 /\
  PortfolioService.current_value h
    = PortfolioService.h_quantity row * PortfolioService.current_price h.

(** The cash of a portfolio: [float(portfolio.cash_balance or 0)]. *)
Definition cash_of (pf : PortfolioService.Portfolio) : Q :=
  match PortfolioService.cash_balance pf with Some c => c | None => 0 end.

(** A store with a holding whose price is not available, a holding of
    another portfolio and an empty holding; DOT is not part of the
    aggressive allocation. *)
Definition store_three_coins : PortfolioService.Store :=
  PortfolioService.mkStore
    [PortfolioService.mkPortfolio 1 (Some 150) "aggressive" true 0.05]
    [PortfolioService.mkPortfolioHolding 1 "BTC/USDT" "binance" 1 600 600;
     PortfolioService.mkPortfolioHolding 1 "XRP/USDT" "binance" 50 1 50;
     PortfolioService.mkPortfolioHolding 1 "DOT/USDT" "binance" 5 30 150;
     PortfolioService.mkPortfolioHolding 2 "ETH/USDT" "binance" 9 300 2700;
     PortfolioService.mkPortfolioHolding 1 "DOGE/USDT" "binance" 0 1 0].

Definition feed_three_coins : PortfolioService.PriceFeed :=
  fun symbol _ =>
    if String.eqb symbol "BTC/USDT" then Some 650
    else if String.eqb symbol "DOT/USDT" then Some 20
    else if String.eqb symbol "ETH/USDT" then Some 200
    else None.

Definition summary_three_coins : PortfolioService.Summary :=
  Eval vm_compute in
    match PortfolioService.get_portfolio_summary store_three_coins
            feed_three_coins 1 with
    | Ok s => s
    | Err _ => PortfolioService.mkSummary 0 [] []
    end.

Definition trades_three_coins : list PortfolioService.RebalancingTrade :=
  Eval vm_compute in
    match PortfolioService.execute_rebalancing store_three_coins
            feed_three_coins feed_three_coins 1 with
    | Ok (PortfolioService.Generated ts) => ts
    | _ => []
    end.


(** The quantity and the cost on the books for a holding, 0 when there
    is none. *)
Definition held_quantity (db : Ledger.Store) (pid : Z) (sym exch : string)
    : Q :=
  match Ledger.get_holding db pid sym exch with
  | Some h => Ledger.quantity h
  | None => 0
  end.

Definition held_cost (db : Ledger.Store) (pid : Z) (sym exch : string) : Q :=
  match Ledger.get_holding db pid sym exch with
  | Some h => Ledger.quantity h * Ledger.average_price h
  | None => 0
  end.

(** The rows other than those of a holding. *)
Definition other_rows (pid : Z) (sym exch : string) (l : list Ledger.Holding)
    : list Ledger.Holding :=
  filter (fun h => negb (Ledger.is_holding pid sym exch h)) l.

(** A ledger with one holding: 2 BTC bought at 100. *)
Definition ledger_btc : Ledger.Store :=
  Ledger.mkStore
    [Ledger.mkPortfolio 1 (Some 500) None]
    [Ledger.mkHolding 1 1 "BTC/USDT" "binance" 2 100 100 200 200 0 0 None;
     Ledger.mkHolding 2 1 "ETH/USDT" "binance" 4 50 50 200 200 0 0 None]
    2.


(** * Properties *)

(** ** Comparisons, truth values and division *)

Lemma ltb_true (x y : Q) : ltb x y = true <-> x < y.
Proof.
  unfold ltb. rewrite negb_true_iff.
  split; intro H.
  - apply Qnot_le_lt. intro L. apply Qle_bool_iff in L. congruence.
  - destruct (Qle_bool y x) eqn:E; [|reflexivity].
    apply Qle_bool_iff in E. exfalso. exact (Qlt_not_le _ _ H E).
Qed.

Lemma ltb_false (x y : Q) : ltb x y = false <-> y <= x.
Proof.
  unfold ltb. rewrite negb_false_iff. apply Qle_bool_iff.
Qed.

Lemma gtb_true (x y : Q) : gtb x y = true <-> y < x.
Proof. apply ltb_true. Qed.

Lemma gtb_false (x y : Q) : gtb x y = false <-> x <= y.
Proof. apply ltb_false. Qed.

Lemma leb_true (x y : Q) : leb x y = true <-> x <= y.
Proof. apply Qle_bool_iff. Qed.

Lemma leb_false (x y : Q) : leb x y = false <-> y < x.
Proof.
  unfold leb. split; intro H.
  - apply Qnot_le_lt. intro L. apply Qle_bool_iff in L. congruence.
  - destruct (Qle_bool x y) eqn:E; [|reflexivity].
    apply Qle_bool_iff in E. exfalso. exact (Qlt_not_le _ _ H E).
Qed.

Lemma geb_true (x y : Q) : geb x y = true <-> y <= x.
Proof. apply leb_true. Qed.

Lemma geb_false (x y : Q) : geb x y = false <-> x < y.
Proof. apply leb_false. Qed.

Lemma eqb_true (x y : Q) : eqb x y = true <-> x == y.
Proof. apply Qeq_bool_iff. Qed.

Lemma eqb_false (x y : Q) : eqb x y = false <-> ~ x == y.
Proof.
  unfold eqb. split; intro H.
  - intro E. apply Qeq_bool_iff in E. congruence.
  - destruct (Qeq_bool x y) eqn:E; [|reflexivity].
    apply Qeq_bool_iff in E. contradiction.
Qed.

Lemma truthy_true (x : Q) : truthy x = true <-> ~ x == 0.
Proof. unfold truthy. rewrite negb_true_iff. apply eqb_false. Qed.

Lemma truthy_false (x : Q) : truthy x = false <-> x == 0.
Proof. unfold truthy. rewrite negb_false_iff. apply eqb_true. Qed.

Lemma div_ok (x y : Q) : ~ y == 0 -> div x y = Ok (x / y).
Proof.
  intro H. unfold div. apply eqb_false in H. rewrite H. reflexivity.
Qed.

Lemma div_err (x y : Q) : y == 0 -> div x y = Err zero_division.
Proof.
  intro H. unfold div. apply eqb_true in H. rewrite H. reflexivity.
Qed.

Lemma div_inv (x y r : Q) : div x y = Ok r -> ~ y == 0 /\ r = x / y.
Proof.
  unfold div. destruct (eqb y 0) eqn:E; [discriminate|].
  intro H. injection H as <-. split; [now apply eqb_false|reflexivity].
Qed.

Lemma min_le_l (x y : Q) : Py.min x y <= x.
Proof.
  unfold Py.min. destruct (ltb y x) eqn:E.
  - apply ltb_true in E. now apply Qlt_le_weak.
  - apply Qle_refl.
Qed.

Lemma min_le_r (x y : Q) : Py.min x y <= y.
Proof.
  unfold Py.min. destruct (ltb y x) eqn:E.
  - apply Qle_refl.
  - now apply ltb_false in E.
Qed.

(** ** Rows and commits *)

Lemma find_position_id (l : list Position) (i : Z) (p : Position) :
  find (fun q => Z.eqb (pos_id q) i) l = Some p -> pos_id p = i.
Proof.
  intro H. apply find_some in H. destruct H as [_ H].
  now apply Z.eqb_eq.
Qed.

Lemma get_position_id (db : Db) (i : Z) (p : Position) :
  get_position db i = Some p -> pos_id p = i.
Proof. apply find_position_id. Qed.

Lemma find_replace_position (l : list Position) (p p' : Position) :
  find (fun q => Z.eqb (pos_id q) (pos_id p')) l = Some p ->
  find (fun q => Z.eqb (pos_id q) (pos_id p')) (replace_position p' l) = Some p'.
Proof.
  induction l as [|q l IH]; simpl; [discriminate|].
  destruct (Z.eqb (pos_id q) (pos_id p')) eqn:E; intro H.
  - simpl. now rewrite Z.eqb_refl.
  - simpl. rewrite E. now apply IH.
Qed.

Lemma get_commit_position (db : Db) (p p' : Position) :
  get_position db (pos_id p') = Some p ->
  get_position (commit_position db p') (pos_id p') = Some p'.
Proof. apply find_replace_position. Qed.

(** ** Trailing stop *)





(** C1 (evaluation at the scenario of the claim): for the Long position
    entered at 100 and now at 125, [_calculate_trailing_stop_loss] returns
    102, not 110, because the 10% test precedes the 20% test; the update
    stores 102, and after the drop to 105 the next update finds nothing to
    set and the stop stays at 102. *)
Theorem trailing_stop_scenario_yields_102 :
  (exists s, _calculate_trailing_stop_loss (long_at 125 None) = Some s /\
             s == 102 /\ ~ s == 110) /\
  (let db1 := snd (execute_risk_action (db_with (long_at 125 None)) 0 1
                     "update_stop_loss" 100) in
   let r2 := execute_risk_action (price_tick db1 1 105) 0 1
               "update_stop_loss" 100 in
   exists s1 s2,
     stop_of db1 1 = Some s1 /\ s1 == 102 /\
     fst r2 = Err "Could not calculate new stop loss" /\
     stop_of (snd r2) 1 = Some s2 /\ s2 == 102).
Proof.
  split.
  - eexists. split; [vm_compute; reflexivity|]. split.
    + reflexivity.
    + intro H. unfold Qeq in H. simpl in H. lia.
  - simpl. do 2 eexists.
    split; [vm_compute; reflexivity|].
    split; [reflexivity|].
    split; [vm_compute; reflexivity|].
    split; [vm_compute; reflexivity|reflexivity].
Qed.




(** ** Position sizing *)

(** The size before the two caps: always computed when the entry price is
    not zero. *)
Lemma risk_based_size_ok (entry_price risk_amount : Q) (stop : option Q) :
  ~ entry_price == 0 ->
  exists raw,
    match stop with
    | Some stop =>
        if truthy stop then
          if gtb (Qabs (entry_price - stop)) 0
          then div risk_amount (Qabs (entry_price - stop)) else Ok 0
        else div risk_amount (entry_price * 0.02)
    | None => div risk_amount (entry_price * 0.02)
    end = Ok raw.
Proof.
  intro He.
  assert (Hd : ~ entry_price * 0.02 == 0).
  { intro H. apply He. lra. }
  destruct stop as [stop|].
  - destruct (truthy stop).
    + destruct (gtb _ 0) eqn:E.
      * apply gtb_true in E. eexists. apply div_ok. lra.
      * now eexists.
    + eexists. now apply div_ok.
  - eexists. now apply div_ok.
Qed.

(** The dict returned for a portfolio that is found, a non-zero entry
    price and a non-zero total value. *)
Lemma calculate_position_size_found (db : Db) (i : Z) (symbol : string)
    (entry_price : Q) (stop : option Q) (risk_pct max_pct : Q) (pf : Portfolio) :
  get_portfolio_row db i = Some pf ->
  ~ entry_price == 0 ->
  ~ pf_total_value pf == 0 ->
  exists raw,
    let total := pf_total_value pf in
    let available := pf_available_balance pf in
    let capped := Py.min raw (total * (max_pct / 100) / entry_price) in
    let required := capped * entry_price in
    let size := if gtb required available
                then available / entry_price * 0.95 else capped in
    calculate_position_size db i symbol entry_price stop risk_pct max_pct =
    Ok (mkPositionSize size (size * entry_price) (total * (risk_pct / 100))
          (total * (risk_pct / 100) / total * 100)
          (size * entry_price / total * 100) required available).
Proof.
  intros Hpf He Ht.
  destruct (risk_based_size_ok entry_price
              (pf_total_value pf * (risk_pct / 100)) stop He) as [raw Hraw].
  exists raw. unfold calculate_position_size. rewrite Hpf. cbv zeta.
  rewrite Hraw. cbn [bind].
  rewrite (div_ok _ entry_price He). cbn [bind].
  destruct (gtb _ (pf_available_balance pf)).
  - rewrite (div_ok _ entry_price He). cbn [bind].
    rewrite !(div_ok _ _ Ht). reflexivity.
  - cbn [bind]. rewrite !(div_ok _ _ Ht). reflexivity.
Qed.

(** C3 (counterexample): total value 10000, available balance 1000, entry
    50000, stop 48000, risk 2%, cap 10%: the size is 0.02 and the position
    value 1000, which is the whole balance and more than 950. *)
Lemma sizing_can_use_the_whole_balance :
  ~ sizing_within_caps (db_of_portfolio 10000 1000) 1 "BTC/USDT"
      50000 (Some 48000) 2 10.
Proof.
  intro H.
  destruct (calculate_position_size (db_of_portfolio 10000 1000) 1 "BTC/USDT"
              50000 (Some 48000) 2 10) as [r|m] eqn:E;
    [|vm_compute in E; discriminate].
  specialize (H (mkPortfolio 1 7 10000 1000) r eq_refl).
  destruct H as [H _]; try reflexivity; try exact E.
  vm_compute in E. injection E as <-.
  unfold Qle in H. simpl in H. lia.
Qed.

(** C3 (as amended): for positive entry price, total value and available
    balance the sizing succeeds, and the position value it returns
    ([position_size * entry_price]) is at most the available balance and at
    most [total_value * max_position_percentage / 100]; it is
    [available_balance * 0.95] when the required capital of the capped size
    exceeds the available balance. *)
Theorem position_value_bounds (db : Db) (i : Z) (symbol : string)
    (entry_price : Q) (stop : option Q) (risk_pct max_pct : Q) (pf : Portfolio) :
  get_portfolio_row db i = Some pf ->
  0 < entry_price ->
  0 < pf_total_value pf ->
  0 < pf_available_balance pf ->
  exists r,
    calculate_position_size db i symbol entry_price stop risk_pct max_pct = Ok r /\
    ps_position_value r == ps_position_size r * entry_price /\
    ps_position_value r <= pf_available_balance pf /\
    ps_position_value r <= pf_total_value pf * max_pct / 100 /\
    (pf_available_balance pf < ps_required_capital r ->
     ps_position_value r == pf_available_balance pf * 0.95).
Proof.
  intros Hpf He Ht Ha.
  assert (He0 : ~ entry_price == 0) by lra.
  assert (Ht0 : ~ pf_total_value pf == 0) by lra.
  destruct (calculate_position_size_found db i symbol entry_price stop
              risk_pct max_pct pf Hpf He0 Ht0) as [raw H].
  cbv zeta in H. eexists. split; [exact H|]. cbn.
  set (total := pf_total_value pf) in *.
  set (available := pf_available_balance pf) in *.
  set (cap := total * (max_pct / 100) / entry_price).
  assert (Hcap : Py.min raw cap * entry_price <= total * max_pct / 100).
  { apply Qle_trans with (cap * entry_price).
    - apply Qmult_le_compat_r; [apply min_le_r|lra].
    - unfold cap. apply Qle_lteq. right. field. exact He0. }
  assert (Hbuf : available / entry_price * 0.95 * entry_price == available * 0.95).
  { field. exact He0. }
  destruct (gtb (Py.min raw cap * entry_price) available) eqn:E.
  - apply gtb_true in E.
    split; [reflexivity|].
    split; [rewrite Hbuf; lra|].
    split; [rewrite Hbuf; lra|].
    intros _. exact Hbuf.
  - apply gtb_false in E.
    split; [reflexivity|].
    split; [exact E|].
    split; [exact Hcap|].
    intro F. lra.
Qed.

Lemma position_value_bounds_witness :
  exists r,
    calculate_position_size (db_of_portfolio 10000 1000) 1 "BTC/USDT"
      50000 (Some 48000) 2 10 = Ok r /\
    ps_position_value r == ps_position_size r * 50000 /\
    ps_position_value r <= 1000 /\
    ps_position_value r <= 10000 * 10 / 100 /\
    (1000 < ps_required_capital r -> ps_position_value r == 1000 * 0.95).
Proof.
  apply (position_value_bounds (db_of_portfolio 10000 1000) 1 "BTC/USDT"
           50000 (Some 48000) 2 10 (mkPortfolio 1 7 10000 1000)).
  - reflexivity.
  - reflexivity.
  - reflexivity.
  - reflexivity.
Defined.

(** C4 (counterexample): with an available balance of 0 the sizing returns
    a success dict (with size 0); and with a positive balance but a total
    value of 0 it fails, on the division by the total value. *)
Lemma sizing_succeeds_without_capital :
  ~ fails_iff_no_capital (db_of_portfolio 10000 0) 1 "BTC/USDT"
      50000 (Some 48000) 2 10 /\
  ~ fails_iff_no_capital (db_of_portfolio 0 1000) 1 "BTC/USDT"
      50000 (Some 48000) 2 10.
Proof.
  split; intro H.
  - destruct (H (mkPortfolio 1 7 10000 0) eq_refl) as [_ H2]; [reflexivity|].
    assert (L : 0 <= 0) by apply Qle_refl.
    specialize (H2 L). vm_compute in H2. discriminate.
  - destruct (H (mkPortfolio 1 7 0 1000) eq_refl) as [H1 _]; [reflexivity|].
    assert (F : 1000 <= 0) by (apply H1; vm_compute; reflexivity).
    unfold Qle in F. simpl in F. lia.
Qed.

(** C4 (as amended): the sizing has no failure for a lack of capital.
    Given a found portfolio, a positive entry price and a non-zero total
    value it returns a success dict whatever the available balance, also
    when that is zero or negative; when the required capital of the capped
    size exceeds the balance, the size returned is
    [available_balance / entry_price * 0.95]. *)
Theorem sizing_succeeds_for_any_balance (db : Db) (i : Z) (symbol : string)
    (entry_price : Q) (stop : option Q) (risk_pct max_pct : Q) (pf : Portfolio) :
  get_portfolio_row db i = Some pf ->
  0 < entry_price ->
  ~ pf_total_value pf == 0 ->
  exists r,
    calculate_position_size db i symbol entry_price stop risk_pct max_pct = Ok r /\
    ps_available_balance r = pf_available_balance pf /\
    (pf_available_balance pf < ps_required_capital r ->
     ps_position_size r = pf_available_balance pf / entry_price * 0.95).
Proof.
  intros Hpf He Ht.
  assert (He0 : ~ entry_price == 0) by lra.
  destruct (calculate_position_size_found db i symbol entry_price stop
              risk_pct max_pct pf Hpf He0 Ht) as [raw H].
  cbv zeta in H. eexists. split; [exact H|]. cbn.
  split; [reflexivity|].
  intro F. apply gtb_true in F. now rewrite F.
Qed.

Lemma sizing_succeeds_for_any_balance_witness :
  exists r,
    calculate_position_size (db_of_portfolio 10000 (-5)) 1 "BTC/USDT"
      50000 (Some 48000) 2 10 = Ok r /\
    ps_available_balance r = -5 /\
    (-5 < ps_required_capital r -> ps_position_size r = -5 / 50000 * 0.95).
Proof.
  apply (sizing_succeeds_for_any_balance (db_of_portfolio 10000 (-5)) 1
           "BTC/USDT" 50000 (Some 48000) 2 10 (mkPortfolio 1 7 10000 (-5))).
  - reflexivity.
  - reflexivity.
  - intro H. unfold Qeq in H. simpl in H. lia.
Defined.

(** ** Stop loss and take profit *)

(** A successful [calculate_stop_loss]: the entry price is not zero, the
    stop is not zero and the risk amount is the distance between them. *)
Lemma calculate_stop_loss_inv (entry_price : Q) (position_type method : string)
    (pct atr : Q) (sr : option Q) (sl : StopLoss) :
  calculate_stop_loss entry_price position_type method pct atr sr = Ok sl ->
  ~ entry_price == 0 /\
  truthy (sl_stop_loss_price sl) = true /\
  sl_risk_amount sl = Qabs (entry_price - sl_stop_loss_price sl).
Proof.
  unfold calculate_stop_loss.
  destruct (stop_loss_level _ _ _ _ _ _) as [s|]; [|discriminate].
  destruct (truthy s) eqn:Es; [|discriminate].
  destruct (div _ entry_price) as [r|m] eqn:Ed; [|discriminate].
  cbn [bind]. intros [= <-]. cbn.
  apply div_inv in Ed. destruct Ed as [He _]. now repeat split.
Qed.

(** The target computed from a stop and a ratio. *)
Lemma take_profit_level_from_ratio (entry_price : Q) (position_type : string)
    (ratio stop : Q) :
  truthy stop = true ->
  truthy ratio = true ->
  take_profit_level entry_price position_type ratio (Some stop) None =
  Some (if is_long position_type
        then entry_price + Qabs (entry_price - stop) * ratio
        else entry_price - Qabs (entry_price - stop) * ratio).
Proof.
  intros Hs Hr. unfold take_profit_level. rewrite Hs, Hr. cbn.
  now destruct (is_long position_type).
Qed.

Lemma reward_distance (entry_price reward : Q) (long : bool) :
  0 <= reward ->
  Qabs ((if long then entry_price + reward else entry_price - reward)
        - entry_price) == reward.
Proof.
  intro H. destruct long.
  - assert (E : entry_price + reward - entry_price == reward) by ring.
    rewrite E. now apply Qabs_pos.
  - assert (E : entry_price - reward - entry_price == - reward) by ring.
    rewrite E, Qabs_opp. now apply Qabs_pos.
Qed.

(** C5: let [calculate_stop_loss] succeed, for any method, entry price and
    side, and let [calculate_take_profit] be given its stop price and a
    risk/reward ratio [ratio > 0], with no target percentage.  Then every
    result it returns has [profit_amount = ratio * risk_amount], where
    [risk_amount] is the one of the stop; and it does return a result
    whenever the target price it computes is not zero, which is so for
    every Long position with a positive entry price and for every Short
    position whose reward is less than its entry price. *)
Theorem reward_is_ratio_times_risk (entry_price : Q)
    (position_type method : string) (pct atr : Q) (sr : option Q)
    (ratio : Q) (sl : StopLoss) :
  calculate_stop_loss entry_price position_type method pct atr sr = Ok sl ->
  0 < ratio ->
  (forall tp,
     calculate_take_profit entry_price position_type ratio
       (Some (sl_stop_loss_price sl)) None = Ok tp ->
     tp_profit_amount tp == ratio * sl_risk_amount sl) /\
  (0 < entry_price ->
   is_long position_type = true \/ ratio * sl_risk_amount sl < entry_price ->
   exists tp,
     calculate_take_profit entry_price position_type ratio
       (Some (sl_stop_loss_price sl)) None = Ok tp).
Proof.
  intros Hsl Hr.
  destruct (calculate_stop_loss_inv _ _ _ _ _ _ _ Hsl) as (He & Hs & Hrisk).
  assert (Htr : truthy ratio = true) by (apply truthy_true; lra).
  assert (Hpos : 0 <= Qabs (entry_price - sl_stop_loss_price sl) * ratio).
  { apply Qmult_le_0_compat; [apply Qabs_nonneg|lra]. }
  unfold calculate_take_profit.
  rewrite (take_profit_level_from_ratio _ _ _ _ Hs Htr).
  split.
  - intros tp.
    destruct (truthy (if is_long position_type then _ else _));
      [|discriminate].
    rewrite (div_ok _ _ He). cbn [bind]. intros [= <-]. cbn.
    eapply Qeq_trans; [apply reward_distance; exact Hpos|].
    rewrite Hrisk. apply Qmult_comm.
  - intros Hentry Hside.
    assert (Hlevel : truthy (if is_long position_type
              then entry_price + Qabs (entry_price - sl_stop_loss_price sl) * ratio
              else entry_price - Qabs (entry_price - sl_stop_loss_price sl) * ratio)
            = true).
    { apply truthy_true. rewrite Hrisk in Hside.
      destruct (is_long position_type).
      - lra.
      - destruct Hside as [F|Hlt]; [discriminate|]. lra. }
    rewrite Hlevel, (div_ok _ _ He). cbn [bind]. now eexists.
Qed.

Lemma reward_is_ratio_times_risk_witness :
  (forall tp,
     calculate_take_profit 100 "short" 3 (Some (100 * (1 + 2 / 100))) None = Ok tp ->
     tp_profit_amount tp == 3 * Qabs (100 - 100 * (1 + 2 / 100))) /\
  (0 < 100 ->
   is_long "short" = true \/ 3 * Qabs (100 - 100 * (1 + 2 / 100)) < 100 ->
   exists tp,
     calculate_take_profit 100 "short" 3 (Some (100 * (1 + 2 / 100))) None = Ok tp).
Proof.
  apply (reward_is_ratio_times_risk 100 "short" "percentage" 2 2 None 3
           (mkStopLoss (100 * (1 + 2 / 100)) (Qabs (100 - 100 * (1 + 2 / 100)))
              (Qabs (100 - 100 * (1 + 2 / 100)) / 100 * 100) "percentage")).
  - reflexivity.
  - reflexivity.
Defined.

(** ** Portfolio risk assessment *)

(** With a non-zero total value the position loop succeeds, and the total
    risk it accumulates is the sum, in order, of the risks of the views. *)
Lemma position_risk_loop_total (total : Q) (l : list Position) :
  ~ total == 0 ->
  forall acc,
    exists acc',
      position_risk_loop l total acc = Ok acc' /\
      acc_total_risk acc' =
      fold_left (fun t v => t + view_risk total v) (map risk_view l)
                (acc_total_risk acc).
Proof.
  intro Ht. induction l as [|p l IH]; intro acc.
  - exists acc. now split.
  - cbn [position_risk_loop map fold_left].
    rewrite (div_ok _ _ Ht). cbn [bind].
    unfold view_risk at 2. cbn [risk_view].
    destruct (truthy_opt (pos_stop_loss_price p)).
    + rewrite (div_ok _ _ Ht). cbn [bind]. apply IH.
    + cbn [bind]. apply IH.
Qed.

(** With a zero total value the first position already fails. *)
Lemma position_risk_loop_zero (total : Q) (p : Position) (l : list Position)
    (acc : RiskAcc) :
  total == 0 -> position_risk_loop (p :: l) total acc = Err zero_division.
Proof.
  intro Ht. cbn [position_risk_loop]. now rewrite (div_err _ _ Ht).
Qed.

Lemma sector_percentages_ok (total : Q) (values : dict) :
  ~ total == 0 ->
  forall acc, exists d, sector_percentages values total acc = Ok d.
Proof.
  intro Ht. induction values as [|[sector value] values IH]; intro acc.
  - now exists acc.
  - cbn [sector_percentages]. destruct (gtb value 0).
    + rewrite (div_ok _ _ Ht). cbn [bind]. apply IH.
    + apply IH.
Qed.

(** The assessment of a found portfolio with positions: it fails on a
    zero total value, and otherwise returns the sum of the view risks and
    its level. *)
Lemma check_portfolio_risk_outcome (db : Db) (i : Z) (m c s : Q)
    (pf : Portfolio) :
  get_portfolio_row db i = Some pf ->
  active_positions db i <> [] ->
  risk_outcome (check_portfolio_risk db i m c s) =
  if eqb (pf_total_value pf) 0 then None
  else
    let total_risk :=
      fold_left (fun t v => t + view_risk (pf_total_value pf) v)
                (map risk_view (active_positions db i)) 0 in
    Some (total_risk, risk_level_of total_risk).
Proof.
  intros Hpf Hne. unfold check_portfolio_risk. rewrite Hpf.
  destruct (active_positions db i) as [|p l] eqn:El; [congruence|].
  destruct (eqb (pf_total_value pf) 0) eqn:Et.
  - apply eqb_true in Et. now rewrite position_risk_loop_zero.
  - apply eqb_false in Et.
    destruct (position_risk_loop_total _ (p :: l) Et (mkRiskAcc 0 [] [] []))
      as (acc & Hacc & Htot).
    rewrite Hacc. cbn [bind].
    unfold _calculate_sector_concentration.
    destruct (sector_percentages_ok _
                (sector_values (p :: l)
                   [("crypto"%string, 0); ("forex"%string, 0);
                    ("commodities"%string, 0); ("other"%string, 0)]) Et [])
      as [d Hd].
    rewrite Hd. cbn [bind].
    destruct (sector_warnings d s) as [ws rs].
    cbn [risk_outcome pr_total_risk pr_risk_level].
    cbv zeta. now rewrite Htot.
Qed.

(** C6: two calls of [check_portfolio_risk] with the same limit parameters,
    on portfolios of the same total value whose active positions have, in
    order, the same quantities, current prices and stop levels, return the
    same [total_risk] and [risk_level] (or fail both); whatever else the
    two databases hold does not matter. *)
Theorem assessment_determined_by_inputs (db1 db2 : Db) (i1 i2 : Z)
    (m c s : Q) :
  option_map pf_total_value (get_portfolio_row db1 i1) =
  option_map pf_total_value (get_portfolio_row db2 i2) ->
  map risk_view (active_positions db1 i1) =
  map risk_view (active_positions db2 i2) ->
  risk_outcome (check_portfolio_risk db1 i1 m c s) =
  risk_outcome (check_portfolio_risk db2 i2 m c s).
Proof.
  intros Hv Hp.
  destruct (get_portfolio_row db1 i1) as [pf1|] eqn:E1;
    destruct (get_portfolio_row db2 i2) as [pf2|] eqn:E2;
    try discriminate.
  - injection Hv as Hv.
    destruct (active_positions db1 i1) as [|p1 l1] eqn:A1;
      destruct (active_positions db2 i2) as [|p2 l2] eqn:A2;
      try discriminate.
    + unfold check_portfolio_risk. now rewrite E1, E2, A1, A2.
    + rewrite (check_portfolio_risk_outcome db1 i1 m c s pf1 E1)
        by (rewrite A1; discriminate).
      rewrite (check_portfolio_risk_outcome db2 i2 m c s pf2 E2)
        by (rewrite A2; discriminate).
      now rewrite A1, A2, Hp, Hv.
  - unfold check_portfolio_risk. now rewrite E1, E2.
Qed.

Lemma assessment_determined_by_inputs_witness :
  risk_outcome (check_portfolio_risk db_a 1 10 0.7 30) =
  risk_outcome (check_portfolio_risk db_b 2 10 0.7 30).
Proof.
  apply (assessment_determined_by_inputs db_a db_b 1 2 10 0.7 30).
  - reflexivity.
  - reflexivity.
Defined.

(** C10: for a portfolio that exists and has no active position,
    [check_portfolio_risk] returns success with [total_risk] 0, [risk_level]
    ['low'] and no warnings or recommendations, and none of the other
    keys.  The total value is not looked at: the result is the same for
    every total value, also for 0, on which the full assessment fails. *)
Theorem no_positions_low_risk (db : Db) (i : Z) (m c s : Q) (pf : Portfolio) :
  get_portfolio_row db i = Some pf ->
  active_positions db i = [] ->
  check_portfolio_risk db i m c s = Ok (mkPortfolioRisk 0 "low" [] [] None).
Proof.
  intros Hpf Hp. unfold check_portfolio_risk. now rewrite Hpf, Hp.
Qed.

Lemma no_positions_low_risk_witness :
  check_portfolio_risk db_empty 1 10 0.7 30 =
  Ok (mkPortfolioRisk 0 "low" [] [] None).
Proof.
  apply (no_positions_low_risk db_empty 1 10 0.7 30 (mkPortfolio 1 7 0 0)).
  - reflexivity.
  - reflexivity.
Defined.

(** ** Exit orders *)

(** The row an exit order writes. *)
Lemma after_exit_row (db : Db) (now : Z) (p : Position) (quantity : Q)
    (reason : Reason) :
  get_position db (pos_id p) = Some p ->
  after_exit db now p quantity reason =
  Some (if geb quantity (pos_quantity p)
        then close_position p (pos_current_price p) now
        else set_quantity p (pos_quantity p - quantity)).
Proof.
  intro Hp. unfold after_exit, _execute_exit_order. cbn [snd].
  destruct (geb quantity (pos_quantity p)).
  - exact (get_commit_position db p
             (close_position p (pos_current_price p) now) Hp).
  - exact (get_commit_position db p
             (set_quantity p (pos_quantity p - quantity)) Hp).
Qed.

(** C8 (counterexample): selling 4 of the 10 units of an active position
    leaves its status ['active']. *)
Lemma partial_exit_keeps_status_active :
  ~ partial_exit_marks_state (db_with ten_units) 0 ten_units 4
      TakeProfitExecuted.
Proof.
  intro H. destruct H as (p' & Hp' & Hs).
  - reflexivity.
  - reflexivity.
  - vm_compute in Hp'. injection Hp' as <-. discriminate.
Qed.

(** C8 (as amended): an exit order for less than the position's quantity
    leaves the status as it is (an active position stays ['active']; no
    partially closed state is written), reduces the quantity by the exit
    quantity and sets neither exit price nor exit time.  An exit order for
    the position's quantity or more sets the status to ['closed'], the exit
    price to the current price and the exit time to the time of the
    order. *)
Theorem exit_order_transitions (db : Db) (now : Z) (p : Position)
    (quantity : Q) (reason : Reason) :
  get_position db (pos_id p) = Some p ->
  exists p',
    after_exit db now p quantity reason = Some p' /\
    (quantity < pos_quantity p ->
     pos_status p' = pos_status p /\
     pos_quantity p' = pos_quantity p - quantity /\
     pos_exit_price p' = pos_exit_price p /\
     pos_exit_time p' = pos_exit_time p) /\
    (pos_quantity p <= quantity ->
     pos_status p' = "closed"%string /\
     pos_exit_price p' = Some (pos_current_price p) /\
     pos_exit_time p' = Some now).
Proof.
  intro Hp. eexists. split; [now apply after_exit_row|].
  destruct (geb quantity (pos_quantity p)) eqn:E.
  - apply geb_true in E. split.
    + intro F. exfalso. exact (Qlt_not_le _ _ F E).
    + intros _. now cbn.
  - apply geb_false in E. split.
    + intros _. now cbn.
    + intro F. exfalso. exact (Qlt_not_le _ _ E F).
Qed.

Lemma exit_order_transitions_witness :
  exists p',
    after_exit (db_with ten_units) 5 ten_units 10 StopLossTriggered = Some p' /\
    (10 < 10 ->
     pos_status p' = "active"%string /\
     pos_quantity p' = 10 - 10 /\
     pos_exit_price p' = None /\
     pos_exit_time p' = None) /\
    (10 <= 10 ->
     pos_status p' = "closed"%string /\
     pos_exit_price p' = Some 120 /\
     pos_exit_time p' = Some 5%Z).
Proof.
  apply (exit_order_transitions (db_with ten_units) 5 ten_units 10
           StopLossTriggered).
  reflexivity.
Defined.

(** ** Rebalancing planner *)

Section Rebalancing.

Import PortfolioService.

Lemma quotient_positive (delta price : Q) :
  0 < price -> (0 < delta / price <-> 0 < delta).
Proof.
  intro Hp. split; intro H.
  - assert (E : delta == delta / price * price) by (field; lra).
    rewrite E. apply Qmult_lt_0_compat; assumption.
  - apply Qlt_shift_div_l; [exact Hp|]. lra.
Qed.

Lemma quotient_abs (delta price : Q) :
  0 < price -> Qabs (delta / price) == Qabs delta / price.
Proof.
  intro Hp. unfold Qdiv. rewrite Qabs_Qmult.
  rewrite (Qabs_pos (/ price)); [reflexivity|].
  apply Qlt_le_weak. now apply Qinv_lt_0_compat.
Qed.

(** The holdings of a summary carry the prices the feed gave. *)
Lemma holdings_data_positive (feed : PriceFeed) (rows : list PortfolioHolding) :
  positive_feed feed ->
  forall acc tv res,
    holdings_data feed rows acc tv = Ok res ->
    Forall (fun h => 0 < current_price h) acc ->
    Forall (fun h => 0 < current_price h) (fst res).
Proof.
  intro Hf. induction rows as [|row rows IH]; intros acc tv res.
  - cbn. now intros [= <-].
  - cbn [holdings_data].
    destruct (feed (h_symbol row) (h_exchange row)) as [price|] eqn:Ef;
      [|apply IH].
    destruct (truthy price); [|apply IH].
    destruct (gtb (h_total_cost row) 0).
    + destruct (div _ _) as [r|m]; [|discriminate]. cbn [bind].
      intros H Hacc. apply (IH _ _ _ H).
      apply Forall_app. split; [exact Hacc|].
      constructor; [|constructor]. cbn. exact (Hf _ _ _ Ef).
    + cbn [bind]. intros H Hacc. apply (IH _ _ _ H).
      apply Forall_app. split; [exact Hacc|].
      constructor; [|constructor]. cbn. exact (Hf _ _ _ Ef).
Qed.

Lemma summary_prices_positive (db : Store) (feed : PriceFeed) (i : Z)
    (summary : Summary) :
  positive_feed feed ->
  get_portfolio_summary db feed i = Ok summary ->
  Forall (fun h => 0 < current_price h) (summary_holdings summary).
Proof.
  intros Hf. unfold get_portfolio_summary.
  destruct (get_portfolio db i); [|discriminate].
  destruct (holdings_data _ _ _ _) as [data|m] eqn:Ed; [|discriminate].
  cbn [bind].
  destruct (_calculate_allocation _ _) as [alloc|m]; [|discriminate].
  cbn [bind]. intros [= <-]. cbn.
  exact (holdings_data_positive feed _ Hf _ _ _ Ed (Forall_nil _)).
Qed.

(** The trades the loop adds, one per holding whose value difference
    exceeds the minimum. *)
Lemma required_trades_sound (total : Q) (target : dict) (hs : list Holding) :
  Forall (fun h => 0 < current_price h) hs ->
  forall acc trades,
    required_trades hs total target acc = Ok trades ->
    exists new,
      trades = acc ++ new /\
      Forall (fun t =>
                (exists h, In h hs /\
                   rt_symbol t = symbol h /\ rt_exchange t = exchange h /\
                   rt_current_price t = current_price h /\
                   rt_value_difference t =
                     total * get_or_zero target (symbol h) - current_value h)
                /\ trade_well_formed t) new.
Proof.
  induction hs as [|h hs IH]; intros Hpos acc trades.
  - cbn. intros [= <-]. exists []. split; [now rewrite app_nil_r|constructor].
  - inversion Hpos as [|? ? Hh Hhs]; subst.
    cbn [required_trades]. cbv zeta.
    set (delta := total * get_or_zero target (symbol h) - current_value h).
    destruct (gtb (Qabs delta) 10) eqn:E.
    + assert (Hne : ~ current_price h == 0) by lra.
      rewrite (div_ok _ _ Hne). cbn [bind]. intro H.
      destruct (IH Hhs _ _ H) as (new & -> & Hnew).
      eexists (_ :: new). split; [now rewrite <- app_assoc|].
      constructor.
      * split.
        -- exists h. cbn. repeat split; try reflexivity. now left.
        -- unfold trade_well_formed.
           cbn [rt_value_difference rt_type rt_quantity rt_current_price].
           apply gtb_true in E.
           split; [exact E|].
           split; [|split].
           ++ intro Hd. apply (quotient_positive delta _ Hh) in Hd.
              apply gtb_true in Hd. now rewrite Hd.
           ++ intro Hd.
              destruct (gtb (delta / current_price h) 0) eqn:G; [|reflexivity].
              apply gtb_true in G. apply (quotient_positive delta _ Hh) in G.
              contradiction.
           ++ now apply quotient_abs.
      * eapply Forall_impl; [|exact Hnew].
        intros t [(h' & Hin & Hrest) Hw]. split; [|exact Hw].
        exists h'. split; [now right|exact Hrest].
    + intro H. destruct (IH Hhs _ _ H) as (new & -> & Hnew).
      exists new. split; [reflexivity|].
      eapply Forall_impl; [|exact Hnew].
      intros t [(h' & Hin & Hrest) Hw]. split; [|exact Hw].
      exists h'. split; [now right|exact Hrest].
Qed.

End Rebalancing.

(** C7: when the price feed read by the planner gives positive prices,
    every trade [execute_rebalancing] proposes comes from a holding of the
    portfolio summary with value difference
    [total_value * target_weight - current_value]; the absolute value
    difference is more than 10; the type is ['BUY'] when the value
    difference is positive and ['SELL'] otherwise; and the quantity is the
    absolute value difference divided by the current price. *)
Theorem rebalancing_trades_well_formed (db : PortfolioService.Store)
    (feed_check feed_plan : PortfolioService.PriceFeed) (i : Z)
    (trades : list PortfolioService.RebalancingTrade) :
  positive_feed feed_plan ->
  PortfolioService.execute_rebalancing db feed_check feed_plan i =
    Ok (PortfolioService.Generated trades) ->
  exists summary portfolio,
    PortfolioService.get_portfolio_summary db feed_plan i = Ok summary /\
    PortfolioService.get_portfolio db i = Some portfolio /\
    Forall (fun t =>
              planned_from summary
                (PortfolioService._get_target_allocation portfolio) t /\
              trade_well_formed t) trades.
Proof.
  intros Hf. unfold PortfolioService.execute_rebalancing.
  destruct (negb _); [discriminate|].
  destruct (PortfolioService.get_portfolio_summary db feed_plan i)
    as [summary|m] eqn:Es; [|discriminate].
  destruct (PortfolioService.get_portfolio db i) as [portfolio|] eqn:Ep;
    [|discriminate].
  destruct (PortfolioService.required_trades _ _ _ _) as [ts|m] eqn:Et;
    [|discriminate].
  cbn [bind]. intros [= <-].
  exists summary, portfolio. split; [reflexivity|]. split; [reflexivity|].
  pose proof (summary_prices_positive db feed_plan i summary Hf Es) as Hpos.
  destruct (required_trades_sound _ _ _ Hpos _ _ Et) as (new & -> & Hnew).
  exact Hnew.
Qed.

Lemma rebalancing_trades_well_formed_witness :
  exists summary portfolio,
    PortfolioService.get_portfolio_summary store_two_coins feed_two_coins 1
      = Ok summary /\
    PortfolioService.get_portfolio store_two_coins 1 = Some portfolio /\
    Forall (fun t =>
              planned_from summary
                (PortfolioService._get_target_allocation portfolio) t /\
              trade_well_formed t) trades_two_coins.
Proof.
  apply (rebalancing_trades_well_formed store_two_coins
           feed_two_coins feed_two_coins 1 trades_two_coins).
  - intros symbol exchange price. unfold feed_two_coins.
    destruct (String.eqb symbol "BTC/USDT"); [now intros [= <-]|].
    destruct (String.eqb symbol "ETH/USDT"); [now intros [= <-]|].
    discriminate.
  - vm_compute. reflexivity.
Defined.

(** ** Value at risk *)

(** *** Sorting *)

Lemma insert_perm (x : Q) (l : list Q) : Permutation (x :: l) (np.insert x l).
Proof.
  induction l as [|y l IH]; cbn.
  - apply Permutation_refl.
  - destruct (leb x y).
    + apply Permutation_refl.
    + eapply Permutation_trans; [apply perm_swap|].
      now apply perm_skip.
Qed.

Lemma sort_perm (l : list Q) : Permutation l (np.sort l).
Proof.
  induction l as [|x l IH]; cbn.
  - apply Permutation_refl.
  - eapply Permutation_trans; [|apply insert_perm]. now apply perm_skip.
Qed.

Lemma insert_sorted (x : Q) (l : list Q) :
  StronglySorted Qle l -> StronglySorted Qle (np.insert x l).
Proof.
  induction 1 as [|y l Hs IH Hy]; cbn.
  - constructor; constructor.
  - destruct (leb x y) eqn:E.
    + apply leb_true in E. constructor.
      * now constructor.
      * constructor; [exact E|].
        eapply Forall_impl; [|exact Hy].
        intros z Hz. exact (Qle_trans _ _ _ E Hz).
    + apply leb_false in E. constructor; [exact IH|].
      apply (Permutation_Forall (insert_perm x l)).
      constructor; [now apply Qlt_le_weak|exact Hy].
Qed.

Lemma sort_sorted (l : list Q) : StronglySorted Qle (np.sort l).
Proof.
  induction l as [|x l IH]; cbn.
  - constructor.
  - now apply insert_sorted.
Qed.

Lemma sorted_nth_le (s : list Q) :
  StronglySorted Qle s ->
  forall i j, (i <= j < length s)%nat -> nth i s 0 <= nth j s 0.
Proof.
  induction 1 as [|x s Hs IH Hx]; intros i j [Hij Hj].
  - cbn in Hj. lia.
  - destruct j as [|j].
    + replace i with 0%nat by lia. apply Qle_refl.
    + destruct i as [|i].
      * cbn [nth]. rewrite Forall_forall in Hx. apply Hx.
        apply nth_In. cbn in Hj. lia.
      * cbn [nth]. apply IH. cbn in Hj. lia.
Qed.

(** *** The simulation *)

Section Simulation.

Variable normal : Q -> Q -> nat -> Q.
Variable total : Q.
Hypothesis total_nonzero : ~ total == 0.

(** One trial draws once per position and adds up weight times draw. *)
Lemma simulate_day_spec (positions : list Position) :
  forall acc k,
    exists r,
      simulate_day normal positions total acc k
        = Ok (r, (k + length positions)%nat) /\
      r == acc + trial_return normal positions total k.
Proof.
  induction positions as [|p rest IH]; intros acc k.
  - exists acc. cbn. rewrite Nat.add_0_r. split; [reflexivity|ring].
  - cbn [simulate_day]. rewrite (div_ok _ _ total_nonzero). cbn [bind].
    destruct (IH (acc + pos_quantity p * pos_current_price p / total
                        * normal 0 0.02 k) (S k)) as (r & Hr & Er).
    exists r. split.
    + rewrite Hr. cbn [length]. now rewrite Nat.add_succ_r.
    + rewrite Er. cbn [trial_return]. unfold position_weight. ring.
Qed.

(** [trials] trials append [trials] returns, the [t]-th of them computed
    from the draws [k + t * n] onwards, where [n] is the number of
    positions. *)
Lemma simulate_spec (positions : list Position) (trials : nat) :
  forall acc k,
    exists rs,
      simulate normal trials positions total acc k
        = Ok (acc ++ rs, (k + trials * length positions)%nat) /\
      length rs = trials /\
      forall t, (t < trials)%nat ->
        nth t rs 0
        == trial_return normal positions total (k + t * length positions).
Proof.
  induction trials as [|m IH]; intros acc k.
  - exists []. cbn. rewrite app_nil_r, Nat.add_0_r.
    split; [reflexivity|]. split; [reflexivity|]. intros t Ht. lia.
  - cbn [simulate].
    destruct (simulate_day_spec positions 0 k) as (r & Hr & Er).
    rewrite Hr. cbn [bind fst snd].
    destruct (IH (acc ++ [r]) (k + length positions)%nat) as (rs & Hrs & Hl & Hn).
    exists (r :: rs). split; [|split].
    + rewrite Hrs. rewrite <- app_assoc. cbn [app].
      f_equal. f_equal. cbn [Nat.mul]. lia.
    + cbn [length]. now rewrite Hl.
    + intros [|t] Ht.
      * cbn [nth Nat.mul]. rewrite Nat.add_0_r. rewrite Er. ring.
      * cbn [nth]. rewrite (Hn t) by lia.
        replace (k + length positions + t * length positions)%nat
          with (k + S t * length positions)%nat by (cbn [Nat.mul]; lia).
        reflexivity.
Qed.

End Simulation.

(** *** The percentile and the tail *)

Lemma sum_total_of (l : list Q) :
  forall a, fold_left Qplus l a == a + total_of l.
Proof.
  induction l as [|x l IH]; intro a.
  - unfold total_of. cbn [fold_left fold_right]. ring.
  - cbn [fold_left]. rewrite IH. unfold total_of. cbn [fold_right]. ring.
Qed.

Lemma count_positive (l : list Q) : l <> [] -> 0 < count_of l.
Proof.
  intro H. unfold count_of. change 0 with (inject_Z 0). rewrite <- Zlt_Qlt.
  destruct l; [contradiction|]. cbn [length]. lia.
Qed.

(** [np.mean] is the sum divided by the count. *)
Lemma mean_spec (l : list Q) :
  l <> [] -> np.mean l * count_of l == total_of l.
Proof.
  intro H. pose proof (count_positive l H) as Hc.
  unfold np.mean, np.sum. fold (count_of l) in *. rewrite sum_total_of.
  change (np.len l) with (count_of l). field. lra.
Qed.

(** The mean of values that are all at most [v] is at most [v]. *)
Lemma mean_at_most (v m : Q) (l : list Q) :
  l <> [] -> Forall (fun x => x <= v) l ->
  m * count_of l == total_of l -> m <= v.
Proof.
  intros Hne Hl Hm. pose proof (count_positive l Hne) as Hc.
  assert (Hs : total_of l <= count_of l * v).
  { clear Hne Hm Hc. induction Hl as [|x l Hx Hl IH].
    - change (0 <= 0 * v). lra.
    - unfold total_of in *. cbn [fold_right].
      assert (E : count_of (x :: l) == count_of l + 1).
      { unfold count_of. cbn [length]. rewrite Nat2Z.inj_succ. unfold Z.succ.
        now rewrite inject_Z_plus. }
      rewrite E. lra. }
  rewrite <- Hm in Hs.
  destruct (Qlt_le_dec v m) as [F|F]; [|exact F].
  assert (count_of l * v < m * count_of l); [|lra].
  rewrite (Qmult_comm m). apply Qmult_lt_l; assumption.
Qed.

(** [a[a <= v]] keeps the entries at or below [v] and drops the others. *)
Lemma at_or_below_spec (a : list Q) (v : Q) :
  at_or_below_of v a (np.at_or_below a v).
Proof.
  induction a as [|x a IH]; [constructor|].
  unfold np.at_or_below in *. cbn [filter].
  destruct (leb x v) eqn:E.
  - apply leb_true in E. now constructor.
  - apply leb_false in E. now constructor.
Qed.

Lemma at_or_below_of_bounded (v : Q) (l tail : list Q) :
  at_or_below_of v l tail -> Forall (fun x => x <= v) tail.
Proof. induction 1; auto. Qed.

Lemma at_or_below_of_in (v : Q) (l tail : list Q) :
  at_or_below_of v l tail ->
  forall x, In x l -> x <= v -> In x tail.
Proof.
  induction 1 as [|y l tail Hy Ht IH|y l tail Hy Ht IH]; intros x Hx Hv.
  - destruct Hx.
  - destruct Hx as [<-|Hx]; [now left|right; now apply IH].
  - destruct Hx as [<-|Hx]; [lra|now apply IH].
Qed.

(** The value of [np.percentile] for [q] in range. *)
Lemma percentile_spec (a : list Q) (q : Q) :
  0 <= q -> q <= 100 ->
  exists var, np.percentile a q = Ok var /\ percentile_of a q var.
Proof.
  intros H0 H1. unfold np.percentile.
  assert (E0 : ltb q 0 = false) by now apply ltb_false.
  assert (E1 : gtb q 100 = false) by now apply gtb_false.
  rewrite E0, E1. cbn [orb]. eexists. split; [reflexivity|].
  exists (np.sort a). split; [apply sort_perm|]. split; [apply sort_sorted|].
  cbv zeta. reflexivity.
Qed.

(** A percentile is at least the smallest value: one of the values is at
    or below it. *)
Lemma percentile_above_one (a : list Q) (q v : Q) :
  a <> [] -> 0 <= q -> q <= 100 -> percentile_of a q v ->
  exists x, In x a /\ x <= v.
Proof.
  intros Hne H0 H1 (s & Hp & Hs & Hv). cbv zeta in Hv.
  pose proof (count_positive a Hne) as Hc.
  set (pos := (count_of a - 1) * (q / 100)) in *.
  assert (Hn : (0 < length a)%nat) by (destruct a; [contradiction|cbn; lia]).
  assert (Hc1 : 1 <= count_of a).
  { unfold count_of. change 1 with (inject_Z 1). rewrite <- Zle_Qle. lia. }
  assert (Hpos0 : 0 <= pos).
  { unfold pos. apply Qmult_le_0_compat; [lra|].
    apply Qle_shift_div_l; lra. }
  assert (Hpos1 : pos <= count_of a - 1).
  { unfold pos.
    assert (E : (count_of a - 1) * (q / 100)
                == (count_of a - 1) - (count_of a - 1) * ((100 - q) / 100))
      by field.
    rewrite E.
    assert (0 <= (count_of a - 1) * ((100 - q) / 100)); [|lra].
    apply Qmult_le_0_compat; [lra|]. apply Qle_shift_div_l; lra. }
  assert (Hb0 : (0 <= Qfloor pos)%Z).
  { change 0%Z with (Qfloor 0). now apply Qfloor_resp_le. }
  assert (Hb1 : (Qfloor pos <= Z.of_nat (length a) - 1)%Z).
  { assert (E : count_of a - 1 == inject_Z (Z.of_nat (length a) - 1)).
    { unfold count_of. unfold Z.sub. rewrite inject_Z_plus. reflexivity. }
    rewrite E in Hpos1. apply Qfloor_resp_le in Hpos1.
    now rewrite Qfloor_Z in Hpos1. }
  assert (Hg : 0 <= pos - inject_Z (Qfloor pos)).
  { pose proof (Qfloor_le pos). lra. }
  assert (Hls : length s = length a) by (symmetry; now apply Permutation_length).
  set (below := Z.to_nat (Qfloor pos)) in *.
  set (above := Z.to_nat (Z.min (Qfloor pos + 1) (Z.of_nat (length a) - 1))) in *.
  assert (Hba : (below <= above < length s)%nat) by (unfold below, above; lia).
  pose proof (sorted_nth_le s Hs below above Hba) as Hle.
  exists (nth below s 0). split.
  - apply (Permutation_in _ (Permutation_sym Hp)). apply nth_In. lia.
  - rewrite Hv.
    assert (0 <= (nth above s 0 - nth below s 0) * (pos - inject_Z (Qfloor pos)));
      [|lra].
    apply Qmult_le_0_compat; lra.
Qed.

(** The 5th percentile of 1000 values lies 95% of the way from the 50th
    to the 51st smallest (position 0.05 * 999 = 49.95, counted from 0). *)
Lemma percentile_of_fifth (a : list Q) (v : Q) :
  length a = 1000%nat ->
  percentile_of a ((1 - 0.95) * 100) v ->
  exists ascending,
    Permutation a ascending /\
    StronglySorted Qle ascending /\
    v == nth 49 ascending 0
         + (nth 50 ascending 0 - nth 49 ascending 0) * 0.95.
Proof.
  intros Hl (s & Hp & Hs & Hv). exists s. split; [exact Hp|].
  split; [exact Hs|]. cbv zeta in Hv. unfold count_of in Hv. rewrite Hl in Hv.
  assert (Hf : Qfloor ((inject_Z (Z.of_nat 1000) - 1)
                       * ((1 - 0.95) * 100 / 100)) = 49%Z)
    by (vm_compute; reflexivity).
  rewrite Hf in Hv.
  change (Z.to_nat 49) with 49%nat in Hv.
  change (Z.to_nat (Z.min (49 + 1) (Z.of_nat 1000 - 1))) with 50%nat in Hv.
  assert (Hg : (inject_Z (Z.of_nat 1000) - 1) * ((1 - 0.95) * 100 / 100)
               - inject_Z 49 == 0.95) by (vm_compute; reflexivity).
  rewrite Hv. now rewrite Hg.
Qed.

(** An interpolation between entries of a list whose entries all equal
    [c] is [c]. *)
Lemma constant_percentile (s : list Q) (c v : Q) (i j : nat) (g : Q) :
  (forall x, In x s -> x == c) ->
  (i < length s)%nat -> (j < length s)%nat ->
  v == nth i s 0 + (nth j s 0 - nth i s 0) * g ->
  v == c.
Proof.
  intros Hc Hi Hj Hv.
  rewrite Hv, (Hc (nth i s 0)), (Hc (nth j s 0)) by now apply nth_In.
  ring.
Qed.

(** *** The simulated value at risk *)

(** The result of the simulation, for a confidence level in range: the
    returns, their percentile and the mean of the tail, which is never
    empty. *)
Lemma portfolio_var_value (normal : Q -> Q -> nat -> Q) (db : Db) (k : nat)
    (i : Z) (c : Q) (horizon : Z) (pf : Portfolio) :
  get_portfolio_row db i = Some pf ->
  active_positions db i <> [] ->
  ~ pf_total_value pf == 0 ->
  0 <= c -> c <= 1 ->
  let positions := active_positions db i in
  let total := pf_total_value pf in
  exists returns tail var es,
    calculate_portfolio_var normal db k i c horizon
      = (Ok (Simulated
               (mkVaR (Qabs var * 100) (Qabs (var * total))
                  (Qabs es * 100) (Qabs (es * total)) c horizon total)),
         (k + 1000 * length positions)%nat) /\
    length returns = 1000%nat /\
    (forall t, (t < 1000)%nat ->
       nth t returns 0
       == trial_return normal positions total (k + t * length positions)) /\
    percentile_of returns ((1 - c) * 100) var /\
    at_or_below_of var returns tail /\
    tail <> [] /\
    es * count_of tail == total_of tail.
Proof.
  intros Hpf Hne Ht Hc0 Hc1 positions total.
  destruct (simulate_spec normal total Ht positions 1000 [] k)
    as (rs & Hsim & Hl & Hn).
  destruct (percentile_spec rs ((1 - c) * 100)) as (var & Hperc & Hvar);
    [lra|lra|].
  assert (Hrs : rs <> []) by (intros ->; discriminate).
  destruct (percentile_above_one rs ((1 - c) * 100) var Hrs) as (x & Hx & Hxv);
    [lra|lra|exact Hvar|].
  pose proof (at_or_below_spec rs var) as Htail.
  pose proof (at_or_below_of_in var rs _ Htail x Hx Hxv) as Hin.
  unfold calculate_portfolio_var. rewrite Hpf.
  fold positions. fold total.
  destruct positions as [|p l] eqn:Ep; [contradiction|].
  rewrite Hsim. cbn [app]. rewrite Hperc.
  destruct (np.at_or_below rs var) as [|y tail] eqn:Etail; [destruct Hin|].
  cbn [length Nat.ltb Nat.leb].
  exists rs, (y :: tail), var, (np.mean (y :: tail)).
  split; [reflexivity|]. split; [exact Hl|]. split; [exact Hn|].
  split; [exact Hvar|]. split; [exact Htail|]. split; [discriminate|].
  apply mean_spec. discriminate.
Qed.

(** [np.percentile], [a[a <= v]] and [np.mean] on five values that are
    not in order: the 30th percentile lies at position 1.2, between the
    second and the third smallest. *)
Example percentile_tail_mean_of_five :
  let a := [3; 1; 2; 5; 4] in
  (exists v, np.percentile a 30 = Ok v /\ v == 2.2) /\
  np.at_or_below a 2.2 = [1; 2] /\
  np.mean [1; 2] == 1.5.
Proof.
  cbv zeta. split; [|split].
  - eexists. split; [reflexivity|]. vm_compute. reflexivity.
  - reflexivity.
  - vm_compute. reflexivity.
Qed.

(** The returns of [db_a] under [scrambled] differ from trial to trial,
    and they are not in order: they rise over the first trials and have
    fallen back by trial 144. *)
Example scrambled_returns_vary :
  let r t := trial_return scrambled (active_positions db_a 1) 10000 (0 + t * 2) in
  r 0%nat == -0.00175616 /\ r 1%nat == -0.00173152 /\
  r 2%nat == -0.00170688 /\ r 144%nat < r 143%nat.
Proof. cbv zeta. vm_compute. repeat split. Qed.

(** C9 (counterexample): in [db_a] the two active positions weigh 0.024
    and 0.02.  With every draw at 0.02 (one standard deviation above the
    mean) each of the 1000 returns is 0.044 * 0.02 = 0.00088, and so is
    their 5th percentile.  Loss-positive this is a value at risk of -0.088
    (percent); the call reports [abs(var) * 100], which is 0.088. *)
Lemma gain_reported_as_value_at_risk :
  ~ var_reported_loss_positive upward db_a 0 1 1 /\
  exists v,
    fst (calculate_portfolio_var upward db_a 0 1 0.95 1) = Ok (Simulated v) /\
    var_percentage v == 0.088.
Proof.
  destruct (portfolio_var_value upward db_a 0 1 0.95 1
              (mkPortfolio 1 7 10000 5000) eq_refl)
    as (rs & tail & var & es & Hr & Hl & Hn & Hperc & _);
    [discriminate|intro H; unfold Qeq in H; simpl in H; lia|lra|lra|].
  destruct (percentile_of_fifth rs var Hl Hperc) as (s & Hp & Hs & Hv).
  assert (Hc : forall t, (t < 1000)%nat -> nth t rs 0 == 0.00088).
  { intros t Ht. rewrite (Hn t Ht). vm_compute. reflexivity. }
  assert (Hall : forall x, In x s -> x == 0.00088).
  { intros x Hx. apply (Permutation_in _ (Permutation_sym Hp)) in Hx.
    destruct (In_nth rs x 0 Hx) as (t & Ht & <-). apply Hc. lia. }
  assert (Hls : length s = 1000%nat)
    by (now rewrite <- (Permutation_length Hp)).
  assert (Hvar : var == 0.00088).
  { apply (constant_percentile s 0.00088 var 49 50 0.95 Hall); [lia|lia|].
    exact Hv. }
  assert (Hrep : Qabs var * 100 == 0.088).
  { rewrite Hvar. vm_compute. reflexivity. }
  assert (Hfst : fst (calculate_portfolio_var upward db_a 0 1 0.95 1)
                 = Ok (Simulated
                         (mkVaR (Qabs var * 100) (Qabs (var * 10000))
                            (Qabs es * 100) (Qabs (es * 10000)) 0.95 1 10000)))
    by (rewrite Hr; reflexivity).
  split.
  - intro F.
    specialize (F (mkPortfolio 1 7 10000 5000) rs s _ eq_refl Hfst Hl Hn Hp Hs).
    cbn [var_percentage] in F. rewrite <- Hv, Hrep, Hvar in F.
    vm_compute in F. discriminate.
  - eexists. split; [exact Hfst|]. exact Hrep.
Qed.

(** C9 (as amended): for a portfolio with active positions and a non-zero
    total value, [calculate_portfolio_var] at confidence 0.95 makes 1000
    draws per position from the random source, each with mean 0 and
    standard deviation 0.02, and builds 1000 portfolio returns, the [t]-th
    being the sum over the positions of weight times the draw of trial [t]
    for that position.  The value at risk is the 5th percentile of these
    returns (with the returns in ascending order, the point 95% of the way
    from the 50th to the 51st), reported as its absolute value in percent:
    that is the loss-positive value when the percentile is a loss, and the
    gain itself when it is a gain.  The expected shortfall is the mean of
    the returns at or below that percentile, of which there is at least
    one, reported as its absolute value in percent (its negation when the
    percentile is a loss).  The amounts are the absolute values of
    percentile and mean times the total value. *)
Theorem var_is_fifth_percentile_of_1000_trials
    (normal : Q -> Q -> nat -> Q) (db : Db) (k : nat) (i : Z) (horizon : Z)
    (pf : Portfolio) :
  get_portfolio_row db i = Some pf ->
  active_positions db i <> [] ->
  ~ pf_total_value pf == 0 ->
  let positions := active_positions db i in
  let total := pf_total_value pf in
  exists returns ascending tail var es v,
    calculate_portfolio_var normal db k i 0.95 horizon
      = (Ok (Simulated v), (k + 1000 * length positions)%nat) /\
    length returns = 1000%nat /\
    (forall t, (t < 1000)%nat ->
       nth t returns 0
       == trial_return normal positions total (k + t * length positions)) /\
    Permutation returns ascending /\
    StronglySorted Qle ascending /\
    var == nth 49 ascending 0
           + (nth 50 ascending 0 - nth 49 ascending 0) * 0.95 /\
    var_percentage v = Qabs var * 100 /\
    (var <= 0 -> var_percentage v == - var * 100) /\
    (0 <= var -> var_percentage v == var * 100) /\
    var_amount v = Qabs (var * total) /\
    at_or_below_of var returns tail /\
    tail <> [] /\
    es * count_of tail == total_of tail /\
    expected_shortfall_percentage v = Qabs es * 100 /\
    (var <= 0 -> expected_shortfall_percentage v == - es * 100) /\
    expected_shortfall_amount v = Qabs (es * total).
Proof.
  intros Hpf Hne Ht positions total.
  destruct (portfolio_var_value normal db k i 0.95 horizon pf Hpf Hne Ht)
    as (rs & tail & var & es & Hr & Hl & Hn & Hperc & Htail & Hnt & Hes);
    [lra|lra|].
  destruct (percentile_of_fifth rs var Hl Hperc) as (s & Hp & Hs & Hv).
  exists rs, s, tail, var, es. eexists. split; [exact Hr|].
  cbn [var_percentage var_amount expected_shortfall_percentage
       expected_shortfall_amount].
  split; [exact Hl|]. split; [exact Hn|]. split; [exact Hp|].
  split; [exact Hs|]. split; [exact Hv|]. split; [reflexivity|].
  split; [intro Hneg; now rewrite Qabs_neg by exact Hneg|].
  split; [intro Hpos; now rewrite Qabs_pos by exact Hpos|].
  split; [reflexivity|]. split; [exact Htail|]. split; [exact Hnt|].
  split; [exact Hes|]. split; [reflexivity|]. split; [|reflexivity].
  intro Hneg.
  assert (Hle : es <= var).
  { apply (mean_at_most var es tail Hnt); [|exact Hes].
    exact (at_or_below_of_bounded var rs tail Htail). }
  rewrite Qabs_neg by lra. reflexivity.
Qed.

Lemma var_is_fifth_percentile_of_1000_trials_witness :
  let positions := active_positions db_a 1 in
  let total := 10000 in
  exists returns ascending tail var es v,
    calculate_portfolio_var scrambled db_a 0 1 0.95 1
      = (Ok (Simulated v), (0 + 1000 * length positions)%nat) /\
    length returns = 1000%nat /\
    (forall t, (t < 1000)%nat ->
       nth t returns 0
       == trial_return scrambled positions total (0 + t * length positions)) /\
    Permutation returns ascending /\
    StronglySorted Qle ascending /\
    var == nth 49 ascending 0
           + (nth 50 ascending 0 - nth 49 ascending 0) * 0.95 /\
    var_percentage v = Qabs var * 100 /\
    (var <= 0 -> var_percentage v == - var * 100) /\
    (0 <= var -> var_percentage v == var * 100) /\
    var_amount v = Qabs (var * total) /\
    at_or_below_of var returns tail /\
    tail <> [] /\
    es * count_of tail == total_of tail /\
    expected_shortfall_percentage v = Qabs es * 100 /\
    (var <= 0 -> expected_shortfall_percentage v == - es * 100) /\
    expected_shortfall_amount v = Qabs (es * total).
Proof.
  apply (var_is_fifth_percentile_of_1000_trials scrambled db_a 0 1 1
           (mkPortfolio 1 7 10000 5000)).
  - reflexivity.
  - discriminate.
  - intro H. unfold Qeq in H. simpl in H. lia.
Defined.


(** * Further properties *)

(** ** Position sizing: risk budget and failures *)

Lemma risk_based_size_eq (entry_price risk_amount : Q) (stop : option Q) :
  0 < entry_price ->
  match stop with
  | Some stop =>
      if truthy stop then
        if gtb (Qabs (entry_price - stop)) 0
        then div risk_amount (Qabs (entry_price - stop)) else Ok 0
      else div risk_amount (entry_price * 0.02)
  | None => div risk_amount (entry_price * 0.02)
  end = Ok (risk_based_size entry_price risk_amount stop).
Proof.
  intro He. unfold risk_based_size, risk_distance.
  assert (Hd : 0 < entry_price * 0.02) by lra.
  assert (Hg : gtb (entry_price * 0.02) 0 = true) by now apply gtb_true.
  assert (Hn : ~ entry_price * 0.02 == 0) by lra.
  destruct stop as [stop|].
  - destruct (truthy stop).
    + destruct (gtb (Qabs (entry_price - stop)) 0) eqn:E; [|reflexivity].
      apply gtb_true in E. apply div_ok. lra.
    + rewrite Hg. now apply div_ok.
  - rewrite Hg. now apply div_ok.
Qed.

(** The sizing result, with the size before the caps made explicit. *)
Lemma calculate_position_size_value (db : Db) (i : Z) (symbol : string)
    (entry_price : Q) (stop : option Q) (risk_pct max_pct : Q) (pf : Portfolio) :
  get_portfolio_row db i = Some pf ->
  0 < entry_price ->
  ~ pf_total_value pf == 0 ->
  let total := pf_total_value pf in
  let available := pf_available_balance pf in
  let raw := risk_based_size entry_price (total * (risk_pct / 100)) stop in
  let capped := Py.min raw (total * (max_pct / 100) / entry_price) in
  let required := capped * entry_price in
  let size := if gtb required available
              then available / entry_price * 0.95 else capped in
  calculate_position_size db i symbol entry_price stop risk_pct max_pct =
  Ok (mkPositionSize size (size * entry_price) (total * (risk_pct / 100))
        (total * (risk_pct / 100) / total * 100)
        (size * entry_price / total * 100) required available).
Proof.
  intros Hpf He Ht. cbv zeta.
  assert (He0 : ~ entry_price == 0) by lra.
  unfold calculate_position_size. rewrite Hpf. cbv zeta.
  rewrite (risk_based_size_eq _ _ stop He). cbn [bind].
  rewrite (div_ok _ entry_price He0). cbn [bind].
  destruct (gtb _ (pf_available_balance pf)).
  - rewrite (div_ok _ entry_price He0). cbn [bind].
    rewrite !(div_ok _ _ Ht). reflexivity.
  - cbn [bind]. rewrite !(div_ok _ _ Ht). reflexivity.
Qed.

(** X1: the money at risk stays within the risk budget.  For positive
    entry price and total value, a balance that is not negative and a risk
    percentage that is not negative, the size returned times the risk
    distance of one unit (the distance between entry and stop, or 2% of the
    entry price when no stop is given) is at most the risk amount
    [total_value * risk_percentage / 100]; and the size is never more than
    the size the risk budget alone allows. *)
Theorem position_risk_within_budget (db : Db) (i : Z) (symbol : string)
    (entry_price : Q) (stop : option Q) (risk_pct max_pct : Q) (pf : Portfolio) :
  get_portfolio_row db i = Some pf ->
  0 < entry_price ->
  0 < pf_total_value pf ->
  0 <= pf_available_balance pf ->
  0 <= risk_pct ->
  exists r,
    calculate_position_size db i symbol entry_price stop risk_pct max_pct = Ok r /\
    ps_risk_amount r == pf_total_value pf * risk_pct / 100 /\
    ps_position_size r <= risk_based_size entry_price (ps_risk_amount r) stop /\
    ps_position_size r * risk_distance entry_price stop <= ps_risk_amount r.
Proof.
  intros Hpf He Ht Ha Hr.
  assert (Ht0 : ~ pf_total_value pf == 0) by lra.
  pose proof (calculate_position_size_value db i symbol entry_price stop
                risk_pct max_pct pf Hpf He Ht0) as H.
  cbv zeta in H. eexists. split; [exact H|].
  cbn [ps_risk_amount ps_position_size].
  set (total := pf_total_value pf) in *.
  set (available := pf_available_balance pf) in *.
  set (risk := total * (risk_pct / 100)).
  set (raw := risk_based_size entry_price risk stop).
  set (cap := total * (max_pct / 100) / entry_price).
  assert (Hrisk : 0 <= risk).
  { unfold risk. apply Qmult_le_0_compat; [lra|].
    apply Qle_shift_div_l; lra. }
  assert (Hsize : (if gtb (Py.min raw cap * entry_price) available
                   then available / entry_price * 0.95 else Py.min raw cap)
                  <= raw).
  { destruct (gtb (Py.min raw cap * entry_price) available) eqn:E.
    - apply gtb_true in E.
      apply Qle_trans with (Py.min raw cap); [|apply min_le_l].
      assert (Hq : available / entry_price * 0.95 * entry_price
                   <= Py.min raw cap * entry_price).
      { assert (Hb : available / entry_price * 0.95 * entry_price
                     == available * 0.95) by (field; lra).
        rewrite Hb. lra. }
      apply Qmult_lt_0_le_reg_r with entry_price; assumption.
    - apply min_le_l. }
  split; [unfold risk; field|]. split; [exact Hsize|].
  set (size := if gtb (Py.min raw cap * entry_price) available
               then available / entry_price * 0.95 else Py.min raw cap) in *.
  set (d := risk_distance entry_price stop).
  assert (Hd : 0 <= d).
  { unfold d, risk_distance. destruct stop as [stop|];
      [destruct (truthy stop); [apply Qabs_nonneg|lra]|lra]. }
  unfold raw, risk_based_size in Hsize. fold d in Hsize.
  destruct (gtb d 0) eqn:Ed.
  - apply gtb_true in Ed.
    apply Qle_trans with (risk / d * d).
    + apply Qmult_le_compat_r; assumption.
    + apply Qle_lteq. right. field. lra.
  - apply gtb_false in Ed.
    assert (Hz : d == 0) by lra.
    rewrite Hz. lra.
Qed.

Lemma position_risk_within_budget_witness :
  exists r,
    calculate_position_size (db_of_portfolio 10000 1000) 1 "BTC/USDT"
      50000 (Some 48000) 2 10 = Ok r /\
    ps_risk_amount r == 10000 * 2 / 100 /\
    ps_position_size r
      <= risk_based_size 50000 (ps_risk_amount r) (Some 48000) /\
    ps_position_size r * risk_distance 50000 (Some 48000) <= ps_risk_amount r.
Proof.
  apply (position_risk_within_budget (db_of_portfolio 10000 1000) 1 "BTC/USDT"
           50000 (Some 48000) 2 10 (mkPortfolio 1 7 10000 1000)).
  - reflexivity.
  - reflexivity.
  - reflexivity.
  - unfold Qle. simpl. lia.
  - unfold Qle. simpl. lia.
Defined.

(** X2: the failures of the sizing.  [calculate_position_size] returns a
    failure dict exactly when the portfolio is not found, the entry price
    is zero, or the total value of the portfolio is zero; the stop, the
    percentages and the available balance never make it fail. *)
Theorem sizing_fails_exactly_when (db : Db) (i : Z) (symbol : string)
    (entry_price : Q) (stop : option Q) (risk_pct max_pct : Q) :
  is_ok (calculate_position_size db i symbol entry_price stop risk_pct max_pct)
    = false
  <-> (get_portfolio_row db i = None \/
       entry_price == 0 \/
       exists pf, get_portfolio_row db i = Some pf /\ pf_total_value pf == 0).
Proof.
  split.
  - intro H. destruct (get_portfolio_row db i) as [pf|] eqn:Hpf; [|now left].
    right. destruct (Qeq_dec entry_price 0) as [He|He]; [now left|].
    right. exists pf. split; [reflexivity|].
    destruct (Qeq_dec (pf_total_value pf) 0) as [Ht|Ht]; [exact Ht|].
    destruct (calculate_position_size_found db i symbol entry_price stop
                risk_pct max_pct pf Hpf He Ht) as [raw E].
    cbv zeta in E. rewrite E in H. discriminate.
  - intros [Hn|[He|(pf & Hpf & Ht)]].
    + unfold calculate_position_size. now rewrite Hn.
    + unfold calculate_position_size.
      destruct (get_portfolio_row db i) as [pf|]; [|reflexivity]. cbv zeta.
      match goal with
      | |- is_ok (bind ?m _) = false => destruct m as [raw|msg]
      end; [|reflexivity].
      cbn [bind]. now rewrite (div_err _ _ He).
    + destruct (Qeq_dec entry_price 0) as [He|He].
      * unfold calculate_position_size. rewrite Hpf. cbv zeta.
        match goal with
        | |- is_ok (bind ?m _) = false => destruct m as [raw|msg]
        end; [|reflexivity].
        cbn [bind]. now rewrite (div_err _ _ He).
      * unfold calculate_position_size. rewrite Hpf. cbv zeta.
        destruct (risk_based_size_ok entry_price
                    (pf_total_value pf * (risk_pct / 100)) stop He)
          as [raw Hraw].
        rewrite Hraw. cbn [bind].
        rewrite (div_ok _ entry_price He). cbn [bind].
        destruct (gtb _ (pf_available_balance pf)).
        -- rewrite (div_ok _ entry_price He). cbn [bind].
           now rewrite (div_err _ _ Ht).
        -- cbn [bind]. now rewrite (div_err _ _ Ht).
Qed.

(** ** Stop loss and take profit: percentages and sides *)

Lemma stop_loss_level_percentage (entry_price : Q) (position_type : string)
    (pct atr : Q) (sr : option Q) :
  stop_loss_level entry_price position_type "percentage" pct atr sr =
  Some (if is_long position_type
        then entry_price * (1 - pct / 100)
        else entry_price * (1 + pct / 100)).
Proof.
  unfold stop_loss_level. destruct (is_long position_type); reflexivity.
Qed.

(** X3: a percentage stop risks the percentage asked for.  For a positive
    entry price and a percentage [pct > 0] (other than 100 for a Long, whose
    stop would be zero), the [percentage] method succeeds, its
    [risk_percentage] is [pct], its [risk_amount] is
    [entry_price * pct / 100], and the stop lies below the entry price for
    a Long and above it for any other side. *)
Theorem percentage_stop_risks_percentage (entry_price : Q)
    (position_type : string) (pct atr : Q) (sr : option Q) :
  0 < entry_price ->
  0 < pct ->
  (is_long position_type = true -> ~ pct == 100) ->
  exists sl,
    calculate_stop_loss entry_price position_type "percentage" pct atr sr
      = Ok sl /\
    sl_risk_percentage sl == pct /\
    sl_risk_amount sl == entry_price * pct / 100 /\
    (if is_long position_type
     then sl_stop_loss_price sl < entry_price
     else entry_price < sl_stop_loss_price sl).
Proof.
  intros He Hp Hl.
  assert (He0 : ~ entry_price == 0) by lra.
  unfold calculate_stop_loss. rewrite stop_loss_level_percentage.
  assert (Hd : 0 < entry_price * (pct / 100)).
  { apply Qmult_lt_0_compat; [exact He|]. apply Qlt_shift_div_l; lra. }
  destruct (is_long position_type).
  - assert (Hs : truthy (entry_price * (1 - pct / 100)) = true).
    { apply truthy_true. intro E.
      assert (E1 : 1 - pct / 100 == 0).
      { destruct (Qmult_integral _ _ E) as [F|F]; [contradiction|exact F]. }
      apply (Hl eq_refl).
      assert (E2 : pct / 100 == 1) by lra.
      assert (E3 : pct == pct / 100 * 100) by field.
      rewrite E3, E2. reflexivity. }
    rewrite Hs, (div_ok _ _ He0). cbn [bind].
    eexists. split; [reflexivity|].
    cbn [sl_risk_percentage sl_risk_amount sl_stop_loss_price].
    assert (Ea : Qabs (entry_price - entry_price * (1 - pct / 100))
                 == entry_price * (pct / 100)).
    { assert (E : entry_price - entry_price * (1 - pct / 100)
                  == entry_price * (pct / 100)) by ring.
      rewrite E. apply Qabs_pos. lra. }
    split; [rewrite Ea; field; exact He0|].
    split; [rewrite Ea; field|].
    lra.
  - assert (Hs : truthy (entry_price * (1 + pct / 100)) = true).
    { apply truthy_true. lra. }
    rewrite Hs, (div_ok _ _ He0). cbn [bind].
    eexists. split; [reflexivity|].
    cbn [sl_risk_percentage sl_risk_amount sl_stop_loss_price].
    assert (Ea : Qabs (entry_price - entry_price * (1 + pct / 100))
                 == entry_price * (pct / 100)).
    { assert (E : entry_price - entry_price * (1 + pct / 100)
                  == - (entry_price * (pct / 100))) by ring.
      rewrite E, Qabs_opp. apply Qabs_pos. lra. }
    split; [rewrite Ea; field; exact He0|].
    split; [rewrite Ea; field|].
    lra.
Qed.

Lemma percentage_stop_risks_percentage_witness :
  exists sl,
    calculate_stop_loss 50000 "Long" "percentage" 4 2 None = Ok sl /\
    sl_risk_percentage sl == 4 /\
    sl_risk_amount sl == 50000 * 4 / 100 /\
    (if is_long "Long"
     then sl_stop_loss_price sl < 50000
     else 50000 < sl_stop_loss_price sl).
Proof.
  apply (percentage_stop_risks_percentage 50000 "Long" 4 2 None).
  - reflexivity.
  - reflexivity.
  - intros _ H. unfold Qeq in H. simpl in H. lia.
Defined.

(** X4: a target percentage decides the take profit alone.  For a positive
    entry price and a target percentage [target > 0] (other than 100 for a
    side that is not Long, whose target price would be zero), the call
    succeeds whatever stop and ratio are passed; the target price is
    [entry_price * (1 + target / 100)] for a Long and
    [entry_price * (1 - target / 100)] otherwise, the [profit_percentage]
    is [target], and the ratio is returned as it was passed. *)
Theorem target_percentage_decides_take_profit (entry_price : Q)
    (position_type : string) (ratio : Q) (stop : option Q) (target : Q) :
  0 < entry_price ->
  0 < target ->
  (is_long position_type = false -> ~ target == 100) ->
  exists tp,
    calculate_take_profit entry_price position_type ratio stop (Some target)
      = Ok tp /\
    tp_take_profit_price tp
      = (if is_long position_type
         then entry_price * (1 + target / 100)
         else entry_price * (1 - target / 100)) /\
    tp_profit_percentage tp == target /\
    tp_risk_reward_ratio tp = ratio.
Proof.
  intros He Hp Hs.
  assert (He0 : ~ entry_price == 0) by lra.
  assert (Ht : truthy target = true) by (apply truthy_true; lra).
  assert (Hd : 0 < entry_price * (target / 100)).
  { apply Qmult_lt_0_compat; [exact He|]. apply Qlt_shift_div_l; lra. }
  unfold calculate_take_profit, take_profit_level. rewrite Ht.
  destruct (is_long position_type).
  - assert (Hl : truthy (entry_price * (1 + target / 100)) = true)
      by (apply truthy_true; lra).
    rewrite Hl, (div_ok _ _ He0). cbn [bind].
    eexists. split; [reflexivity|]. split; [reflexivity|].
    split; [|reflexivity]. cbn [tp_profit_percentage].
    assert (Ea : Qabs (entry_price * (1 + target / 100) - entry_price)
                 == entry_price * (target / 100)).
    { assert (E : entry_price * (1 + target / 100) - entry_price
                  == entry_price * (target / 100)) by ring.
      rewrite E. apply Qabs_pos. lra. }
    rewrite Ea. field. exact He0.
  - assert (Hl : truthy (entry_price * (1 - target / 100)) = true).
    { apply truthy_true. intro E.
      assert (E1 : 1 - target / 100 == 0).
      { destruct (Qmult_integral _ _ E) as [F|F]; [contradiction|exact F]. }
      apply (Hs eq_refl).
      assert (E2 : target / 100 == 1) by lra.
      assert (E3 : target == target / 100 * 100) by field.
      rewrite E3, E2. reflexivity. }
    rewrite Hl, (div_ok _ _ He0). cbn [bind].
    eexists. split; [reflexivity|]. split; [reflexivity|].
    split; [|reflexivity]. cbn [tp_profit_percentage].
    assert (Ea : Qabs (entry_price * (1 - target / 100) - entry_price)
                 == entry_price * (target / 100)).
    { assert (E : entry_price * (1 - target / 100) - entry_price
                  == - (entry_price * (target / 100))) by ring.
      rewrite E, Qabs_opp. apply Qabs_pos. lra. }
    rewrite Ea. field. exact He0.
Qed.

Lemma target_percentage_decides_take_profit_witness :
  exists tp,
    calculate_take_profit 200 "short" 3 (Some 210) (Some 5) = Ok tp /\
    tp_take_profit_price tp
      = (if is_long "short" then 200 * (1 + 5 / 100) else 200 * (1 - 5 / 100)) /\
    tp_profit_percentage tp == 5 /\
    tp_risk_reward_ratio tp = 3.
Proof.
  apply (target_percentage_decides_take_profit 200 "short" 3 (Some 210) 5).
  - reflexivity.
  - reflexivity.
  - intros _ H. unfold Qeq in H. simpl in H. lia.
Defined.

Lemma stop_loss_level_atr (entry_price : Q) (position_type : string)
    (pct atr : Q) (sr : option Q) :
  truthy atr = true ->
  stop_loss_level entry_price position_type "atr" pct atr sr =
  Some (if is_long position_type
        then entry_price - entry_price * 0.02 * atr
        else entry_price + entry_price * 0.02 * atr).
Proof.
  intro H. unfold stop_loss_level.
  change (String.eqb "atr" "percentage") with false.
  change (String.eqb "atr" "atr") with true.
  cbv iota. rewrite H. cbn [andb].
  destruct (is_long position_type); reflexivity.
Qed.

Lemma truthy_proper (x y : Q) : x == y -> truthy x = truthy y.
Proof.
  intro E. unfold truthy, eqb. f_equal.
  destruct (Qeq_bool x 0) eqn:A; destruct (Qeq_bool y 0) eqn:B;
    try reflexivity.
  - apply Qeq_bool_iff in A. rewrite E in A. apply Qeq_bool_iff in A. congruence.
  - apply Qeq_bool_iff in B. rewrite <- E in B. apply Qeq_bool_iff in B.
    congruence.
Qed.

(** X5: the [atr] method is a percentage stop in disguise.  With a
    multiplier [m] that is not zero, every result of the [atr] method
    agrees with the result of the [percentage] method for the percentage
    [2 * m]: same stop price, same risk amount, same risk percentage. *)
Theorem atr_stop_is_percentage_stop (entry_price : Q) (position_type : string)
    (pct m : Q) (sr : option Q) (sl : StopLoss) :
  ~ m == 0 ->
  calculate_stop_loss entry_price position_type "atr" pct m sr = Ok sl ->
  exists sl',
    calculate_stop_loss entry_price position_type "percentage" (2 * m) m sr
      = Ok sl' /\
    sl_stop_loss_price sl == sl_stop_loss_price sl' /\
    sl_risk_amount sl == sl_risk_amount sl' /\
    sl_risk_percentage sl == sl_risk_percentage sl'.
Proof.
  intros Hm. apply truthy_true in Hm.
  unfold calculate_stop_loss.
  rewrite (stop_loss_level_atr _ _ _ _ _ Hm), stop_loss_level_percentage.
  set (a := if is_long position_type
            then entry_price - entry_price * 0.02 * m
            else entry_price + entry_price * 0.02 * m).
  set (b := if is_long position_type
            then entry_price * (1 - 2 * m / 100)
            else entry_price * (1 + 2 * m / 100)).
  assert (Eab : a == b).
  { unfold a, b. destruct (is_long position_type); field. }
  clearbody a b.
  rewrite <- (truthy_proper a b Eab).
  destruct (truthy a); [|discriminate].
  destruct (div (Qabs (entry_price - a)) entry_price) as [r|msg] eqn:Ed;
    [|discriminate].
  apply div_inv in Ed. destruct Ed as [He ->].
  cbn [bind]. intro E.
  assert (E' : mkStopLoss a (Qabs (entry_price - a))
                 (Qabs (entry_price - a) / entry_price * 100) "atr" = sl)
    by congruence.
  subst sl. clear E.
  rewrite (div_ok _ _ He). cbn [bind].
  eexists. split; [reflexivity|].
  cbn [sl_stop_loss_price sl_risk_amount sl_risk_percentage].
  split; [exact Eab|].
  split; [now rewrite Eab|now rewrite Eab].
Qed.

Lemma atr_stop_is_percentage_stop_witness :
  exists sl',
    calculate_stop_loss 100 "short" "percentage" (2 * 3) 3 None = Ok sl' /\
    100 + 100 * 0.02 * 3 == sl_stop_loss_price sl' /\
    Qabs (100 - (100 + 100 * 0.02 * 3)) == sl_risk_amount sl' /\
    Qabs (100 - (100 + 100 * 0.02 * 3)) / 100 * 100 == sl_risk_percentage sl'.
Proof.
  apply (atr_stop_is_percentage_stop 100 "short" 2 3 None
           (mkStopLoss (100 + 100 * 0.02 * 3)
              (Qabs (100 - (100 + 100 * 0.02 * 3)))
              (Qabs (100 - (100 + 100 * 0.02 * 3)) / 100 * 100) "atr")).
  - intro H. unfold Qeq in H. simpl in H. lia.
  - reflexivity.
Defined.

(** ** Portfolio risk assessment: the report *)

(** What the position loop adds to its accumulators. *)
Lemma position_risk_loop_report (total : Q) (l : list Position) :
  forall acc acc',
    position_risk_loop l total acc = Ok acc' ->
    exists new,
      acc_position_risks acc' = acc_position_risks acc ++ new /\
      map prk_symbol new = map pos_symbol l /\
      acc_total_risk acc' =
        fold_left (fun t r => t + prk_risk_percentage r) new (acc_total_risk acc) /\
      (length (acc_warnings acc) = length (acc_recommendations acc) ->
       length (acc_warnings acc') = length (acc_recommendations acc')).
Proof.
  induction l as [|p l IH]; intros acc acc'.
  - cbn. intros [= <-]. exists []. rewrite app_nil_r. now repeat split.
  - cbn [position_risk_loop].
    destruct (div (pos_quantity p * pos_current_price p) total) as [w|m];
      [|discriminate].
    cbn [bind].
    match goal with
    | |- bind ?x _ = _ -> _ => destruct x as [risk|m]
    end; [|discriminate].
    cbn [bind]. intro H.
    destruct (IH _ _ H) as (new & Hr & Hs & Ht & Hl).
    cbn [acc_position_risks acc_total_risk acc_warnings acc_recommendations]
      in Hr, Ht, Hl.
    exists (mkPositionRisk (pos_symbol p) risk (w * 100) :: new).
    split; [now rewrite Hr, <- app_assoc|].
    split; [cbn [map prk_symbol]; now rewrite Hs|].
    split; [exact Ht|].
    intro E. apply Hl.
    destruct (gtb (w * 100) 15); [|exact E].
    rewrite !length_app. cbn [length]. lia.
Qed.

Lemma sector_warnings_paired (conc : dict) (limit : Q) :
  length (fst (sector_warnings conc limit))
  = length (snd (sector_warnings conc limit)).
Proof.
  induction conc as [|[sector c] conc IH]; [reflexivity|].
  cbn [sector_warnings].
  destruct (sector_warnings conc limit) as [ws rs].
  destruct (gtb c limit); cbn in *; lia.
Qed.

(** X6: warnings and recommendations come in pairs.  Every assessment
    that succeeds returns as many recommendations as warnings. *)
Theorem warnings_and_recommendations_paired (db : Db) (i : Z) (m c s : Q)
    (r : PortfolioRisk) :
  check_portfolio_risk db i m c s = Ok r ->
  length (pr_warnings r) = length (pr_recommendations r).
Proof.
  unfold check_portfolio_risk.
  destruct (get_portfolio_row db i) as [pf|]; [|discriminate].
  destruct (active_positions db i) as [|p l]; [now intros [= <-]|].
  destruct (position_risk_loop (p :: l) (pf_total_value pf)
              (mkRiskAcc 0 [] [] [])) as [acc|msg] eqn:El; [|discriminate].
  cbn [bind].
  destruct (_calculate_sector_concentration _ _) as [conc|msg]; [|discriminate].
  cbn [bind].
  pose proof (sector_warnings_paired conc s) as Hs.
  destruct (sector_warnings conc s) as [ws rs]. cbn [fst snd] in Hs.
  intros [= <-]. cbn [pr_warnings pr_recommendations].
  destruct (position_risk_loop_report _ _ _ _ El) as (_ & _ & _ & _ & Hl).
  specialize (Hl eq_refl).
  rewrite !length_app.
  destruct (gtb (acc_total_risk acc) m); rewrite ?length_app; cbn [length]; lia.
Qed.

Lemma warnings_and_recommendations_paired_witness :
  length (pr_warnings report_risky) = length (pr_recommendations report_risky).
Proof.
  apply (warnings_and_recommendations_paired db_risky 1 10 0.7 20 report_risky).
  vm_compute. reflexivity.
Defined.

(** X7: the failures of the assessment.  [check_portfolio_risk] returns a
    failure dict exactly when the portfolio is not found, or it has active
    positions and a total value of zero. *)
Theorem assessment_fails_exactly_when (db : Db) (i : Z) (m c s : Q) :
  is_ok (check_portfolio_risk db i m c s) = false
  <-> (get_portfolio_row db i = None \/
       exists pf, get_portfolio_row db i = Some pf /\
                  active_positions db i <> [] /\ pf_total_value pf == 0).
Proof.
  assert (Hout : forall r : result PortfolioRisk,
            is_ok r = false <-> risk_outcome r = None).
  { intros [r|msg]; cbn; split; congruence. }
  rewrite Hout.
  destruct (get_portfolio_row db i) as [pf|] eqn:Hpf.
  - destruct (active_positions db i) as [|p l] eqn:Hl.
    + unfold check_portfolio_risk. rewrite Hpf, Hl. cbn. split.
      * discriminate.
      * intros [F|(pf' & _ & F & _)]; [discriminate|now contradiction F].
    + rewrite (check_portfolio_risk_outcome db i m c s pf Hpf)
        by (rewrite Hl; discriminate).
      destruct (eqb (pf_total_value pf) 0) eqn:E.
      * apply eqb_true in E. split; [|reflexivity].
        intros _. right. exists pf. split; [reflexivity|].
        split; [discriminate|exact E].
      * apply eqb_false in E. split; [discriminate|].
        intros [F|(pf' & Hpf' & _ & F)]; [discriminate|].
        injection Hpf' as <-. contradiction.
  - unfold check_portfolio_risk. rewrite Hpf. cbn. split; [now left|reflexivity].
Qed.

(** X8: the full report is consistent.  When the assessment returns the
    per-position risks, there is one entry per active position, in the
    order of the positions and under their symbols; [total_risk] is the sum
    of the entries' risk percentages; the limit is returned as passed; and
    the level is read off the total: low below 5, medium below 10, high
    from 10 on. *)
Theorem assessment_report_consistent (db : Db) (i : Z) (m c s : Q)
    (r : PortfolioRisk) (d : RiskDetails) :
  check_portfolio_risk db i m c s = Ok r ->
  pr_details r = Some d ->
  map prk_symbol (rd_position_risks d) = map pos_symbol (active_positions db i) /\
  pr_total_risk r = sum_of_risks (rd_position_risks d) /\
  rd_max_portfolio_risk d = m /\
  (pr_risk_level r = "low"%string <-> pr_total_risk r < 5) /\
  (pr_risk_level r = "high"%string <-> 10 <= pr_total_risk r).
Proof.
  unfold check_portfolio_risk.
  destruct (get_portfolio_row db i) as [pf|]; [|discriminate].
  destruct (active_positions db i) as [|p l]; [intros [= <-]; discriminate|].
  destruct (position_risk_loop (p :: l) (pf_total_value pf)
              (mkRiskAcc 0 [] [] [])) as [acc|msg] eqn:El; [|discriminate].
  cbn [bind].
  destruct (_calculate_sector_concentration _ _) as [conc|msg]; [|discriminate].
  cbn [bind].
  destruct (sector_warnings conc s) as [ws rs].
  intros [= <-]. cbn [pr_details]. intros [= <-].
  cbn [rd_position_risks rd_max_portfolio_risk pr_total_risk pr_risk_level].
  destruct (position_risk_loop_report _ _ _ _ El) as (new & Hr & Hs & Ht & _).
  cbn [acc_position_risks acc_total_risk app] in Hr, Ht.
  rewrite Hr. split; [exact Hs|]. split; [exact Ht|]. split; [reflexivity|].
  unfold risk_level_of.
  destruct (ltb (acc_total_risk acc) 5) eqn:E5.
  - apply ltb_true in E5. split; split; try easy. intro F. lra.
  - apply ltb_false in E5.
    destruct (ltb (acc_total_risk acc) 10) eqn:E10.
    + apply ltb_true in E10. split; split; try easy; intro F; lra.
    + apply ltb_false in E10. split; split; try easy. intro F. lra.
Qed.

Lemma assessment_report_consistent_witness :
  map prk_symbol (rd_position_risks details_risky)
    = map pos_symbol (active_positions db_risky 1) /\
  pr_total_risk report_risky = sum_of_risks (rd_position_risks details_risky) /\
  rd_max_portfolio_risk details_risky = 10 /\
  (pr_risk_level report_risky = "low"%string <-> pr_total_risk report_risky < 5) /\
  (pr_risk_level report_risky = "high"%string <-> 10 <= pr_total_risk report_risky).
Proof.
  apply (assessment_report_consistent db_risky 1 10 0.7 20
           report_risky details_risky).
  - vm_compute. reflexivity.
  - reflexivity.
Defined.

(** ** Sector concentration *)

Lemma sector_of_name (symbol : string) : In (sector_of symbol) sector_names.
Proof.
  unfold sector_of.
  destruct (find _ sectors) as [[sector l]|] eqn:E.
  - apply find_some in E. destruct E as [E _].
    unfold sectors in E. cbn in E.
    destruct E as [E|[E|[E|[]]]]; injection E as <- _; cbn; auto.
  - cbn. auto.
Qed.

Lemma dict_add_cons (k' : string) (v' : Q) (d : dict) (k : string) (v : Q) :
  String.eqb k' k = false ->
  dict_add ((k', v') :: d) k v = (k', v') :: dict_add d k v.
Proof.
  intro E. unfold dict_add. cbn [dict_get]. rewrite E.
  destruct (dict_get d k); cbn [dict_set]; now rewrite ?E.
Qed.

Lemma dict_add_here (k' : string) (v' : Q) (d : dict) (k : string) (v : Q) :
  String.eqb k' k = true ->
  dict_add ((k', v') :: d) k v = (k, v' + v) :: d.
Proof.
  intro E. unfold dict_add. cbn [dict_get]. rewrite E.
  cbn [dict_set]. now rewrite E.
Qed.

Lemma dict_add_keys (d : dict) (k : string) (v : Q) :
  map fst (dict_add d k v) = map fst d.
Proof.
  induction d as [|[k' v'] d IH]; [reflexivity|].
  destruct (String.eqb k' k) eqn:E.
  - rewrite dict_add_here by exact E. apply String.eqb_eq in E. now subst.
  - rewrite dict_add_cons by exact E. cbn. now rewrite IH.
Qed.

Lemma dict_sum_cons (k : string) (v : Q) (d : dict) :
  dict_sum ((k, v) :: d) = v + dict_sum d.
Proof. reflexivity. Qed.

Lemma dict_add_sum (d : dict) (k : string) (v : Q) :
  In k (map fst d) -> dict_sum (dict_add d k v) == dict_sum d + v.
Proof.
  induction d as [|[k' v'] d IH]; [intros []|].
  intro Hin. destruct (String.eqb k' k) eqn:E.
  - rewrite dict_add_here by exact E. rewrite !dict_sum_cons. ring.
  - rewrite dict_add_cons by exact E. rewrite !dict_sum_cons.
    rewrite IH; [ring|].
    destruct Hin as [F|Hin]; [|exact Hin].
    cbn in F. subst k'. now rewrite String.eqb_refl in E.
Qed.

Lemma dict_add_nonneg (d : dict) (k : string) (v : Q) :
  0 <= v ->
  Forall (fun kv => 0 <= snd kv) d ->
  Forall (fun kv => 0 <= snd kv) (dict_add d k v).
Proof.
  intros Hv. induction 1 as [|[k' v'] d H Hd IH]; [constructor|].
  destruct (String.eqb k' k) eqn:E.
  - rewrite dict_add_here by exact E. constructor; [|exact Hd].
    cbn in *. lra.
  - rewrite dict_add_cons by exact E. constructor; assumption.
Qed.

(** The sector totals: the four sectors, not negative, adding up to the
    value of all positions. *)
Lemma sector_values_total (positions : list Position) :
  (forall p, In p positions -> 0 <= pos_quantity p * pos_current_price p) ->
  forall acc,
    map fst acc = sector_names ->
    Forall (fun kv => 0 <= snd kv) acc ->
    map fst (sector_values positions acc) = sector_names /\
    Forall (fun kv => 0 <= snd kv) (sector_values positions acc) /\
    dict_sum (sector_values positions acc) == dict_sum acc + exposure positions.
Proof.
  induction positions as [|p l IH]; intros Hpos acc Hk Hn.
  - cbn [sector_values exposure fold_right].
    repeat split; try assumption. ring.
  - cbn [sector_values exposure fold_right].
    fold (exposure l).
    assert (Hp : 0 <= pos_quantity p * pos_current_price p)
      by (apply Hpos; now left).
    destruct (IH (fun q Hq => Hpos q (or_intror Hq))
                 (dict_add acc (sector_of (pos_symbol p))
                    (pos_quantity p * pos_current_price p)))
      as (Hk' & Hn' & Hs').
    + now rewrite dict_add_keys.
    + now apply dict_add_nonneg.
    + split; [exact Hk'|]. split; [exact Hn'|].
      rewrite Hs', dict_add_sum; [ring|].
      rewrite Hk. apply sector_of_name.
Qed.

Lemma dict_set_fresh (d : dict) (k : string) (v : Q) :
  ~ In k (map fst d) -> dict_set d k v = d ++ [(k, v)].
Proof.
  induction d as [|[k' v'] d IH]; [reflexivity|].
  intro Hn. cbn [dict_set].
  destruct (String.eqb k' k) eqn:E.
  - apply String.eqb_eq in E. subst. exfalso. apply Hn. now left.
  - cbn. rewrite IH; [reflexivity|]. intro F. apply Hn. now right.
Qed.

Lemma dict_sum_app (d1 d2 : dict) :
  dict_sum (d1 ++ d2) == dict_sum d1 + dict_sum d2.
Proof.
  induction d1 as [|[k v] d1 IH].
  - cbn [app]. unfold dict_sum at 2. cbn [fold_right]. ring.
  - cbn [app]. rewrite !dict_sum_cons, IH. ring.
Qed.

(** The percentages of the sectors with a positive total. *)
Lemma sector_percentages_total (total : Q) (values : dict) :
  ~ total == 0 ->
  Forall (fun kv => 0 <= snd kv) values ->
  NoDup (map fst values) ->
  forall acc,
    (forall k, In k (map fst values) -> ~ In k (map fst acc)) ->
    exists d,
      sector_percentages values total acc = Ok d /\
      dict_sum d == dict_sum acc + dict_sum values / total * 100 /\
      incl (map fst d) (map fst acc ++ map fst values).
Proof.
  intros Ht Hn. induction Hn as [|[k v] values Hv Hn IH]; intros Hd acc Hf.
  - exists acc. cbn [sector_percentages map]. split; [reflexivity|]. split.
    + unfold dict_sum at 3. cbn [fold_right]. field. exact Ht.
    + rewrite app_nil_r. apply incl_refl.
  - cbn in Hd. inversion Hd as [|? ? Hk Hd']; subst.
    cbn [sector_percentages]. cbn [snd] in Hv.
    destruct (gtb v 0) eqn:E.
    + rewrite (div_ok _ _ Ht). cbn [bind].
      rewrite dict_set_fresh by (apply Hf; now left).
      destruct (IH Hd' (acc ++ [(k, v / total * 100)])) as (d & Hr & Hs & Hi).
      * intros k' Hk' F. rewrite map_app in F. apply in_app_or in F.
        destruct F as [F|[F|[]]].
        -- apply (Hf k'); [now right|exact F].
        -- cbn in F. subst k'. contradiction.
      * exists d. split; [exact Hr|]. split.
        -- rewrite Hs, dict_sum_app, !dict_sum_cons.
           unfold dict_sum at 2. cbn [fold_right]. field. exact Ht.
        -- intros x Hx. apply Hi in Hx. rewrite map_app in Hx.
           cbn in Hx. rewrite <- app_assoc in Hx. exact Hx.
    + apply gtb_false in E.
      destruct (IH Hd' acc) as (d & Hr & Hs & Hi).
      * intros k' Hk'. apply Hf. now right.
      * exists d. split; [exact Hr|]. split.
        -- rewrite Hs, dict_sum_cons.
           assert (Hz : v == 0) by lra. rewrite Hz. field. exact Ht.
        -- intros x Hx. apply Hi in Hx. apply in_app_or in Hx.
           apply in_or_app. destruct Hx as [Hx|Hx]; [now left|].
           right. now right.
Qed.

(** X9: the sector concentrations add up to the exposure.  For a total
    value that is not zero and positions of non-negative value,
    [_calculate_sector_concentration] succeeds; the percentages it returns
    sum to the value of all positions in percent of the total value, so
    every position is counted in exactly one sector; and the sectors are
    among crypto, forex, commodities and other. *)
Theorem sector_concentrations_add_up (positions : list Position) (total : Q) :
  ~ total == 0 ->
  (forall p, In p positions -> 0 <= pos_quantity p * pos_current_price p) ->
  exists conc,
    _calculate_sector_concentration positions total = Ok conc /\
    dict_sum conc == exposure positions / total * 100 /\
    incl (map fst conc) sector_names.
Proof.
  intros Ht Hpos. unfold _calculate_sector_concentration.
  set (init := [("crypto"%string, 0); ("forex"%string, 0);
                ("commodities"%string, 0); ("other"%string, 0)]).
  destruct (sector_values_total positions Hpos init) as (Hk & Hn & Hs).
  - reflexivity.
  - unfold init. repeat constructor; cbn; apply Qle_refl.
  - destruct (sector_percentages_total total (sector_values positions init)
                Ht Hn) with (acc := @nil (string * Q)) as (d & Hr & Hd & Hi).
    + rewrite Hk. unfold sector_names.
      repeat constructor; cbn; intuition discriminate.
    + intros k _ [].
    + exists d. split; [exact Hr|]. split.
      * rewrite Hd, Hs. unfold init, dict_sum. cbn [fold_right snd].
        field. exact Ht.
      * rewrite Hk in Hi. exact Hi.
Qed.

Lemma sector_concentrations_add_up_witness :
  exists conc,
    _calculate_sector_concentration (active_positions db_risky 1) 1000 = Ok conc /\
    dict_sum conc == exposure (active_positions db_risky 1) / 1000 * 100 /\
    incl (map fst conc) sector_names.
Proof.
  apply (sector_concentrations_add_up (active_positions db_risky 1) 1000).
  - intro H. unfold Qeq in H. simpl in H. lia.
  - intros p [<-|[<-|[]]]; unfold Qle; simpl; lia.
Defined.

(** ** Value at risk: confidence levels, shortfall and draws *)

(** With a total value of zero the first trial fails at its first
    division. *)
Lemma simulate_zero (normal : Q -> Q -> nat -> Q) (total : Q) (trials : nat)
    (p : Position) (l : list Position) (acc : list Q) (k : nat) :
  total == 0 ->
  simulate normal (S trials) (p :: l) total acc k = Err zero_division.
Proof.
  intro Ht. cbn [simulate simulate_day]. now rewrite (div_err _ _ Ht).
Qed.

(** X10: the expected shortfall is at least the value at risk.  For a
    found portfolio with active positions, a non-zero total value and a
    confidence level [c] between 0 and 1, the call succeeds.  Its value at
    risk comes from the [(1 - c) * 100]-th percentile of the 1000 simulated
    returns, and its expected shortfall from the mean of the returns at or
    below that percentile; there always is such a return, so the fallback
    to the percentile itself is never taken.  The mean is at most the
    percentile, so that, when the percentile is a loss, the reported
    [expected_shortfall_percentage] is at least the reported
    [var_percentage]; and both amounts are their percentages of the
    absolute total value. *)
Theorem shortfall_at_least_var (normal : Q -> Q -> nat -> Q) (db : Db)
    (k : nat) (i : Z) (c : Q) (horizon : Z) (pf : Portfolio) :
  get_portfolio_row db i = Some pf ->
  active_positions db i <> [] ->
  ~ pf_total_value pf == 0 ->
  0 <= c -> c <= 1 ->
  let positions := active_positions db i in
  let total := pf_total_value pf in
  exists returns tail var es v,
    fst (calculate_portfolio_var normal db k i c horizon) = Ok (Simulated v) /\
    length returns = 1000%nat /\
    (forall t, (t < 1000)%nat ->
       nth t returns 0
       == trial_return normal positions total (k + t * length positions)) /\
    percentile_of returns ((1 - c) * 100) var /\
    at_or_below_of var returns tail /\
    tail <> [] /\
    es * count_of tail == total_of tail /\
    var_percentage v = Qabs var * 100 /\
    expected_shortfall_percentage v = Qabs es * 100 /\
    es <= var /\
    (var <= 0 -> var_percentage v <= expected_shortfall_percentage v) /\
    var_amount v == var_percentage v / 100 * Qabs total /\
    expected_shortfall_amount v
      == expected_shortfall_percentage v / 100 * Qabs total /\
    var_confidence_level v = c /\
    portfolio_value v = total.
Proof.
  intros Hpf Hne Ht Hc0 Hc1 positions total.
  destruct (portfolio_var_value normal db k i c horizon pf Hpf Hne Ht Hc0 Hc1)
    as (rs & tail & var & es & Hr & Hl & Hn & Hperc & Htail & Hnt & Hes).
  assert (Hle : es <= var).
  { apply (mean_at_most var es tail Hnt); [|exact Hes].
    exact (at_or_below_of_bounded var rs tail Htail). }
  exists rs, tail, var, es. eexists. split; [rewrite Hr; reflexivity|].
  cbn [var_percentage expected_shortfall_percentage var_amount
       expected_shortfall_amount var_confidence_level portfolio_value].
  split; [exact Hl|]. split; [exact Hn|]. split; [exact Hperc|].
  split; [exact Htail|]. split; [exact Hnt|]. split; [exact Hes|].
  split; [reflexivity|]. split; [reflexivity|]. split; [exact Hle|].
  split.
  - intro Hneg. rewrite (Qabs_neg var) by exact Hneg.
    rewrite (Qabs_neg es) by lra. lra.
  - unfold total. split; [rewrite Qabs_Qmult; field|].
    split; [rewrite Qabs_Qmult; field|]. now split.
Qed.

Lemma shortfall_at_least_var_witness :
  let positions := active_positions db_a 1 in
  let total := 10000 in
  exists returns tail var es v,
    fst (calculate_portfolio_var scrambled db_a 0 1 0.99 1)
      = Ok (Simulated v) /\
    length returns = 1000%nat /\
    (forall t, (t < 1000)%nat ->
       nth t returns 0
       == trial_return scrambled positions total (0 + t * length positions)) /\
    percentile_of returns ((1 - 0.99) * 100) var /\
    at_or_below_of var returns tail /\
    tail <> [] /\
    es * count_of tail == total_of tail /\
    var_percentage v = Qabs var * 100 /\
    expected_shortfall_percentage v = Qabs es * 100 /\
    es <= var /\
    (var <= 0 -> var_percentage v <= expected_shortfall_percentage v) /\
    var_amount v == var_percentage v / 100 * Qabs total /\
    expected_shortfall_amount v
      == expected_shortfall_percentage v / 100 * Qabs total /\
    var_confidence_level v = 0.99 /\
    portfolio_value v = total.
Proof.
  apply (shortfall_at_least_var scrambled db_a 0 1 0.99 1
           (mkPortfolio 1 7 10000 5000)).
  - reflexivity.
  - discriminate.
  - intro H. unfold Qeq in H. simpl in H. lia.
  - unfold Qle. simpl. lia.
  - unfold Qle. simpl. lia.
Defined.

(** X11: the draws a call makes.  Whatever the result, the call leaves
    the random source advanced by 1000 draws per active position when the
    portfolio is found and its total value is not zero, and does not touch
    it otherwise (portfolio not found, or a total value of zero, on which
    the first division fails).  In particular a portfolio without active
    positions costs no draw. *)
Theorem draws_made (normal : Q -> Q -> nat -> Q) (db : Db) (k : nat) (i : Z)
    (c : Q) (horizon : Z) :
  snd (calculate_portfolio_var normal db k i c horizon) =
  match get_portfolio_row db i with
  | Some pf =>
      if eqb (pf_total_value pf) 0 then k
      else (k + 1000 * length (active_positions db i))%nat
  | None => k
  end.
Proof.
  unfold calculate_portfolio_var.
  destruct (get_portfolio_row db i) as [pf|]; [|reflexivity].
  destruct (active_positions db i) as [|p l] eqn:Ep.
  - cbn [snd length]. rewrite Nat.mul_0_r, Nat.add_0_r.
    now destruct (eqb (pf_total_value pf) 0).
  - destruct (eqb (pf_total_value pf) 0) eqn:Et.
    + apply eqb_true in Et. now rewrite simulate_zero.
    + apply eqb_false in Et.
      destruct (simulate_spec normal (pf_total_value pf) Et (p :: l) 1000 [] k)
        as (rs & Hsim & _ & _).
      rewrite Hsim. cbn [app].
      now destruct (np.percentile rs ((1 - c) * 100)).
Qed.

(** ** Risk actions: exits, failures and what stays untouched *)

Lemma find_replace_other (l : list Position) (p' : Position) (j : Z) :
  j <> pos_id p' ->
  find (fun q => Z.eqb (pos_id q) j) (replace_position p' l)
  = find (fun q => Z.eqb (pos_id q) j) l.
Proof.
  intro Hj. induction l as [|q l IH]; [reflexivity|].
  cbn [replace_position].
  destruct (Z.eqb (pos_id q) (pos_id p')) eqn:E.
  - apply Z.eqb_eq in E. cbn [find].
    assert (E1 : Z.eqb (pos_id q) j = false) by (apply Z.eqb_neq; lia).
    assert (E2 : Z.eqb (pos_id p') j = false) by (apply Z.eqb_neq; lia).
    now rewrite E1, E2.
  - cbn [find]. now rewrite IH.
Qed.

Lemma get_commit_other (db : Db) (p' : Position) (j : Z) :
  j <> pos_id p' ->
  get_position (commit_position db p') j = get_position db j.
Proof. apply find_replace_other. Qed.

(** The exit order, spelled out. *)
Lemma exit_order_value (db : Db) (now : Z) (p : Position) (quantity : Q)
    (reason : Reason) :
  _execute_exit_order db now p quantity "market" reason =
  (Ok (mkExitOrder (Z.of_nat (length (db_trades db)) + 1) quantity
         (pos_current_price p) reason),
   mkDb (db_portfolios db)
        (replace_position
           (if geb quantity (pos_quantity p)
            then close_position p (pos_current_price p) now
            else set_quantity p (pos_quantity p - quantity))
           (db_positions db))
        (db_trades db ++
         [mkTrade (Z.of_nat (length (db_trades db)) + 1)
            (pos_portfolio_id p) (pos_symbol p) (pos_exchange p)
            (if String.eqb (pos_position_type p) "long" then "sell" else "buy")
            quantity (pos_current_price p) "completed" "market" now])
        (db_users db)).
Proof. reflexivity. Qed.

(** X13: trades are only ever appended.  Whatever the action and its
    result, the trades after the call are the trades before it followed by
    at most one new trade; a trade is added exactly when the action is one
    of the three exit actions and the position and its portfolio are
    found, and then it is a completed market trade of the position's
    symbol at the position's current price, for the position's quantity
    times [percentage / 100]. *)
Theorem trades_only_appended (db : Db) (now : Z) (i : Z) (action : string)
    (pct : Q) :
  let db' := snd (execute_risk_action db now i action pct) in
  match get_position db i with
  | Some p =>
      match get_portfolio_row db (pos_portfolio_id p) with
      | Some _ =>
          if is_exit_action action then
            exists t,
              db_trades db' = db_trades db ++ [t] /\
              tr_symbol t = pos_symbol p /\
              tr_price t = pos_current_price p /\
              tr_quantity t = pos_quantity p * (pct / 100) /\
              tr_status t = "completed"%string /\
              tr_order_type t = "market"%string
          else db_trades db' = db_trades db
      | None => db_trades db' = db_trades db
      end
  | None => db_trades db' = db_trades db
  end.
Proof.
  cbv zeta. unfold execute_risk_action, is_exit_action, exit_actions.
  destruct (get_position db i) as [p|]; [|reflexivity].
  destruct (get_portfolio_row db (pos_portfolio_id p)) as [pf|]; [|reflexivity].
  cbn [existsb].
  destruct (String.eqb action "execute_stop_loss").
  - rewrite exit_order_value. cbn. eexists. now repeat split.
  - destruct (String.eqb action "execute_take_profit").
    + rewrite exit_order_value. cbn. eexists. now repeat split.
    + destruct (String.eqb action "reduce_position").
      * rewrite exit_order_value. cbn. eexists. now repeat split.
      * cbn [orb]. destruct (String.eqb action "update_stop_loss");
          [|reflexivity].
        destruct (_calculate_trailing_stop_loss p) as [s|]; [|reflexivity].
        now destruct (truthy s).
Qed.

(** X14: a failure that is not an exit changes nothing.  When the call
    returns a failure dict and the action is neither [execute_stop_loss]
    nor [execute_take_profit], the database is left as it was: a missing
    position or portfolio, an unknown action and a stop update that finds
    nothing to set all leave every row untouched. *)
Theorem failure_without_exit_changes_nothing (db : Db) (now : Z) (i : Z)
    (action : string) (pct : Q) (msg : string) :
  fst (execute_risk_action db now i action pct) = Err msg ->
  action <> "execute_stop_loss"%string ->
  action <> "execute_take_profit"%string ->
  snd (execute_risk_action db now i action pct) = db.
Proof.
  intros Hr H1 H2. revert Hr. unfold execute_risk_action.
  destruct (get_position db i) as [p|]; [|reflexivity].
  destruct (get_portfolio_row db (pos_portfolio_id p)) as [pf|]; [|reflexivity].
  apply String.eqb_neq in H1. apply String.eqb_neq in H2. rewrite H1, H2.
  destruct (String.eqb action "reduce_position").
  - rewrite exit_order_value. cbn. discriminate.
  - destruct (String.eqb action "update_stop_loss"); [|reflexivity].
    destruct (_calculate_trailing_stop_loss p) as [s|]; [|reflexivity].
    destruct (truthy s); [cbn; discriminate|reflexivity].
Qed.

Lemma failure_without_exit_changes_nothing_witness :
  snd (execute_risk_action (db_with ten_units) 0 1 "review_position" 100)
  = db_with ten_units.
Proof.
  apply (failure_without_exit_changes_nothing (db_with ten_units) 0 1
           "review_position" 100 "Unknown action: review_position").
  - reflexivity.
  - discriminate.
  - discriminate.
Defined.

Lemma whole_quantity (q : Q) : geb (q * (100 / 100)) q = true.
Proof. apply geb_true. apply Qle_lteq. right. field. Qed.

(** What an exit action does: the trade it records, the position row it
    leaves, and its result. *)
Lemma exit_action_row (db : Db) (now : Z) (i : Z) (action : string) (pct : Q)
    (p : Position) (pf : Portfolio) :
  get_position db i = Some p ->
  get_portfolio_row db (pos_portfolio_id p) = Some pf ->
  is_exit_action action = true ->
  let quantity := pos_quantity p * (pct / 100) in
  let r := execute_risk_action db now i action pct in
  (exists t, db_trades (snd r) = db_trades db ++ [t] /\
             tr_quantity t = quantity /\
             tr_price t = pos_current_price p) /\
  get_position (snd r) i =
  Some (if geb quantity (pos_quantity p)
        then close_position p (pos_current_price p) now
        else set_quantity p (pos_quantity p - quantity)) /\
  (action = "reduce_position"%string ->
   exists o, fst r = Ok (Exited o) /\
             eo_quantity o = quantity /\
             eo_price o = pos_current_price p) /\
  (action <> "reduce_position"%string -> exists msg, fst r = Err msg).
Proof.
  intros Hp Hpf Ha. cbv zeta.
  pose proof (get_position_id _ _ _ Hp) as Hid.
  assert (Hrow : forall p', pos_id p' = pos_id p ->
            get_position (commit_position db p') i = Some p').
  { intros p' E. subst i. rewrite <- E.
    apply (get_commit_position db p). now rewrite E. }
  unfold execute_risk_action. rewrite Hp, Hpf.
  unfold is_exit_action, exit_actions in Ha. cbn [existsb] in Ha.
  destruct (String.eqb action "execute_stop_loss") eqn:E1.
  - apply String.eqb_eq in E1. rewrite exit_order_value.
    cbn [exit_action fst snd].
    split; [now eexists|]. split; [apply Hrow; now destruct (geb _ _)|].
    split; [intros ->; discriminate|]. intros _.
    destruct (get_user db (pf_user_id pf)); cbn [notify]; now eexists.
  - destruct (String.eqb action "execute_take_profit") eqn:E2.
    + apply String.eqb_eq in E2. rewrite exit_order_value.
      cbn [exit_action fst snd].
      split; [now eexists|]. split; [apply Hrow; now destruct (geb _ _)|].
      split; [intros ->; discriminate|]. intros _.
      destruct (get_user db (pf_user_id pf)); cbn [notify]; now eexists.
    + destruct (String.eqb action "reduce_position") eqn:E3; [|discriminate].
      apply String.eqb_eq in E3. rewrite exit_order_value.
      cbn [exit_action fst snd].
      split; [now eexists|]. split; [apply Hrow; now destruct (geb _ _)|].
      split; [intros _; now eexists|]. intros F. now contradiction F.
Qed.

(** X15: an exit of 100% closes the position.  For a position and
    portfolio that are found, each exit action with percentage 100 records
    a trade of the position's whole quantity at its current price and
    leaves the position ['closed'] with that price as exit price and the
    time of the order as exit time.  [reduce_position] returns the order;
    [execute_stop_loss] and [execute_take_profit] return a failure dict all
    the same, because the notification call that follows the committed
    exit raises. *)
Theorem full_exit_closes_position (db : Db) (now : Z) (i : Z) (action : string)
    (p : Position) (pf : Portfolio) :
  get_position db i = Some p ->
  get_portfolio_row db (pos_portfolio_id p) = Some pf ->
  is_exit_action action = true ->
  let r := execute_risk_action db now i action 100 in
  exists t p',
    db_trades (snd r) = db_trades db ++ [t] /\
    tr_quantity t == pos_quantity p /\
    tr_price t = pos_current_price p /\
    get_position (snd r) i = Some p' /\
    pos_status p' = "closed"%string /\
    pos_exit_price p' = Some (pos_current_price p) /\
    pos_exit_time p' = Some now /\
    (action = "reduce_position"%string ->
     exists o, fst r = Ok (Exited o) /\
               eo_quantity o == pos_quantity p /\
               eo_price o = pos_current_price p) /\
    (action <> "reduce_position"%string -> exists msg, fst r = Err msg).
Proof.
  intros Hp Hpf Ha.
  destruct (exit_action_row db now i action 100 p pf Hp Hpf Ha)
    as ((t & Ht & Hq & Hprice) & Hrow & Hok & Herr).
  cbv zeta in *. rewrite whole_quantity in Hrow.
  exists t. eexists. split; [exact Ht|].
  split; [rewrite Hq; field|]. split; [exact Hprice|].
  split; [exact Hrow|]. split; [reflexivity|]. split; [reflexivity|].
  split; [reflexivity|]. split; [|exact Herr].
  intros E. destruct (Hok E) as (o & Ho & Hqo & Hpo).
  exists o. split; [exact Ho|]. split; [rewrite Hqo; field|exact Hpo].
Qed.

Lemma full_exit_closes_position_witness :
  let r := execute_risk_action (db_with ten_units) 5 1 "execute_stop_loss" 100 in
  exists t p',
    db_trades (snd r) = [] ++ [t] /\
    tr_quantity t == 10 /\
    tr_price t = 120 /\
    get_position (snd r) 1 = Some p' /\
    pos_status p' = "closed"%string /\
    pos_exit_price p' = Some 120 /\
    pos_exit_time p' = Some 5%Z /\
    ("execute_stop_loss"%string = "reduce_position"%string ->
     exists o, fst r = Ok (Exited o) /\
               eo_quantity o == 10 /\
               eo_price o = 120) /\
    ("execute_stop_loss"%string <> "reduce_position"%string ->
     exists msg, fst r = Err msg).
Proof.
  apply (full_exit_closes_position (db_with ten_units) 5 1 "execute_stop_loss"
           ten_units (mkPortfolio 1 7 10000 5000)).
  - reflexivity.
  - reflexivity.
  - reflexivity.
Defined.

(** X16: a partial exit conserves the quantity.  For a position of
    positive quantity and a percentage strictly between 0 and 100, an exit
    action records one trade and leaves the position with its status, exit
    price and exit time as they were and with a positive quantity; the
    quantity left and the quantity of the trade add up to the quantity
    before.  This holds for [execute_stop_loss] and [execute_take_profit]
    too, although they return a failure dict; [reduce_position] returns
    the order, for the quantity of the trade. *)
Theorem partial_exit_conserves_quantity (db : Db) (now : Z) (i : Z)
    (action : string) (pct : Q) (p : Position) (pf : Portfolio) :
  get_position db i = Some p ->
  get_portfolio_row db (pos_portfolio_id p) = Some pf ->
  is_exit_action action = true ->
  0 < pos_quantity p ->
  0 < pct -> pct < 100 ->
  let r := execute_risk_action db now i action pct in
  exists t p',
    db_trades (snd r) = db_trades db ++ [t] /\
    get_position (snd r) i = Some p' /\
    pos_quantity p' + tr_quantity t == pos_quantity p /\
    0 < pos_quantity p' /\
    pos_status p' = pos_status p /\
    pos_exit_price p' = pos_exit_price p /\
    pos_exit_time p' = pos_exit_time p /\
    (action = "reduce_position"%string ->
     exists o, fst r = Ok (Exited o) /\ eo_quantity o = tr_quantity t) /\
    (action <> "reduce_position"%string -> exists msg, fst r = Err msg).
Proof.
  intros Hp Hpf Ha Hq H0 H1.
  destruct (exit_action_row db now i action pct p pf Hp Hpf Ha)
    as ((t & Ht & Hqt & _) & Hrow & Hok & Herr).
  cbv zeta in *.
  assert (Hlt : pos_quantity p * (pct / 100) < pos_quantity p).
  { assert (E : pos_quantity p * (pct / 100)
                == pos_quantity p - pos_quantity p * ((100 - pct) / 100))
      by field.
    rewrite E.
    assert (0 < pos_quantity p * ((100 - pct) / 100)); [|lra].
    apply Qmult_lt_0_compat; [exact Hq|]. apply Qlt_shift_div_l; lra. }
  pose proof Hlt as Hlt'. apply geb_false in Hlt'. rewrite Hlt' in Hrow.
  exists t. eexists. split; [exact Ht|]. split; [exact Hrow|].
  cbn [set_quantity pos_quantity pos_status pos_exit_price pos_exit_time].
  rewrite Hqt.
  split; [ring|]. split; [lra|]. split; [reflexivity|].
  split; [reflexivity|]. split; [reflexivity|]. split; [|exact Herr].
  intros E. destruct (Hok E) as (o & Ho & Hqo & _).
  exists o. now split.
Qed.

Lemma partial_exit_conserves_quantity_witness :
  let r := execute_risk_action (db_with ten_units) 5 1
             "execute_take_profit" 40 in
  exists t p',
    db_trades (snd r) = [] ++ [t] /\
    get_position (snd r) 1 = Some p' /\
    pos_quantity p' + tr_quantity t == 10 /\
    0 < pos_quantity p' /\
    pos_status p' = "active"%string /\
    pos_exit_price p' = None /\
    pos_exit_time p' = None /\
    ("execute_take_profit"%string = "reduce_position"%string ->
     exists o, fst r = Ok (Exited o) /\ eo_quantity o = tr_quantity t) /\
    ("execute_take_profit"%string <> "reduce_position"%string ->
     exists msg, fst r = Err msg).
Proof.
  apply (partial_exit_conserves_quantity (db_with ten_units) 5 1
           "execute_take_profit" 40 ten_units (mkPortfolio 1 7 10000 5000)).
  - reflexivity.
  - reflexivity.
  - reflexivity.
  - reflexivity.
  - reflexivity.
  - reflexivity.
Defined.

(** X17: a failure after the exit.  When the user row of the portfolio is
    missing, [execute_stop_loss] and [execute_take_profit] return a failure
    dict (the notification cannot name the user), but the exit order has
    been executed and committed before: the trade is recorded and the
    position row is closed or reduced. *)
Theorem exit_without_user_fails_after_commit (db : Db) (now : Z) (i : Z)
    (action : string) (pct : Q) (p : Position) (pf : Portfolio) :
  get_position db i = Some p ->
  get_portfolio_row db (pos_portfolio_id p) = Some pf ->
  get_user db (pf_user_id pf) = None ->
  action = "execute_stop_loss"%string \/ action = "execute_take_profit"%string ->
  let r := execute_risk_action db now i action pct in
  let quantity := pos_quantity p * (pct / 100) in
  fst r = Err (none_has_no "id") /\
  (exists t, db_trades (snd r) = db_trades db ++ [t] /\
             tr_quantity t = quantity) /\
  get_position (snd r) i =
  Some (if geb quantity (pos_quantity p)
        then close_position p (pos_current_price p) now
        else set_quantity p (pos_quantity p - quantity)).
Proof.
  intros Hp Hpf Hu Ha. cbv zeta.
  pose proof (get_position_id _ _ _ Hp) as Hid.
  assert (Hrow : forall p', pos_id p' = pos_id p ->
            get_position (commit_position db p') i = Some p').
  { intros p' E. subst i. rewrite <- E.
    apply (get_commit_position db p). now rewrite E. }
  unfold execute_risk_action. rewrite Hp, Hpf, Hu.
  destruct Ha as [-> | ->]; cbn [String.eqb].
  - change (String.eqb "execute_stop_loss" "execute_stop_loss") with true.
    cbv iota. rewrite exit_order_value. cbn [exit_action notify fst snd].
    split; [reflexivity|]. split; [now eexists|].
    apply Hrow. now destruct (geb _ _).
  - change (String.eqb "execute_take_profit" "execute_stop_loss") with false.
    change (String.eqb "execute_take_profit" "execute_take_profit") with true.
    cbv iota. rewrite exit_order_value. cbn [exit_action notify fst snd].
    split; [reflexivity|]. split; [now eexists|].
    apply Hrow. now destruct (geb _ _).
Qed.

Lemma exit_without_user_fails_after_commit_witness :
  let r := execute_risk_action (db_without_user ten_units) 5 1
             "execute_stop_loss" 100 in
  let quantity := 10 * (100 / 100) in
  fst r = Err (none_has_no "id") /\
  (exists t, db_trades (snd r) = [] ++ [t] /\ tr_quantity t = quantity) /\
  get_position (snd r) 1 =
  Some (if geb quantity 10
        then close_position ten_units 120 5
        else set_quantity ten_units (10 - quantity)).
Proof.
  apply (exit_without_user_fails_after_commit (db_without_user ten_units) 5 1
           "execute_stop_loss" 100 ten_units (mkPortfolio 1 7 10000 5000)).
  - reflexivity.
  - reflexivity.
  - reflexivity.
  - now left.
Defined.

(** X18: a stop update touches the stop and nothing else.  Whatever its
    result, [update_stop_loss] leaves portfolios, users and trades as they
    were, leaves every other position's row as it was, and changes at most
    the stop-loss price of the position itself: quantity, prices, status
    and target stay. *)
Theorem stop_update_touches_only_the_stop (db : Db) (now : Z) (i : Z)
    (pct : Q) :
  let db' := snd (execute_risk_action db now i "update_stop_loss" pct) in
  db_portfolios db' = db_portfolios db /\
  db_users db' = db_users db /\
  db_trades db' = db_trades db /\
  (forall j, j <> i -> get_position db' j = get_position db j) /\
  (forall p, get_position db i = Some p ->
     exists p', get_position db' i = Some p' /\
                p' = set_stop_loss p (pos_stop_loss_price p')).
Proof.
  cbv zeta.
  destruct (get_position db i) as [p|] eqn:Hp.
  - pose proof (get_position_id _ _ _ Hp) as Hid.
    assert (Hsame : forall db', db' = db ->
              db_portfolios db' = db_portfolios db /\
              db_users db' = db_users db /\
              db_trades db' = db_trades db /\
              (forall j, j <> i -> get_position db' j = get_position db j) /\
              (forall q, Some p = Some q ->
                 exists p', get_position db' i = Some p' /\
                            p' = set_stop_loss q (pos_stop_loss_price p'))).
    { intros db' ->. repeat split; try reflexivity.
      intros q [= <-]. exists p. split; [exact Hp|]. now destruct p. }
    unfold execute_risk_action. rewrite Hp.
    destruct (get_portfolio_row db (pos_portfolio_id p)); [|now apply Hsame].
    change (String.eqb "update_stop_loss" "execute_stop_loss") with false.
    change (String.eqb "update_stop_loss" "execute_take_profit") with false.
    change (String.eqb "update_stop_loss" "reduce_position") with false.
    change (String.eqb "update_stop_loss" "update_stop_loss") with true.
    cbv iota.
    destruct (_calculate_trailing_stop_loss p) as [s|]; [|now apply Hsame].
    destruct (truthy s); [|now apply Hsame].
    cbn [snd]. repeat split; try reflexivity.
    + intros j Hj. apply get_commit_other. cbn. lia.
    + intros q [= <-]. exists (set_stop_loss p (Some s)). split.
      * subst i. exact (get_commit_position db p (set_stop_loss p (Some s)) Hp).
      * reflexivity.
  - unfold execute_risk_action. rewrite Hp. cbn [snd].
    repeat split; try reflexivity. intros p F. discriminate.
Qed.

(** ** Checking a position *)

Lemma level_reached_iff (position_type : string) (level : option Q)
    (long_test short_test : Q -> bool) :
  level_reached position_type level long_test short_test = true <->
  exists l,
    level = Some l /\ ~ l == 0 /\
    ((is_long position_type = true /\ long_test l = true) \/
     (is_short position_type = true /\ short_test l = true)).
Proof.
  unfold level_reached. destruct level as [l|];
    [|split; [discriminate|intros (l' & F & _); discriminate]].
  destruct (truthy l) eqn:El.
  - apply truthy_true in El. split.
    + intro H. exists l. split; [reflexivity|]. split; [exact El|].
      destruct (is_long position_type && long_test l)%bool eqn:A.
      * apply andb_true_iff in A. now left.
      * destruct (is_short position_type && short_test l)%bool eqn:B;
          [|discriminate].
        apply andb_true_iff in B. now right.
    + intros (l' & E & _ & H). injection E as <-.
      destruct H as [[A B]|[A B]]; rewrite A, B; cbn [andb].
      * reflexivity.
      * now destruct (is_long position_type && long_test l)%bool.
  - apply truthy_false in El. split; [discriminate|].
    intros (l' & E & F & _). injection E as <-. contradiction.
Qed.

Lemma in_optional (b : bool) (x a : string) :
  In a (if b then [x] else []) <-> b = true /\ a = x.
Proof.
  destruct b; cbn; split.
  - intros [<-|[]]. now split.
  - intros [_ ->]. now left.
  - intros [].
  - intros [F _]. discriminate.
Qed.

Lemma length_optional {A B : Type} (b : bool) (x : A) (y : B) :
  length (if b then [x] else []) = length (if b then [y] else []).
Proof. now destruct b. Qed.

(** The check of a found position with a non-zero entry price. *)
Lemma check_position_risk_value (db : Db) (i : Z) (price : option Q)
    (p : Position) :
  get_position db i = Some p ->
  ~ pos_entry_price p == 0 ->
  let c := effective_price p price in
  let pnl := pnl_percentage_at p c in
  let stop_hit := level_reached (pos_position_type p) (pos_stop_loss_price p)
                    (fun s => leb c s) (fun s => geb c s) in
  let target_hit := level_reached (pos_position_type p)
                      (pos_take_profit_price p)
                      (fun t => geb c t) (fun t => leb c t) in
  exists amount,
    check_position_risk db i price =
    Ok (mkPositionCheck i (pos_symbol p) c (pos_entry_price p) amount pnl
          ((if stop_hit then [StopLossAlert] else [])
           ++ (if target_hit then [TakeProfitAlert] else [])
           ++ (if ltb pnl (-10) then [LargeLossAlert pnl] else [])
           ++ (if gtb pnl 20 then [LargeGainAlert pnl] else []))
          ((if stop_hit then ["execute_stop_loss"%string] else [])
           ++ (if target_hit then ["execute_take_profit"%string] else [])
           ++ (if ltb pnl (-10) then ["review_position"%string] else [])
           ++ (if gtb pnl 20 then ["consider_partial_profit"%string] else []))
          (pos_stop_loss_price p) (pos_take_profit_price p)).
Proof.
  intros Hp He. cbv zeta.
  unfold check_position_risk. rewrite Hp. cbv zeta.
  fold (effective_price p price). unfold pnl_percentage_at.
  destruct (is_long (pos_position_type p)).
  - rewrite (div_ok _ _ He). cbn [bind fst snd]. now eexists.
  - rewrite (div_ok _ _ He). cbn [bind fst snd]. now eexists.
Qed.

Lemma check_position_risk_ok (db : Db) (i : Z) (price : option Q)
    (p : Position) (r : PositionCheck) :
  get_position db i = Some p ->
  check_position_risk db i price = Ok r ->
  ~ pos_entry_price p == 0.
Proof.
  intros Hp. unfold check_position_risk. rewrite Hp. cbv zeta.
  intros H E.
  destruct (is_long (pos_position_type p));
    rewrite (div_err _ _ E) in H; discriminate.
Qed.

(** X19: what a check proposes.  A successful check looks at the price
    passed, or at the stored price when none or zero is passed.  It
    proposes [execute_stop_loss] exactly when the position has a non-zero
    stop and that price is at or beyond it on the losing side (at or below
    for a Long, at or above for a Short); [execute_take_profit] exactly
    when it has a non-zero target and the price is at or beyond it on the
    winning side; [review_position] exactly when the gain is below -10%;
    [consider_partial_profit] exactly when it is above 20%.  It proposes
    nothing else, and raises one alert per proposal. *)
Theorem position_check_proposals (db : Db) (i : Z) (price : option Q)
    (p : Position) (r : PositionCheck) :
  get_position db i = Some p ->
  check_position_risk db i price = Ok r ->
  let c := effective_price p price in
  pc_current_price r = c /\
  pc_pnl_percentage r = pnl_percentage_at p c /\
  (In "execute_stop_loss"%string (pc_actions r) <-> stop_breached p c) /\
  (In "execute_take_profit"%string (pc_actions r) <-> target_reached p c) /\
  (In "review_position"%string (pc_actions r)
   <-> pnl_percentage_at p c < -10) /\
  (In "consider_partial_profit"%string (pc_actions r)
   <-> 20 < pnl_percentage_at p c) /\
  incl (pc_actions r) proposable_actions /\
  length (pc_alerts r) = length (pc_actions r).
Proof.
  intros Hp Hr. cbv zeta.
  pose proof (check_position_risk_ok db i price p r Hp Hr) as He.
  destruct (check_position_risk_value db i price p Hp He) as [amount Hv].
  cbv zeta in Hv. rewrite Hv in Hr.
  assert (Er := f_equal (fun x => match x with Ok v => v | Err _ => r end) Hr).
  cbv beta iota in Er. clear Hr Hv. subst r.
  cbn [pc_current_price pc_pnl_percentage pc_actions pc_alerts].
  set (c := effective_price p price).
  set (pnl := pnl_percentage_at p c).
  set (stop_hit := level_reached _ (pos_stop_loss_price p) _ _).
  set (target_hit := level_reached _ (pos_take_profit_price p) _ _).
  assert (Hstop : stop_hit = true <-> stop_breached p c).
  { unfold stop_hit, stop_breached. rewrite level_reached_iff.
    split; intros (s & Hs & Hn & H); exists s;
      (split; [exact Hs|]; split; [exact Hn|]);
      destruct H as [[A B]|[A B]]; [left|right|left|right]; split;
      try exact A.
    - now apply leb_true in B.
    - now apply geb_true in B.
    - now apply leb_true.
    - now apply geb_true. }
  assert (Htarget : target_hit = true <-> target_reached p c).
  { unfold target_hit, target_reached. rewrite level_reached_iff.
    split; intros (t & Hs & Hn & H); exists t;
      (split; [exact Hs|]; split; [exact Hn|]);
      destruct H as [[A B]|[A B]]; [left|right|left|right]; split;
      try exact A.
    - now apply geb_true in B.
    - now apply leb_true in B.
    - now apply geb_true.
    - now apply leb_true. }
  split; [reflexivity|]. split; [reflexivity|].
  split; [|split; [|split; [|split; [|split]]]].
  - rewrite <- Hstop, !in_app_iff, !in_optional. split.
    + intros [[H _]|[[_ F]|[[_ F]|[_ F]]]]; [exact H|discriminate..].
    + intro H. left. now split.
  - rewrite <- Htarget, !in_app_iff, !in_optional. split.
    + intros [[_ F]|[[H _]|[[_ F]|[_ F]]]]; [discriminate|exact H|discriminate..].
    + intro H. right. left. now split.
  - rewrite <- ltb_true, !in_app_iff, !in_optional. split.
    + intros [[_ F]|[[_ F]|[[H _]|[_ F]]]];
        [discriminate|discriminate|exact H|discriminate].
    + intro H. right. right. left. now split.
  - rewrite <- gtb_true, !in_app_iff, !in_optional. split.
    + intros [[_ F]|[[_ F]|[[_ F]|[H _]]]];
        [discriminate|discriminate|discriminate|exact H].
    + intro H. right. right. right. now split.
  - intros a Ha. rewrite !in_app_iff, !in_optional in Ha.
    unfold proposable_actions. cbn.
    destruct Ha as [[_ ->]|[[_ ->]|[[_ ->]|[_ ->]]]]; auto.
  - rewrite !length_app.
    rewrite (length_optional stop_hit StopLossAlert "execute_stop_loss"%string).
    rewrite (length_optional target_hit TakeProfitAlert
               "execute_take_profit"%string).
    rewrite (length_optional (ltb pnl (-10)) (LargeLossAlert pnl)
               "review_position"%string).
    rewrite (length_optional (gtb pnl 20) (LargeGainAlert pnl)
               "consider_partial_profit"%string).
    reflexivity.
Qed.

Lemma position_check_proposals_witness :
  let c := effective_price ten_units (Some 90) in
  pc_current_price check_at_90 = c /\
  pc_pnl_percentage check_at_90 = pnl_percentage_at ten_units c /\
  (In "execute_stop_loss"%string (pc_actions check_at_90)
   <-> stop_breached ten_units c) /\
  (In "execute_take_profit"%string (pc_actions check_at_90)
   <-> target_reached ten_units c) /\
  (In "review_position"%string (pc_actions check_at_90)
   <-> pnl_percentage_at ten_units c < -10) /\
  (In "consider_partial_profit"%string (pc_actions check_at_90)
   <-> 20 < pnl_percentage_at ten_units c) /\
  incl (pc_actions check_at_90) proposable_actions /\
  length (pc_alerts check_at_90) = length (pc_actions check_at_90).
Proof.
  apply (position_check_proposals (db_with ten_units) 1 (Some 90) ten_units
           check_at_90).
  - reflexivity.
  - vm_compute. reflexivity.
Defined.

(** X20: the failures of a check.  [check_position_risk] returns a failure
    dict exactly when the position is not found or its entry price is
    zero. *)
Theorem position_check_fails_exactly_when (db : Db) (i : Z)
    (price : option Q) :
  is_ok (check_position_risk db i price) = false
  <-> (get_position db i = None \/
       exists p, get_position db i = Some p /\ pos_entry_price p == 0).
Proof.
  destruct (get_position db i) as [p|] eqn:Hp.
  - destruct (Qeq_dec (pos_entry_price p) 0) as [E|E].
    + split.
      * intros _. right. now exists p.
      * intros _. unfold check_position_risk. rewrite Hp. cbv zeta.
        destruct (is_long (pos_position_type p));
          now rewrite (div_err _ _ E).
    + destruct (check_position_risk_value db i price p Hp E) as [amount Hv].
      cbv zeta in Hv. rewrite Hv. cbn. split; [discriminate|].
      intros [F|(p' & [= <-] & F)]; [discriminate|contradiction].
  - unfold check_position_risk. rewrite Hp. cbn.
    split; [now left|reflexivity].
Qed.

Lemma proposed_action_known (db : Db) (i : Z) (price : option Q)
    (r : PositionCheck) (a : string) :
  check_position_risk db i price = Ok r ->
  In a (pc_actions r) ->
  In a proposable_actions.
Proof.
  intros Hr Ha.
  destruct (get_position db i) as [p|] eqn:Hp;
    [|unfold check_position_risk in Hr; rewrite Hp in Hr; discriminate].
  pose proof (check_position_risk_ok db i price p r Hp Hr) as He.
  destruct (check_position_risk_value db i price p Hp He) as [amount Hv].
  cbv zeta in Hv. rewrite Hv in Hr.
  assert (Er := f_equal (fun x => match x with Ok v => v | Err _ => r end) Hr).
  cbv beta iota in Er. clear Hr Hv. subst r.
  cbn [pc_actions] in Ha. rewrite !in_app_iff, !in_optional in Ha.
  unfold proposable_actions. cbn.
  destruct Ha as [[_ ->]|[[_ ->]|[[_ ->]|[_ ->]]]]; auto.
Qed.

(** X21: what becomes of the proposals.  Of the actions a check proposes,
    [execute_stop_loss] and [execute_take_profit] are executable: run at
    100% on the same database (portfolio row found) they close the
    position, at the stored current price, which need not be the price the
    check was made at; the call returns a failure dict all the same,
    because the notification that follows the committed exit raises.  The
    other two, [review_position] and [consider_partial_profit], are
    advisory only: [execute_risk_action] rejects them as unknown actions
    and changes nothing. *)
Theorem proposals_executed (db : Db) (now : Z) (i : Z) (price : option Q)
    (p : Position) (pf : Portfolio) (r : PositionCheck) (a : string) :
  get_position db i = Some p ->
  get_portfolio_row db (pos_portfolio_id p) = Some pf ->
  check_position_risk db i price = Ok r ->
  In a (pc_actions r) ->
  ((a = "execute_stop_loss"%string \/ a = "execute_take_profit"%string) /\
   exists msg t p',
     fst (execute_risk_action db now i a 100) = Err msg /\
     db_trades (snd (execute_risk_action db now i a 100))
     = db_trades db ++ [t] /\
     tr_price t = pos_current_price p /\
     get_position (snd (execute_risk_action db now i a 100)) i = Some p' /\
     pos_status p' = "closed"%string /\
     pos_exit_price p' = Some (pos_current_price p))
  \/
  ((a = "review_position"%string \/ a = "consider_partial_profit"%string) /\
   forall pct,
     execute_risk_action db now i a pct
     = (Err ("Unknown action: " ++ a)%string, db)).
Proof.
  intros Hp Hpf Hr Ha.
  pose proof (proposed_action_known db i price r a Hr Ha) as Hk.
  unfold proposable_actions in Hk. cbn in Hk.
  destruct Hk as [<-|[<-|[<-|[<-|[]]]]].
  - left. split; [now left|].
    destruct (exit_action_row db now i "execute_stop_loss" 100 p pf Hp Hpf
                eq_refl) as ((t & Ht & _ & Hprice) & Hrow & _ & Herr).
    cbv zeta in *. rewrite whole_quantity in Hrow.
    destruct Herr as [msg Hmsg]; [discriminate|].
    exists msg, t. eexists. split; [exact Hmsg|]. split; [exact Ht|].
    split; [exact Hprice|]. split; [exact Hrow|]. now cbn.
  - left. split; [now right|].
    destruct (exit_action_row db now i "execute_take_profit" 100 p pf Hp Hpf
                eq_refl) as ((t & Ht & _ & Hprice) & Hrow & _ & Herr).
    cbv zeta in *. rewrite whole_quantity in Hrow.
    destruct Herr as [msg Hmsg]; [discriminate|].
    exists msg, t. eexists. split; [exact Hmsg|]. split; [exact Ht|].
    split; [exact Hprice|]. split; [exact Hrow|]. now cbn.
  - right. split; [now left|]. intro pct.
    unfold execute_risk_action. now rewrite Hp, Hpf.
  - right. split; [now right|]. intro pct.
    unfold execute_risk_action. now rewrite Hp, Hpf.
Qed.

Lemma proposals_executed_witness :
  (("execute_stop_loss"%string = "execute_stop_loss"%string \/
    "execute_stop_loss"%string = "execute_take_profit"%string) /\
   exists msg t p',
     fst (execute_risk_action (db_with ten_units) 5 1 "execute_stop_loss" 100)
       = Err msg /\
     db_trades
       (snd (execute_risk_action (db_with ten_units) 5 1 "execute_stop_loss" 100))
     = [] ++ [t] /\
     tr_price t = 120 /\
     get_position
       (snd (execute_risk_action (db_with ten_units) 5 1 "execute_stop_loss" 100))
       1 = Some p' /\
     pos_status p' = "closed"%string /\
     pos_exit_price p' = Some 120)
  \/
  (("execute_stop_loss"%string = "review_position"%string \/
    "execute_stop_loss"%string = "consider_partial_profit"%string) /\
   forall pct,
     execute_risk_action (db_with ten_units) 5 1 "execute_stop_loss" pct
     = (Err ("Unknown action: " ++ "execute_stop_loss")%string,
        db_with ten_units)).
Proof.
  apply (proposals_executed (db_with ten_units) 5 1 (Some 90) ten_units
           (mkPortfolio 1 7 10000 5000) check_at_90 "execute_stop_loss").
  - reflexivity.
  - reflexivity.
  - vm_compute. reflexivity.
  - vm_compute. now left.
Defined.

(** ** Portfolio summary and planner: prices, totals and failures *)

Section Planner.

Import PortfolioService.

Lemma holdings_value_app (l1 l2 : list Holding) :
  holdings_value (l1 ++ l2) == holdings_value l1 + holdings_value l2.
Proof.
  induction l1 as [|h l1 IH].
  - cbn [app]. unfold holdings_value at 2. cbn [fold_right]. ring.
  - cbn [app]. unfold holdings_value in *. cbn [fold_right]. rewrite IH. ring.
Qed.

(** The loop over the rows never fails; it keeps the priced rows, in
    order, and adds up their values. *)
Lemma holdings_data_spec (feed : PriceFeed) (rows : list PortfolioHolding) :
  forall acc tv,
    exists new tv',
      holdings_data feed rows acc tv = Ok (acc ++ new, tv') /\
      Forall2 (entry_of feed) (filter (priced feed) rows) new /\
      tv' == tv + holdings_value new.
Proof.
  induction rows as [|row rows IH]; intros acc tv.
  - exists [], tv. cbn [holdings_data filter]. rewrite app_nil_r.
    split; [reflexivity|]. split; [constructor|].
    unfold holdings_value. cbn [fold_right]. ring.
  - cbn [holdings_data filter]. unfold priced at 1.
    destruct (feed (h_symbol row) (h_exchange row)) as [price|] eqn:Ef;
      cbn [truthy_opt]; [|apply IH].
    destruct (truthy price) eqn:Et; [|apply IH].
    assert (Hpct : exists pct,
              (if gtb (h_total_cost row) 0
               then r <- div (h_quantity row * price - h_total_cost row)
                             (h_total_cost row) ;; Ok (r * 100)
               else Ok 0) = Ok pct).
    { destruct (gtb (h_total_cost row) 0) eqn:Ec; [|now eexists].
      apply gtb_true in Ec. rewrite div_ok by lra. now eexists. }
    destruct Hpct as [pct Hpct]. rewrite Hpct. cbn [bind].
    match goal with
    | |- context [holdings_data feed rows (acc ++ [?h]) ?t] =>
        destruct (IH (acc ++ [h]) t) as (new & tv' & Hr & Hf & Hv);
        exists (h :: new), tv'
    end.
    split; [now rewrite Hr, <- app_assoc|]. split.
    + constructor; [|exact Hf]. unfold entry_of. cbn.
      repeat split; try reflexivity; try exact Ef. now apply truthy_true.
    + rewrite Hv. unfold holdings_value. cbn [fold_right current_value]. ring.
Qed.

Lemma allocation_loop_ok (total : Q) (hs : list Holding) :
  ~ total == 0 -> forall acc, exists d, allocation_loop hs total acc = Ok d.
Proof.
  intro Ht. induction hs as [|h hs IH]; intro acc.
  - now exists acc.
  - cbn [allocation_loop]. rewrite (div_ok _ _ Ht). cbn [bind]. apply IH.
Qed.

Lemma calculate_allocation_ok (hs : list Holding) (total : Q) :
  exists d, _calculate_allocation hs total = Ok d.
Proof.
  unfold _calculate_allocation. destruct (gtb total 0) eqn:E.
  - apply gtb_true in E. apply allocation_loop_ok. lra.
  - now eexists.
Qed.

(** The summary of a portfolio that is found. *)
Lemma summary_spec (db : Store) (feed : PriceFeed) (i : Z) (pf : Portfolio) :
  get_portfolio db i = Some pf ->
  exists s,
    get_portfolio_summary db feed i = Ok s /\
    Forall2 (entry_of feed) (filter (priced feed) (held_rows db i))
      (summary_holdings s) /\
    total_value s == cash_of pf + holdings_value (summary_holdings s) /\
    exists tv,
      tv == holdings_value (summary_holdings s) /\
      _calculate_allocation (summary_holdings s) tv = Ok (allocation s).
Proof.
  intro Hpf. unfold get_portfolio_summary, cash_of. rewrite Hpf.
  fold (held_rows db i).
  destruct (holdings_data_spec feed (held_rows db i) [] 0)
    as (new & tv & Hr & Hf & Hv).
  rewrite Hr. cbn [bind app fst snd].
  destruct (calculate_allocation_ok new tv) as [alloc Ha].
  rewrite Ha. cbn [bind]. eexists. split; [reflexivity|].
  cbn [summary_holdings total_value allocation]. split; [exact Hf|].
  split.
  - rewrite Hv. destruct (cash_balance pf) as [c|]; [|ring].
    destruct (truthy c) eqn:Ec; [ring|].
    apply truthy_false in Ec. rewrite Ec. ring.
  - exists tv. split; [rewrite Hv; ring|exact Ha].
Qed.

Lemma required_trades_ok (total : Q) (target : dict) (hs : list Holding) :
  Forall (fun h => ~ current_price h == 0) hs ->
  forall acc, exists ts, required_trades hs total target acc = Ok ts.
Proof.
  induction 1 as [|h hs Hh Hhs IH]; intro acc.
  - now exists acc.
  - cbn [required_trades]. cbv zeta.
    destruct (gtb _ 10); [|apply IH].
    rewrite (div_ok _ _ Hh). cbn [bind]. apply IH.
Qed.

End Planner.

Section PlannerTrades.

Import PortfolioService.

(** Every holding whose value difference exceeds the minimum gets its
    trade, and the trades collected before stay. *)
Lemma required_trades_complete (total : Q) (target : dict) (hs : list Holding) :
  forall acc ts,
    required_trades hs total target acc = Ok ts ->
    (forall t, In t acc -> In t ts) /\
    (forall h, In h hs ->
       let delta := total * get_or_zero target (symbol h) - current_value h in
       10 < Qabs delta ->
       In (mkRebalancingTrade (symbol h) (exchange h)
             (if gtb (delta / current_price h) 0 then "BUY" else "SELL")
             (Qabs (delta / current_price h)) (current_price h) delta) ts).
Proof.
  induction hs as [|h hs IH]; intros acc ts.
  - cbn. intros [= <-]. split; [auto|]. intros h [].
  - cbn [required_trades]. cbv zeta.
    set (delta := total * get_or_zero target (symbol h) - current_value h).
    destruct (gtb (Qabs delta) 10) eqn:E.
    + destruct (div delta (current_price h)) as [q|m] eqn:Ed; [|discriminate].
      apply div_inv in Ed. destruct Ed as [_ ->].
      cbn [bind]. intro H. destruct (IH _ _ H) as [Hacc Hin]. split.
      * intros t Ht. apply Hacc. apply in_or_app. now left.
      * intros h' [<-|Hh'] Hd; [|now apply Hin].
        apply Hacc. apply in_or_app. right. now left.
    + intro H. destruct (IH _ _ H) as [Hacc Hin]. split; [exact Hacc|].
      intros h' [<-|Hh'] Hd; [|now apply Hin].
      apply gtb_false in E. fold delta in Hd. lra.
Qed.

(** With fresh, distinct symbols the allocation gets one weight per
    holding. *)
Lemma allocation_loop_fresh (total : Q) (hs : list Holding) :
  ~ total == 0 ->
  NoDup (map symbol hs) ->
  forall acc,
    (forall h, In h hs -> ~ In (symbol h) (map fst acc)) ->
    allocation_loop hs total acc =
    Ok (acc ++ map (fun h => (symbol h, current_value h / total)) hs).
Proof.
  intros Ht. induction hs as [|h hs IH]; intros Hnd acc Hf.
  - cbn. now rewrite app_nil_r.
  - cbn [map] in Hnd. inversion Hnd as [|? ? Hh Hnd']; subst.
    cbn [allocation_loop]. rewrite (div_ok _ _ Ht). cbn [bind].
    rewrite dict_set_fresh by (apply Hf; now left).
    rewrite IH; [cbn [map]; now rewrite <- app_assoc|exact Hnd'|].
    intros h' Hh' F. rewrite map_app in F. apply in_app_or in F.
    destruct F as [F|[F|[]]].
    + apply (Hf h'); [now right|exact F].
    + cbn in F. apply Hh. rewrite F. now apply in_map.
Qed.

Lemma weights_sum (total : Q) (hs : list Holding) :
  ~ total == 0 ->
  dict_sum (map (fun h => (symbol h, current_value h / total)) hs)
  == holdings_value hs / total.
Proof.
  intro Ht. induction hs as [|h hs IH].
  - unfold dict_sum, holdings_value. cbn [map fold_right]. field. exact Ht.
  - cbn [map]. rewrite dict_sum_cons, IH.
    unfold holdings_value. cbn [fold_right]. field. exact Ht.
Qed.

Lemma entries_priced (feed : PriceFeed) (rows : list PortfolioHolding)
    (hs : list Holding) :
  Forall2 (entry_of feed) rows hs ->
  Forall (fun h => ~ current_price h == 0) hs.
Proof.
  induction 1 as [|row h rows hs (_ & _ & _ & _ & Hp & _) _ IH];
    constructor; assumption.
Qed.

End PlannerTrades.

(** X22: the summary keeps exactly the priced holdings.  For a portfolio
    that is found the summary succeeds.  Its holdings are, in order, the
    rows of the portfolio with positive quantity whose price is available
    and not zero, each valued at quantity times that price; a row without
    a price is left out and does not stop the others.  The total value is
    the cash balance (0 when missing) plus the value of these holdings. *)
Theorem summary_keeps_priced_holdings (db : PortfolioService.Store)
    (feed : PortfolioService.PriceFeed) (i : Z)
    (pf : PortfolioService.Portfolio) :
  PortfolioService.get_portfolio db i = Some pf ->
  exists s,
    PortfolioService.get_portfolio_summary db feed i = Ok s /\
    Forall2 (entry_of feed) (filter (priced feed) (held_rows db i))
      (PortfolioService.summary_holdings s) /\
    PortfolioService.total_value s
      == cash_of pf + holdings_value (PortfolioService.summary_holdings s).
Proof.
  intro Hpf.
  destruct (summary_spec db feed i pf Hpf) as (s & Hs & Hf & Ht & _).
  exists s. now repeat split.
Qed.

Lemma summary_keeps_priced_holdings_witness :
  exists s,
    PortfolioService.get_portfolio_summary store_three_coins feed_three_coins 1
      = Ok s /\
    Forall2 (entry_of feed_three_coins)
      (filter (priced feed_three_coins) (held_rows store_three_coins 1))
      (PortfolioService.summary_holdings s) /\
    PortfolioService.total_value s
      == cash_of (PortfolioService.mkPortfolio 1 (Some 150) "aggressive" true 0.05)
         + holdings_value (PortfolioService.summary_holdings s).
Proof.
  apply (summary_keeps_priced_holdings store_three_coins feed_three_coins 1
           (PortfolioService.mkPortfolio 1 (Some 150) "aggressive" true 0.05)).
  reflexivity.
Defined.

(** X23: the allocation weights sum to one.  When the holdings of a
    summary have distinct symbols and a positive value, the allocation has
    one weight per holding, under its symbol and in order, and the weights
    sum to 1: they are shares of the holdings' value, not of the total
    value with cash. *)
Theorem allocation_sums_to_one (db : PortfolioService.Store)
    (feed : PortfolioService.PriceFeed) (i : Z) (s : PortfolioService.Summary) :
  PortfolioService.get_portfolio_summary db feed i = Ok s ->
  NoDup (map PortfolioService.symbol (PortfolioService.summary_holdings s)) ->
  0 < holdings_value (PortfolioService.summary_holdings s) ->
  map fst (PortfolioService.allocation s)
    = map PortfolioService.symbol (PortfolioService.summary_holdings s) /\
  dict_sum (PortfolioService.allocation s) == 1.
Proof.
  intros Hs Hnd Hv.
  destruct (PortfolioService.get_portfolio db i) as [pf|] eqn:Hpf.
  - destruct (summary_spec db feed i pf Hpf)
      as (s' & Hs' & _ & _ & tv & Htv & Ha).
    rewrite Hs in Hs'. injection Hs' as <-.
    unfold PortfolioService._calculate_allocation in Ha.
    assert (Hg : gtb tv 0 = true) by (apply gtb_true; lra).
    assert (Hn : ~ tv == 0) by lra.
    rewrite Hg in Ha.
    rewrite (allocation_loop_fresh tv _ Hn Hnd []) in Ha by (intros h _ []).
    cbn [app] in Ha. injection Ha as Ha. rewrite <- Ha. split.
    + rewrite map_map. cbn [fst]. reflexivity.
    + rewrite (weights_sum tv _ Hn). rewrite <- Htv. field. exact Hn.
  - unfold PortfolioService.get_portfolio_summary in Hs.
    rewrite Hpf in Hs. discriminate.
Qed.

Lemma allocation_sums_to_one_witness :
  map fst (PortfolioService.allocation summary_three_coins)
    = map PortfolioService.symbol
        (PortfolioService.summary_holdings summary_three_coins) /\
  dict_sum (PortfolioService.allocation summary_three_coins) == 1.
Proof.
  apply (allocation_sums_to_one store_three_coins feed_three_coins 1
           summary_three_coins).
  - vm_compute. reflexivity.
  - cbn. repeat constructor; cbn; intuition discriminate.
  - reflexivity.
Defined.

(** X24: the planner does not fail.  Whatever the store and the feeds,
    [execute_rebalancing] returns a success dict: holdings with a zero or
    missing price never reach the division by the price.  For a portfolio
    that is not found or has automatic rebalancing switched off it reports
    that no rebalancing is needed. *)
Theorem planner_never_fails (db : PortfolioService.Store)
    (feed_check feed_plan : PortfolioService.PriceFeed) (i : Z) :
  is_ok (PortfolioService.execute_rebalancing db feed_check feed_plan i) = true /\
  (match PortfolioService.get_portfolio db i with
   | Some pf => PortfolioService.auto_rebalance pf = false
   | None => True
   end ->
   PortfolioService.execute_rebalancing db feed_check feed_plan i
   = Ok PortfolioService.NoRebalancingNeeded).
Proof.
  unfold PortfolioService.execute_rebalancing,
    PortfolioService.check_rebalancing_needed.
  destruct (PortfolioService.get_portfolio db i) as [pf|] eqn:Hpf;
    [|now split].
  destruct (PortfolioService.auto_rebalance pf); [|now split].
  cbn [negb]. split; [|discriminate].
  destruct (summary_spec db feed_plan i pf Hpf) as (s & Hs & Hf & _).
  destruct (fst _); cbn [negb]; [|reflexivity].
  rewrite Hs.
  destruct (required_trades_ok (PortfolioService.total_value s)
              (PortfolioService._get_target_allocation pf)
              (PortfolioService.summary_holdings s)
              (entries_priced _ _ _ Hf) []) as [ts Hts].
  now rewrite Hts.
Qed.

(** X25: a holding outside the target allocation is sold in full.  Under
    a feed of positive prices, when the planner generates trades, every
    holding of the summary whose symbol has no target weight and whose
    value exceeds the minimum of 10 gets a SELL trade for its whole
    quantity. *)
Theorem untargeted_holding_sold_in_full (db : PortfolioService.Store)
    (feed_check feed_plan : PortfolioService.PriceFeed) (i : Z)
    (pf : PortfolioService.Portfolio) (s : PortfolioService.Summary)
    (trades : list PortfolioService.RebalancingTrade)
    (h : PortfolioService.Holding) :
  positive_feed feed_plan ->
  PortfolioService.get_portfolio db i = Some pf ->
  PortfolioService.get_portfolio_summary db feed_plan i = Ok s ->
  PortfolioService.execute_rebalancing db feed_check feed_plan i
    = Ok (PortfolioService.Generated trades) ->
  In h (PortfolioService.summary_holdings s) ->
  dict_get (PortfolioService._get_target_allocation pf)
           (PortfolioService.symbol h) = None ->
  10 < PortfolioService.current_value h ->
  exists t,
    In t trades /\
    PortfolioService.rt_symbol t = PortfolioService.symbol h /\
    PortfolioService.rt_type t = "SELL"%string /\
    PortfolioService.rt_quantity t == PortfolioService.quantity h /\
    PortfolioService.rt_value_difference t
      == - PortfolioService.current_value h.
Proof.
  intros Hfeed Hpf Hs Hex Hin Hnone Hval.
  unfold PortfolioService.execute_rebalancing in Hex.
  destruct (negb _); [discriminate|].
  rewrite Hs, Hpf in Hex.
  destruct (PortfolioService.required_trades _ _ _ _) as [ts|m] eqn:Ets;
    [|discriminate].
  cbn [bind] in Hex.
  assert (Ets' : ts = trades) by congruence. subst ts. clear Hex.
  destruct (required_trades_complete _ _ _ _ _ Ets) as [_ Hall].
  specialize (Hall h Hin). cbv zeta in Hall.
  unfold PortfolioService.get_or_zero in Hall. rewrite Hnone in Hall.
  set (delta := PortfolioService.total_value s * 0
                - PortfolioService.current_value h) in *.
  assert (Ed : delta == - PortfolioService.current_value h)
    by (unfold delta; ring).
  assert (Habs : 10 < Qabs delta).
  { rewrite Ed, Qabs_opp, Qabs_pos; lra. }
  specialize (Hall Habs).
  (* the price and the quantity of the holding *)
  destruct (summary_spec db feed_plan i pf Hpf) as (s' & Hs' & Hf & _).
  rewrite Hs in Hs'. injection Hs' as <-.
  assert (Hrow : exists row, entry_of feed_plan row h).
  { clear - Hf Hin. induction Hf as [|row h' rows hs He _ IH]; [destruct Hin|].
    destruct Hin as [<-|Hin]; [now exists row|now apply IH]. }
  destruct Hrow as (row & _ & _ & Hq & Hprice & _ & Hcv).
  apply Hfeed in Hprice.
  eexists. split; [exact Hall|].
  cbn [PortfolioService.rt_symbol PortfolioService.rt_type
       PortfolioService.rt_quantity PortfolioService.rt_value_difference].
  split; [reflexivity|].
  assert (Hneg : delta / PortfolioService.current_price h <= 0).
  { apply Qle_shift_div_r; [exact Hprice|]. lra. }
  split; [|split; [|exact Ed]].
  - apply gtb_false in Hneg. now rewrite Hneg.
  - rewrite Qabs_neg by exact Hneg. rewrite Ed, Hcv, Hq. field. lra.
Qed.

Lemma untargeted_holding_sold_in_full_witness :
  exists t,
    In t trades_three_coins /\
    PortfolioService.rt_symbol t = "DOT/USDT"%string /\
    PortfolioService.rt_type t = "SELL"%string /\
    PortfolioService.rt_quantity t == 5 /\
    PortfolioService.rt_value_difference t == - 100.
Proof.
  apply (untargeted_holding_sold_in_full store_three_coins
           feed_three_coins feed_three_coins 1
           (PortfolioService.mkPortfolio 1 (Some 150) "aggressive" true 0.05)
           summary_three_coins trades_three_coins
           (PortfolioService.mkHolding "DOT/USDT" "binance" 5 30 20 150 100
              (-50) (-5000 # 150))).
  - intros symbol exchange price. unfold feed_three_coins.
    destruct (String.eqb symbol "BTC/USDT"); [now intros [= <-]|].
    destruct (String.eqb symbol "DOT/USDT"); [now intros [= <-]|].
    destruct (String.eqb symbol "ETH/USDT"); [now intros [= <-]|].
    discriminate.
  - reflexivity.
  - vm_compute. reflexivity.
  - vm_compute. reflexivity.
  - right. now left.
  - reflexivity.
  - reflexivity.
Defined.

(** X26: every target allocation is complete.  Whatever the risk level
    of a portfolio, also one that is not in the table, the weights of its
    target allocation sum to 1 and each weight is positive. *)
Theorem target_allocation_sums_to_one (pf : PortfolioService.Portfolio) :
  dict_sum (PortfolioService._get_target_allocation pf) == 1 /\
  Forall (fun kv => 0 < snd kv) (PortfolioService._get_target_allocation pf).
Proof.
  unfold PortfolioService._get_target_allocation,
    PortfolioService.risk_allocations.
  cbn [find fst].
  destruct (String.eqb "conservative" (PortfolioService.risk_level pf)).
  - split; [reflexivity|]. repeat constructor.
  - destruct (String.eqb "medium" (PortfolioService.risk_level pf)).
    + split; [reflexivity|]. repeat constructor.
    + destruct (String.eqb "aggressive" (PortfolioService.risk_level pf)).
      * split; [reflexivity|]. repeat constructor.
      * split; [reflexivity|]. repeat constructor.
Qed.

(** X27: the rebalancing flag.  For a portfolio with automatic
    rebalancing whose summary succeeds, rebalancing is flagged exactly when
    some symbol of the current allocation has a weight that differs from
    its target weight (0 when the symbol has none) by more than the
    portfolio's threshold; and the deviations reported are exactly these
    symbols' deviations, each above the threshold. *)
Theorem rebalancing_flag_means_deviation (db : PortfolioService.Store)
    (feed : PortfolioService.PriceFeed) (i : Z)
    (pf : PortfolioService.Portfolio) (s : PortfolioService.Summary) :
  PortfolioService.get_portfolio db i = Some pf ->
  PortfolioService.auto_rebalance pf = true ->
  PortfolioService.get_portfolio_summary db feed i = Ok s ->
  let target := PortfolioService._get_target_allocation pf in
  let r := PortfolioService.check_rebalancing_needed db feed i in
  (fst r = true <->
   exists k w,
     In (k, w) (PortfolioService.allocation s) /\
     PortfolioService.rebalance_threshold pf
       < Qabs (w - PortfolioService.get_or_zero target k)) /\
  (forall d, In d (snd r) <->
     exists k w,
       In (k, w) (PortfolioService.allocation s) /\
       PortfolioService.rebalance_threshold pf
         < Qabs (w - PortfolioService.get_or_zero target k) /\
       d = PortfolioService.mkDeviation k w
             (PortfolioService.get_or_zero target k)
             (Qabs (w - PortfolioService.get_or_zero target k))).
Proof.
  intros Hpf Ha Hs. cbv zeta.
  unfold PortfolioService.check_rebalancing_needed.
  rewrite Hpf, Ha, Hs. cbn [negb fst snd].
  set (target := PortfolioService._get_target_allocation pf).
  assert (Hin : forall d,
            In d (PortfolioService.deviations_of
                    (PortfolioService.allocation s) target
                    (PortfolioService.rebalance_threshold pf)) <->
            exists k w,
              In (k, w) (PortfolioService.allocation s) /\
              PortfolioService.rebalance_threshold pf
                < Qabs (w - PortfolioService.get_or_zero target k) /\
              d = PortfolioService.mkDeviation k w
                    (PortfolioService.get_or_zero target k)
                    (Qabs (w - PortfolioService.get_or_zero target k))).
  { intro d. unfold PortfolioService.deviations_of. rewrite in_flat_map. split.
    - intros ([k w] & Hkw & Hd). cbn [fst snd] in Hd.
      destruct (gtb _ _) eqn:E; [|destruct Hd].
      destruct Hd as [<-|[]]. apply gtb_true in E.
      exists k, w. now repeat split.
    - intros (k & w & Hkw & Hlt & ->). exists (k, w). split; [exact Hkw|].
      cbn [fst snd]. apply gtb_true in Hlt. rewrite Hlt. now left. }
  split; [|exact Hin].
  destruct (PortfolioService.deviations_of _ _ _) as [|d ds] eqn:Ed.
  - split; [discriminate|].
    intros (k & w & Hkw & Hlt).
    destruct (proj2 (Hin _) (ex_intro _ k (ex_intro _ w
                (conj Hkw (conj Hlt eq_refl))))).
  - split; [|reflexivity]. intros _.
    destruct (proj1 (Hin d) (or_introl eq_refl)) as (k & w & Hkw & Hlt & _).
    now exists k, w.
Qed.

Lemma rebalancing_flag_means_deviation_witness :
  let target := PortfolioService._get_target_allocation
                  (PortfolioService.mkPortfolio 1 (Some 150) "aggressive"
                     true 0.05) in
  let r := PortfolioService.check_rebalancing_needed store_three_coins
             feed_three_coins 1 in
  (fst r = true <->
   exists k w,
     In (k, w) (PortfolioService.allocation summary_three_coins) /\
     0.05 < Qabs (w - PortfolioService.get_or_zero target k)) /\
  (forall d, In d (snd r) <->
     exists k w,
       In (k, w) (PortfolioService.allocation summary_three_coins) /\
       0.05 < Qabs (w - PortfolioService.get_or_zero target k) /\
       d = PortfolioService.mkDeviation k w
             (PortfolioService.get_or_zero target k)
             (Qabs (w - PortfolioService.get_or_zero target k))).
Proof.
  apply (rebalancing_flag_means_deviation store_three_coins feed_three_coins 1
           (PortfolioService.mkPortfolio 1 (Some 150) "aggressive" true 0.05)
           summary_three_coins).
  - reflexivity.
  - reflexivity.
  - vm_compute. reflexivity.
Defined.

(** ** The holdings ledger *)

Section LedgerRows.

Import Ledger.

Lemma find_update_first (test : Holding -> bool) (h h' : Holding)
    (l : list Holding) :
  find test l = Some h -> test h' = true ->
  find test (update_first test h' l) = Some h'.
Proof.
  intros Hf Ht. induction l as [|x l IH]; [discriminate|].
  cbn [find update_first] in *. destruct (test x) eqn:E.
  - cbn [find]. now rewrite Ht.
  - cbn [find]. rewrite E. now apply IH.
Qed.

Lemma find_app_new (test : Holding -> bool) (h : Holding) (l : list Holding) :
  find test l = None -> test h = true -> find test (l ++ [h]) = Some h.
Proof.
  intros Hf Ht. induction l as [|x l IH]; cbn [app find] in *.
  - now rewrite Ht.
  - destruct (test x); [discriminate|]. now apply IH.
Qed.

Lemma delete_first_app_new (test : Holding -> bool) (h : Holding)
    (l : list Holding) :
  find test l = None -> test h = true -> delete_first test (l ++ [h]) = l.
Proof.
  intros Hf Ht. induction l as [|x l IH]; cbn [app find delete_first] in *.
  - now rewrite Ht.
  - destruct (test x); [discriminate|]. now rewrite IH.
Qed.

Lemma other_rows_update_first (pid : Z) (sym exch : string) (h' : Holding)
    (l : list Holding) :
  is_holding pid sym exch h' = true ->
  other_rows pid sym exch (update_first (is_holding pid sym exch) h' l)
  = other_rows pid sym exch l.
Proof.
  intro Ht. unfold other_rows. induction l as [|x l IH]; [reflexivity|].
  cbn [update_first]. destruct (is_holding pid sym exch x) eqn:E.
  - cbn [filter]. now rewrite Ht, E.
  - cbn [filter]. rewrite E. cbn [negb]. now rewrite IH.
Qed.

Lemma other_rows_delete_first (pid : Z) (sym exch : string) (l : list Holding) :
  other_rows pid sym exch (delete_first (is_holding pid sym exch) l)
  = other_rows pid sym exch l.
Proof.
  unfold other_rows. induction l as [|x l IH]; [reflexivity|].
  cbn [delete_first]. destruct (is_holding pid sym exch x) eqn:E.
  - cbn [filter]. now rewrite E.
  - cbn [filter]. rewrite E. cbn [negb]. now rewrite IH.
Qed.

Lemma length_delete_first (test : Holding -> bool) (h : Holding)
    (l : list Holding) :
  find test l = Some h -> S (length (delete_first test l)) = length l.
Proof.
  induction l as [|x l IH]; [discriminate|].
  cbn [find delete_first]. destruct (test x); [reflexivity|].
  intro H. cbn [length]. now rewrite IH.
Qed.

Lemma find_replace_portfolio (p p' : Portfolio) (l : list Portfolio) :
  find (fun q => Z.eqb (id q) (id p')) l = Some p ->
  find (fun q => Z.eqb (id q) (id p')) (replace_portfolio p' l) = Some p'.
Proof.
  induction l as [|q l IH]; [discriminate|].
  cbn [find replace_portfolio].
  destruct (Z.eqb (id q) (id p')) eqn:E; intro H.
  - cbn [find]. now rewrite Z.eqb_refl.
  - cbn [find]. rewrite E. now apply IH.
Qed.

Lemma get_holding_is (db : Store) (pid : Z) (sym exch : string) (h : Holding) :
  get_holding db pid sym exch = Some h -> is_holding pid sym exch h = true.
Proof.
  intro H. apply find_some in H. now destruct H.
Qed.

End LedgerRows.

Lemma is_holding_refl (hid pid : Z) (sym exch : string) (q a c t v u : Q)
    (ca : Z) (ua : option Z) :
  Ledger.is_holding pid sym exch
    (Ledger.mkHolding hid pid sym exch q a c t v u ca ua) = true.
Proof.
  unfold Ledger.is_holding. cbn.
  now rewrite Z.eqb_refl, !String.eqb_refl.
Qed.

Lemma is_holding_keys (pid : Z) (sym exch : string) (h : Ledger.Holding)
    (q a c t v u : Q) (ca : Z) (ua : option Z) :
  Ledger.is_holding pid sym exch h = true ->
  Ledger.is_holding pid sym exch
    (Ledger.mkHolding (Ledger.holding_id h) (Ledger.portfolio_id h)
       (Ledger.symbol h) (Ledger.exchange h) q a c t v u ca ua) = true.
Proof. now unfold Ledger.is_holding. Qed.

(** X28: buying keeps the books at average cost.  For a purchase of a
    positive quantity (and no negative quantity on the books),
    [add_holding] succeeds; looking the holding up afterwards gives the
    quantity held before plus the quantity bought, at a total cost of the
    cost before plus quantity times price, and the total cost is the
    quantity times the new average price.  When something was held before,
    the new average price lies between the old average price and the
    purchase price.  The rows of other holdings are untouched. *)
Theorem add_holding_average_cost (db : Ledger.Store) (now : Z) (pid : Z)
    (sym exch : string) (qty price : Q) :
  0 < qty ->
  0 <= held_quantity db pid sym exch ->
  let r := Ledger.add_holding db now pid sym exch qty price in
  exists a h',
    fst r = Ok a /\
    Ledger.get_holding (snd r) pid sym exch = Some h' /\
    Ledger.ad_quantity a = Ledger.quantity h' /\
    Ledger.ad_average_price a = Ledger.average_price h' /\
    Ledger.quantity h' == held_quantity db pid sym exch + qty /\
    Ledger.total_cost h' == held_cost db pid sym exch + qty * price /\
    Ledger.total_cost h' == Ledger.quantity h' * Ledger.average_price h' /\
    (forall h0,
       Ledger.get_holding db pid sym exch = Some h0 ->
       (Ledger.average_price h0 <= price ->
        Ledger.average_price h0 <= Ledger.average_price h' <= price) /\
       (price <= Ledger.average_price h0 ->
        price <= Ledger.average_price h' <= Ledger.average_price h0)) /\
    other_rows pid sym exch (Ledger.holdings (snd r))
      = other_rows pid sym exch (Ledger.holdings db).
Proof.
  intros Hq Hheld. cbv zeta.
  unfold held_quantity, held_cost in *. unfold Ledger.add_holding.
  destruct (Ledger.get_holding db pid sym exch) as [h0|] eqn:Hg.
  - set (q0 := Ledger.quantity h0) in *.
    set (a0 := Ledger.average_price h0) in *.
    assert (Hpos : 0 < q0 + qty) by lra.
    assert (Hn : ~ q0 + qty == 0) by lra.
    assert (Hgt : gtb (q0 + qty) 0 = true) by now apply gtb_true.
    rewrite Hgt, (div_ok _ _ Hn). cbn [fst snd].
    pose proof (get_holding_is db pid sym exch h0 Hg) as Hk.
    do 2 eexists. split; [reflexivity|]. split.
    + unfold Ledger.get_holding. cbn [Ledger.holdings].
      apply (find_update_first _ h0); [exact Hg|].
      now apply is_holding_keys.
    + cbn [Ledger.ad_quantity Ledger.ad_average_price Ledger.quantity
           Ledger.average_price Ledger.total_cost Ledger.holdings].
      split; [reflexivity|]. split; [reflexivity|]. split; [reflexivity|].
      split; [reflexivity|]. split; [field; exact Hn|]. split.
      * intros h [= <-]. fold q0 a0.
        assert (Hd : 0 <= qty * (price - a0) -> a0 <= (q0 * a0 + qty * price) / (q0 + qty)).
        { intro H. apply Qle_shift_div_l; [exact Hpos|]. lra. }
        assert (Hu : 0 <= q0 * (price - a0) -> (q0 * a0 + qty * price) / (q0 + qty) <= price).
        { intro H. apply Qle_shift_div_r; [exact Hpos|]. lra. }
        assert (Hd' : 0 <= q0 * (a0 - price) -> price <= (q0 * a0 + qty * price) / (q0 + qty)).
        { intro H. apply Qle_shift_div_l; [exact Hpos|]. lra. }
        assert (Hu' : 0 <= qty * (a0 - price) -> (q0 * a0 + qty * price) / (q0 + qty) <= a0).
        { intro H. apply Qle_shift_div_r; [exact Hpos|]. lra. }
        split; intro Hle.
        -- split; [apply Hd|apply Hu]; apply Qmult_le_0_compat; lra.
        -- split; [apply Hd'|apply Hu']; apply Qmult_le_0_compat; lra.
      * now apply other_rows_update_first, is_holding_keys.
  - cbn [fst snd]. do 2 eexists. split; [reflexivity|]. split.
    + unfold Ledger.get_holding. cbn [Ledger.holdings].
      apply find_app_new; [exact Hg|apply is_holding_refl].
    + cbn [Ledger.ad_quantity Ledger.ad_average_price Ledger.quantity
           Ledger.average_price Ledger.total_cost Ledger.holdings].
      split; [reflexivity|]. split; [reflexivity|]. split; [ring|].
      split; [ring|]. split; [reflexivity|]. split; [discriminate|].
      unfold other_rows. rewrite filter_app. cbn [filter].
      rewrite is_holding_refl. cbn [negb]. now rewrite app_nil_r.
Qed.

Lemma add_holding_average_cost_witness :
  let r := Ledger.add_holding ledger_btc 9 1 "BTC/USDT" "binance" 1 160 in
  exists a h',
    fst r = Ok a /\
    Ledger.get_holding (snd r) 1 "BTC/USDT" "binance" = Some h' /\
    Ledger.ad_quantity a = Ledger.quantity h' /\
    Ledger.ad_average_price a = Ledger.average_price h' /\
    Ledger.quantity h' == held_quantity ledger_btc 1 "BTC/USDT" "binance" + 1 /\
    Ledger.total_cost h'
      == held_cost ledger_btc 1 "BTC/USDT" "binance" + 1 * 160 /\
    Ledger.total_cost h' == Ledger.quantity h' * Ledger.average_price h' /\
    (forall h0,
       Ledger.get_holding ledger_btc 1 "BTC/USDT" "binance" = Some h0 ->
       (Ledger.average_price h0 <= 160 ->
        Ledger.average_price h0 <= Ledger.average_price h' <= 160) /\
       (160 <= Ledger.average_price h0 ->
        160 <= Ledger.average_price h' <= Ledger.average_price h0)) /\
    other_rows 1 "BTC/USDT" "binance" (Ledger.holdings (snd r))
      = other_rows 1 "BTC/USDT" "binance" (Ledger.holdings ledger_btc).
Proof.
  apply (add_holding_average_cost ledger_btc 9 1 "BTC/USDT" "binance" 1 160).
  - reflexivity.
  - unfold Qle. simpl. lia.
Defined.

(** X29: what a sale is refused for, and what it books.  [remove_holding]
    fails exactly when the holding is not found or holds less than the
    quantity to sell, and then leaves the store as it was.  Otherwise it
    reports the realized profit [(price - average_price) * quantity] and
    the quantity left; it credits the portfolio's cash balance with
    [quantity * price] and its realized profit with the realized profit
    (each counted from 0 when missing); a holding with quantity left keeps
    its average price, at a total cost of quantity left times average
    price; a holding sold out is deleted; other holdings are untouched. *)
Theorem remove_holding_books (db : Ledger.Store) (now : Z) (pid : Z)
    (sym exch : string) (qty price : Q) :
  let r := Ledger.remove_holding db now pid sym exch qty price in
  (is_ok (fst r) = false <->
   (Ledger.get_holding db pid sym exch = None \/
    exists h, Ledger.get_holding db pid sym exch = Some h /\
              Ledger.quantity h < qty)) /\
  (is_ok (fst r) = false -> snd r = db) /\
  (forall h,
     Ledger.get_holding db pid sym exch = Some h ->
     qty <= Ledger.quantity h ->
     let realized := (price - Ledger.average_price h) * qty in
     fst r = Ok (Ledger.mkRemoved sym qty price realized
                   (Ledger.quantity h - qty)) /\
     (forall p,
        Ledger.get_portfolio db pid = Some p ->
        exists p',
          Ledger.get_portfolio (snd r) pid = Some p' /\
          Ledger.cash_balance p'
            = Some (Ledger.or_zero (Ledger.cash_balance p) + qty * price) /\
          Ledger.realized_pnl p'
            = Some (Ledger.or_zero (Ledger.realized_pnl p) + realized)) /\
     (qty < Ledger.quantity h ->
      exists h',
        Ledger.get_holding (snd r) pid sym exch = Some h' /\
        Ledger.quantity h' = Ledger.quantity h - qty /\
        Ledger.average_price h' = Ledger.average_price h /\
        Ledger.total_cost h' = Ledger.quantity h' * Ledger.average_price h') /\
     (qty == Ledger.quantity h ->
      S (length (Ledger.holdings (snd r))) = length (Ledger.holdings db)) /\
     other_rows pid sym exch (Ledger.holdings (snd r))
       = other_rows pid sym exch (Ledger.holdings db)).
Proof.
  cbv zeta. unfold Ledger.remove_holding.
  destruct (Ledger.get_holding db pid sym exch) as [h|] eqn:Hg.
  - destruct (ltb (Ledger.quantity h) qty) eqn:El.
    + apply ltb_true in El. cbn [fst snd is_ok]. split; [|split].
      * split; [|reflexivity]. intros _. right. now exists h.
      * reflexivity.
      * intros h' [= <-] Hle. lra.
    + apply ltb_false in El. cbn [fst snd is_ok]. split; [|split].
      * split; [discriminate|].
        intros [F|(h' & [= <-] & F)]; [discriminate|lra].
      * discriminate.
      * intros h' [= <-] _.
        pose proof (get_holding_is db pid sym exch h Hg) as Hk.
        split; [reflexivity|]. split; [|split; [|split]].
        -- intros p Hp. rewrite Hp. cbn [Ledger.portfolios].
           exists (Ledger.mkPortfolio (Ledger.id p)
                     (Some (Ledger.or_zero (Ledger.cash_balance p) + qty * price))
                     (Some (Ledger.or_zero (Ledger.realized_pnl p)
                            + (price - Ledger.average_price h) * qty))).
           split; [|split; reflexivity].
           unfold Ledger.get_portfolio in *. cbn [Ledger.portfolios].
           pose proof Hp as Hid. apply find_some in Hid.
           destruct Hid as [_ Hid]. apply Z.eqb_eq in Hid. subst pid.
           exact (find_replace_portfolio p
                    (Ledger.mkPortfolio (Ledger.id p) _ _) _ Hp).
        -- intro Hlt.
           assert (E : leb (Ledger.quantity h - qty) 0 = false)
             by (apply leb_false; lra).
           rewrite E. cbn [Ledger.holdings].
           eexists. split.
           ++ unfold Ledger.get_holding. cbn [Ledger.holdings].
              apply (find_update_first _ h); [exact Hg|].
              now apply is_holding_keys.
           ++ now cbn.
        -- intro Heq.
           assert (E : leb (Ledger.quantity h - qty) 0 = true)
             by (apply leb_true; lra).
           rewrite E. cbn [Ledger.holdings].
           now apply (length_delete_first _ h).
        -- cbn [Ledger.holdings].
           destruct (leb (Ledger.quantity h - qty) 0).
           ++ apply other_rows_delete_first.
           ++ now apply other_rows_update_first, is_holding_keys.
  - cbn [fst snd is_ok]. split; [|split].
    + split; [now left|reflexivity].
    + reflexivity.
    + intros h F. discriminate.
Qed.

(** X30: buying and selling a new holding.  When a symbol that is not on
    the books is bought with [add_holding] and the same quantity is then
    sold with [remove_holding], the sale succeeds with nothing left and a
    realized profit of [(sale price - purchase price) * quantity]; the
    holdings are exactly those before the purchase; and the portfolio's
    cash balance has been credited with the proceeds of the sale, no cash
    having been taken for the purchase. *)
Theorem buy_then_sell_restores_holdings (db : Ledger.Store) (now now' : Z)
    (pid : Z) (sym exch : string) (qty price price' : Q) :
  Ledger.get_holding db pid sym exch = None ->
  0 < qty ->
  let db1 := snd (Ledger.add_holding db now pid sym exch qty price) in
  let r := Ledger.remove_holding db1 now' pid sym exch qty price' in
  exists rm,
    fst r = Ok rm /\
    Ledger.rm_realized_pnl rm = (price' - price) * qty /\
    Ledger.rm_remaining_quantity rm == 0 /\
    Ledger.holdings (snd r) = Ledger.holdings db /\
    Ledger.portfolios db1 = Ledger.portfolios db /\
    (forall p,
       Ledger.get_portfolio db pid = Some p ->
       exists p',
         Ledger.get_portfolio (snd r) pid = Some p' /\
         Ledger.cash_balance p'
           = Some (Ledger.or_zero (Ledger.cash_balance p) + qty * price')).
Proof.
  intros Hg Hq. cbv zeta.
  unfold Ledger.add_holding. rewrite Hg. cbn [snd].
  set (h := Ledger.mkHolding (Ledger.holding_seq db + 1) pid sym exch qty price
              price (qty * price) (qty * price) 0 now None).
  assert (Hk : Ledger.is_holding pid sym exch h = true)
    by apply is_holding_refl.
  unfold Ledger.remove_holding.
  assert (Hg1 : Ledger.get_holding
                  (Ledger.mkStore (Ledger.portfolios db)
                     (Ledger.holdings db ++ [h]) (Ledger.holding_seq db + 1))
                  pid sym exch = Some h).
  { unfold Ledger.get_holding. cbn [Ledger.holdings].
    now apply find_app_new. }
  rewrite Hg1. cbn [Ledger.quantity Ledger.average_price h].
  assert (E1 : ltb qty qty = false) by (apply ltb_false; lra).
  assert (E2 : leb (qty - qty) 0 = true) by (apply leb_true; lra).
  rewrite E1, E2. cbn [fst snd].
  eexists. split; [reflexivity|].
  cbn [Ledger.rm_realized_pnl Ledger.rm_remaining_quantity Ledger.holdings
       Ledger.portfolios].
  split; [reflexivity|]. split; [ring|].
  split; [now apply delete_first_app_new|]. split; [reflexivity|].
  intros p Hp. unfold Ledger.get_portfolio in *. cbn [Ledger.portfolios].
  rewrite Hp. cbn [Ledger.portfolios].
  exists (Ledger.mkPortfolio (Ledger.id p)
            (Some (Ledger.or_zero (Ledger.cash_balance p) + qty * price'))
            (Some (Ledger.or_zero (Ledger.realized_pnl p)
                   + (price' - price) * qty))).
  split; [|reflexivity].
  pose proof Hp as Hid. apply find_some in Hid.
  destruct Hid as [_ Hid]. apply Z.eqb_eq in Hid. subst pid.
  exact (find_replace_portfolio p (Ledger.mkPortfolio (Ledger.id p) _ _) _ Hp).
Qed.

Lemma buy_then_sell_restores_holdings_witness :
  let db1 := snd (Ledger.add_holding ledger_btc 9 1 "SOL/USDT" "binance" 3 20) in
  let r := Ledger.remove_holding db1 10 1 "SOL/USDT" "binance" 3 25 in
  exists rm,
    fst r = Ok rm /\
    Ledger.rm_realized_pnl rm = (25 - 20) * 3 /\
    Ledger.rm_remaining_quantity rm == 0 /\
    Ledger.holdings (snd r) = Ledger.holdings ledger_btc /\
    Ledger.portfolios db1 = Ledger.portfolios ledger_btc /\
    (forall p,
       Ledger.get_portfolio ledger_btc 1 = Some p ->
       exists p',
         Ledger.get_portfolio (snd r) 1 = Some p' /\
         Ledger.cash_balance p'
           = Some (Ledger.or_zero (Ledger.cash_balance p) + 3 * 25)).
Proof.
  apply (buy_then_sell_restores_holdings ledger_btc 9 10 1 "SOL/USDT" "binance"
           3 20 25).
  - reflexivity.
  - reflexivity.
Defined.
